(** * Cost analytics core of the cloud cost optimizer

    A shallow embedding of the arithmetic core of the server:
    - [AnomalyDetectionService] (anomalyDetectionService.js): statistics,
      moving average, z-score anomaly detection, health score, spike detection;
    - [AnalyticsEngine] (second module of awsCostService.js): OLS trend
      classification, resource opportunities, windowed forecast;
    - [CostAnalyticsService] (costAnalyticsService.js): regression forecast;
    - [AIInsightsEngine] (aiInsightsEngine.js) and the recommendation
      controller: rightsizing and idle-resource rules, cost anomalies;
    - [AWSCostService] (first module of awsCostService.js): the parsing of a
      cost-and-usage answer;
    - [DataFlowController] (budgetController.js): the aggregation of the cost
      documents, the analytics run, the resources of an import.

    Every function is written once, over an interface [JSNumber] of the
    operations the JavaScript source applies to its numbers, and is read at
    two instances:
    - [Binary64.float_number]: IEEE 754 binary64 on the kernel's primitive
      floats, the arithmetic a JavaScript engine performs; it is executable
      and is what the concrete runs below evaluate;
    - [Exact.xreal_number]: the real numbers extended with the results of a
      division by zero (infinities and NaN), without rounding: the arithmetic
      the formulas are meant in. A fact proved there says what the formulas
      give before rounding; what holds of the program is stated for every
      instance or in binary64, and the runs in binary64 show where rounding
      and underflow depart from the exact figures. *)

From Stdlib Require Import String Ascii DecimalString ZArith QArith List Permutation Bool Lia.
From Stdlib Require Import Reals Lra Psatz Zfloor.
From Stdlib Require Import Floats.
Import ListNotations.

Set Implicit Arguments.
Set Warnings "-inexact-float".

(** ** JavaScript numbers *)

Declare Scope js_scope.
Delimit Scope js_scope with js.

(** The operations of a JavaScript [Number] that the source uses. *)
Class JSNumber (N : Type) : Type := {
  (* an integer: a literal, an array length, a loop index *)
  of_Z : Z -> N;
  (* a decimal literal of the source text, such as 0.4 or 1.5 *)
  lit : Q -> N;
  inf : N;
  ninf : N;
  add : N -> N -> N;
  sub : N -> N -> N;
  mul : N -> N -> N;
  div : N -> N -> N;
  (* unary minus *)
  opp : N -> N;
  (* Math.sqrt *)
  sqrt : N -> N;
  (* a < b ; the source's a > b is [ltb b a] *)
  ltb : N -> N -> bool;
  (* a <= b ; the source's a >= b is [leb b a] *)
  leb : N -> N -> bool;
  (* Math.max and Math.min of two arguments *)
  max : N -> N -> N;
  min : N -> N -> N;
  (* parseFloat(x.toFixed(2)) *)
  toFixed2 : N -> N;
  (* ToBoolean on a number: false on 0, -0 and NaN *)
  truthy : N -> bool;
  (* Number.isFinite and Number.isNaN *)
  is_finite : N -> bool;
  is_nan : N -> bool
}.

Notation "x + y" := (add x y) : js_scope.
Notation "x - y" := (sub x y) : js_scope.
Notation "x * y" := (mul x y) : js_scope.
Notation "x / y" := (div x y) : js_scope.
Notation "- x" := (opp x) : js_scope.
Notation "x <? y" := (ltb x y) : js_scope.
Notation "x >? y" := (ltb y x) : js_scope.
Notation "x <=? y" := (leb x y) : js_scope.
Notation "x >=? y" := (leb y x) : js_scope.

(** *** Binary64: the numbers of the JavaScript engine *)

Module Binary64.

(** The double nearest to the rational [q] (ties to even): how the engine
    reads a decimal literal. *)
Definition of_Q (q : Q) : float :=
  match Qnum q with
  | Z0 => PrimFloat.zero
  | Zpos p =>
      SF2Prim (SFdiv prec emax (S754_finite false p 0) (S754_finite false (Qden q) 0))
  | Zneg p =>
      SF2Prim (SFdiv prec emax (S754_finite true p 0) (S754_finite false (Qden q) 0))
  end.

(** An integer as a double, rounded to nearest when it has more than 53 bits. *)
Definition of_Z (z : Z) : float := of_Q (z # 1).

(** The integer nearest to [m * 2^e * 100], the larger one on a tie: the
    digits [Number.prototype.toFixed(2)] prints for a positive magnitude. *)
Definition cents (m : positive) (e : Z) : Z :=
  if (0 <=? e)%Z then (Zpos m * 2 ^ e * 100)%Z
  else ((2 * (Zpos m * 100) + 2 ^ (- e)) / (2 * 2 ^ (- e)))%Z.

(** [parseFloat(x.toFixed(2))]: [toFixed] prints the exact value of [x]
    rounded to two decimals (magnitudes from 1e21 on and the non-finite values
    print as [String(x)]), and [parseFloat] reads the digits back as the
    nearest double. *)
Definition toFixed2 (x : float) : float :=
  match Prim2SF x with
  | S754_finite s m e =>
      if PrimFloat.leb 1e21 (PrimFloat.abs x) then x
      else match cents m e with
           | Zpos n =>
               SF2Prim (SFdiv prec emax (S754_finite s n 0) (S754_finite false 100 0))
           | _ => if s then PrimFloat.neg_zero else PrimFloat.zero
           end
  | S754_zero _ => PrimFloat.zero
  | _ => x
  end.

(** [Math.max] and [Math.min]: NaN when an argument is NaN, and +0 above -0. *)
Definition max (a b : float) : float :=
  if PrimFloat.is_nan a || PrimFloat.is_nan b then PrimFloat.nan
  else if PrimFloat.ltb a b then b
  else if PrimFloat.ltb b a then a
  else if PrimFloat.get_sign a then b else a.

Definition min (a b : float) : float :=
  if PrimFloat.is_nan a || PrimFloat.is_nan b then PrimFloat.nan
  else if PrimFloat.ltb a b then a
  else if PrimFloat.ltb b a then b
  else if PrimFloat.get_sign a then a else b.

Definition truthy (x : float) : bool :=
  negb (PrimFloat.is_nan x || PrimFloat.is_zero x).

#[global] Instance float_number : JSNumber float := {
  of_Z := of_Z;
  lit := of_Q;
  inf := PrimFloat.infinity;
  ninf := PrimFloat.neg_infinity;
  add := PrimFloat.add;
  sub := PrimFloat.sub;
  mul := PrimFloat.mul;
  div := PrimFloat.div;
  opp := PrimFloat.opp;
  sqrt := PrimFloat.sqrt;
  ltb := PrimFloat.ltb;
  leb := PrimFloat.leb;
  max := max;
  min := min;
  toFixed2 := toFixed2;
  truthy := truthy;
  is_finite := PrimFloat.is_finite;
  is_nan := PrimFloat.is_nan
}.

End Binary64.

(** *** Exact arithmetic: the reals with infinities and NaN *)

Module Exact.

Inductive xreal : Type :=
| Fin (r : R)
| PInf
| NInf
| NaN.

Definition Rltb (a b : R) : bool := if Rlt_dec a b then true else false.
Definition Rleb (a b : R) : bool := if Rle_dec a b then true else false.
Definition Reqb (a b : R) : bool := if Req_dec_T a b then true else false.

Definition xopp (x : xreal) : xreal :=
  match x with
  | Fin r => Fin (- r)
  | PInf => NInf
  | NInf => PInf
  | NaN => NaN
  end.

Definition xadd (x y : xreal) : xreal :=
  match x, y with
  | NaN, _ | _, NaN => NaN
  | Fin a, Fin b => Fin (a + b)
  | PInf, NInf | NInf, PInf => NaN
  | PInf, _ | _, PInf => PInf
  | NInf, _ | _, NInf => NInf
  end.

Definition xsub (x y : xreal) : xreal := xadd x (xopp y).

(** The infinity whose sign is that of [r]; NaN when [r] is 0. *)
Definition inf_times (pos : bool) (r : R) : xreal :=
  if Reqb r 0 then NaN
  else if Bool.eqb pos (Rltb 0 r) then PInf else NInf.

Definition xmul (x y : xreal) : xreal :=
  match x, y with
  | NaN, _ | _, NaN => NaN
  | Fin a, Fin b => Fin (a * b)
  | PInf, Fin r | Fin r, PInf => inf_times true r
  | NInf, Fin r | Fin r, NInf => inf_times false r
  | PInf, PInf | NInf, NInf => PInf
  | PInf, NInf | NInf, PInf => NInf
  end.

(** Division: a finite value over zero is an infinity of its sign, zero over
    zero is NaN (the model has one zero, the positive one). *)
Definition xdiv (x y : xreal) : xreal :=
  match x, y with
  | NaN, _ | _, NaN => NaN
  | Fin a, Fin b =>
      if Reqb b 0 then
        if Reqb a 0 then NaN else if Rltb 0 a then PInf else NInf
      else Fin (a / b)
  | Fin _, (PInf | NInf) => Fin 0
  | PInf, Fin b => if Rltb b 0 then NInf else PInf
  | NInf, Fin b => if Rltb b 0 then PInf else NInf
  | (PInf | NInf), (PInf | NInf) => NaN
  end.

Definition xsqrt (x : xreal) : xreal :=
  match x with
  | Fin r => if Rltb r 0 then NaN else Fin (R_sqrt.sqrt r)
  | PInf => PInf
  | NInf | NaN => NaN
  end.

Definition xltb (x y : xreal) : bool :=
  match x, y with
  | NaN, _ | _, NaN => false
  | Fin a, Fin b => Rltb a b
  | NInf, (Fin _ | PInf) => true
  | Fin _, PInf => true
  | _, _ => false
  end.

Definition xleb (x y : xreal) : bool :=
  match x, y with
  | NaN, _ | _, NaN => false
  | Fin a, Fin b => Rleb a b
  | NInf, _ => true
  | _, PInf => true
  | _, _ => false
  end.

Definition xmax (x y : xreal) : xreal :=
  match x, y with
  | NaN, _ | _, NaN => NaN
  | _, _ => if xltb x y then y else x
  end.

Definition xmin (x y : xreal) : xreal :=
  match x, y with
  | NaN, _ | _, NaN => NaN
  | _, _ => if xltb x y then x else y
  end.

(** Two decimals, the magnitude rounded half up, as [toFixed(2)] prints. *)
Definition round2 (r : R) : R :=
  if Rltb r 0 then - (IZR (Zfloor (- r * 100 + / 2)) / 100)
  else IZR (Zfloor (r * 100 + / 2)) / 100.

Definition xtoFixed2 (x : xreal) : xreal :=
  match x with
  | Fin r => Fin (round2 r)
  | _ => x
  end.

Definition xtruthy (x : xreal) : bool :=
  match x with
  | Fin r => negb (Reqb r 0)
  | PInf | NInf => true
  | NaN => false
  end.

Definition xis_finite (x : xreal) : bool :=
  match x with Fin _ => true | _ => false end.

Definition xis_nan (x : xreal) : bool :=
  match x with NaN => true | _ => false end.

#[global] Instance xreal_number : JSNumber xreal := {
  of_Z := fun z => Fin (IZR z);
  lit := fun q => Fin (Q2R q);
  inf := PInf;
  ninf := NInf;
  add := xadd;
  sub := xsub;
  mul := xmul;
  div := xdiv;
  opp := xopp;
  sqrt := xsqrt;
  ltb := xltb;
  leb := xleb;
  max := xmax;
  min := xmin;
  toFixed2 := xtoFixed2;
  truthy := xtruthy;
  is_finite := xis_finite;
  is_nan := xis_nan
}.

End Exact.

(** ** Arrays *)

(** [Array.prototype.slice(start, end)] on a list, with the relative indices
    of the language: a negative index counts from the end, and both are
    clamped to the array. *)
Definition relative_index (len i : Z) : Z :=
  if (i <? 0)%Z then Z.max (len + i) 0 else Z.min i len.

Definition slice {A : Type} (l : list A) (start stop : Z) : list A :=
  let len := Z.of_nat (length l) in
  let k := relative_index len start in
  let final := relative_index len stop in
  firstn (Z.to_nat (final - k)) (skipn (Z.to_nat k) l).

(** [slice(start)]: up to the end of the array. *)
Definition slice_from {A : Type} (l : list A) (start : Z) : list A :=
  slice l start (Z.of_nat (length l)).

(** [Math.pow(x, 2)], read as the product [x * x]. *)
Definition pow2 {N : Type} `{JSNumber N} (x : N) : N := (x * x)%js.

(** [values.reduce((sum, v) => sum + f(v), 0)] *)
Definition sum_by {A N : Type} `{JSNumber N} (f : A -> N) (l : list A) : N :=
  fold_left (fun sum v => (sum + f v)%js) l (of_Z 0).

(** The indices of an array paired with its elements: the [i] and
    [dailyCosts[i]] of a counting loop over the whole array. *)
Definition indexed {A : Type} (l : list A) : list (Z * A) :=
  combine (map Z.of_nat (seq 0 (List.length l))) l.

(** [a[i]] for an integer [i]: [None] stands for [undefined]. *)
Definition at_index {A : Type} (l : list A) (i : Z) : option A :=
  if (i <? 0)%Z then None else nth_error l (Z.to_nat i).

(** The values a counting loop [for (let i = from; i < to; i++)] takes. *)
Definition range (from to : Z) : list Z :=
  map (fun k => (from + Z.of_nat k)%Z) (seq 0 (Z.to_nat (to - from))).

(** Running a loop body that may throw over a list, collecting what each
    round pushes: [None] when a round throws. *)
Fixpoint collect {A B : Type} (body : A -> option (list B)) (l : list A)
  : option (list B) :=
  match l with
  | [] => Some []
  | x :: rest =>
      match body x with
      | None => None
      | Some pushed =>
          match collect body rest with
          | None => None
          | Some more => Some (pushed ++ more)
          end
      end
  end.

(** ** anomalyDetectionService.js *)

Module AnomalyDetectionService.
Section WithNumber.
Context {N : Type} `{JSNumber N}.
Local Open Scope js_scope.

(** A day of the cost series; [services] is not read by this module. *)
Record DailyCost : Type := {
  dc_id : string;
  dc_date : string;
  total : N;
  aws : N;
  azure : N;
  gcp : N
}.

Record Statistics : Type := {
  mean : N;
  stdDev : N;
  stat_min : N;
  stat_max : N
}.

Definition calculateStatistics (values : list N) : Statistics :=
  let n := of_Z (Z.of_nat (List.length values)) in
  match values with
  | [] => {| mean := of_Z 0; stdDev := of_Z 0; stat_min := of_Z 0; stat_max := of_Z 0 |}
  | _ =>
      let mean := sum_by (fun v => v) values / n in
      let variance := sum_by (fun v => pow2 (v - mean)) values / n in
      let stdDev := sqrt variance in
      (* Math.min(...values), Math.max(...values) *)
      let min := fold_left min values inf in
      let max := fold_left max values ninf in
      {| mean := mean; stdDev := stdDev; stat_min := min; stat_max := max |}
  end.

Record MovingAverage : Type := {
  ma_date : string;
  actual : N;
  movingAverage : N;
  deviation : N;
  ma_deviationPercent : N
}.

Definition calculateMovingAverage (dailyCosts : list DailyCost) (windowSize : Z)
  : list MovingAverage :=
  map (fun '(i, day) =>
         let start := Z.max 0 (i - windowSize + 1) in
         let window := slice dailyCosts start (i + 1) in
         let avg := sum_by total window / of_Z (Z.of_nat (List.length window)) in
         {| ma_date := dc_date day;
            actual := total day;
            movingAverage := toFixed2 avg;
            deviation := toFixed2 (total day - avg);
            ma_deviationPercent := toFixed2 ((total day - avg) / avg * of_Z 100) |})
      (indexed dailyCosts).

(** An anomaly or warning record. The [message] field, a sentence built with
    the locale's date format, is left out. *)
Record Anomaly : Type := {
  an_id : string;
  an_date : string;
  actualCost : N;
  expectedCost : N;
  an_threshold : N;
  zScore : N;
  deviationPercent : N;
  severity : string;
  recommendation : string
}.

Record ReportStatistics : Type := {
  rs_mean : N;
  rs_stdDev : N;
  rs_min : N;
  rs_max : N;
  rs_threshold : N;
  rs_warningThreshold : N
}.

Record AnomalyReport : Type := {
  period : Z;
  statistics : ReportStatistics;
  anomalies : list Anomaly;
  warnings : list Anomaly;
  totalAnomalies : nat;
  totalWarnings : nat;
  healthScore : N
}.

Definition calculateHealthScore (anomalyCount warningCount : nat) (period : Z) : N :=
  let anomalyPenalty := of_Z (Z.of_nat anomalyCount) * of_Z 15 in
  let warningPenalty := of_Z (Z.of_nat warningCount) * of_Z 5 in
  max (of_Z 0) (of_Z 100 - anomalyPenalty - warningPenalty).

(** The record pushed for [day]: onto [anomalies] with the error threshold,
    onto [warnings] with the warning threshold. *)
Definition anomaly_record (prefix sev advice : string) (stats : Statistics)
  (limit : N) (day : DailyCost) : Anomaly :=
  let zScore := (total day - mean stats) / stdDev stats in
  let deviationPercent := (total day - mean stats) / mean stats * of_Z 100 in
  {| an_id := prefix ++ dc_id day;
     an_date := dc_date day;
     actualCost := total day;
     expectedCost := toFixed2 (mean stats);
     an_threshold := toFixed2 limit;
     zScore := toFixed2 zScore;
     deviationPercent := toFixed2 deviationPercent;
     severity := sev;
     recommendation := advice |}.

Definition detectAnomalies (dailyCosts : list DailyCost) (period : Z) : AnomalyReport :=
  let recentCosts := slice_from dailyCosts (- period) in
  let values := map total recentCosts in
  let stats := calculateStatistics values in
  let threshold := mean stats + of_Z 2 * stdDev stats in
  let warningThreshold := mean stats + lit (15 # 10) * stdDev stats in
  let anomalies :=
    flat_map (fun day =>
      if total day >? threshold then
        [anomaly_record "anomaly-" "error"
           "Investigate sudden cost increase - check for new deployments, traffic spikes, or misconfigured resources"
           stats threshold day]
      else []) recentCosts in
  let warnings :=
    flat_map (fun day =>
      if total day >? threshold then []
      else if total day >? warningThreshold then
        [anomaly_record "warning-" "warning"
           "Monitor closely - costs are trending higher than normal"
           stats warningThreshold day]
      else []) recentCosts in
  {| period := period;
     statistics :=
       {| rs_mean := toFixed2 (mean stats);
          rs_stdDev := toFixed2 (stdDev stats);
          rs_min := toFixed2 (stat_min stats);
          rs_max := toFixed2 (stat_max stats);
          rs_threshold := toFixed2 threshold;
          rs_warningThreshold := toFixed2 warningThreshold |};
     anomalies := anomalies;
     warnings := warnings;
     totalAnomalies := List.length anomalies;
     totalWarnings := List.length warnings;
     healthScore := calculateHealthScore (List.length anomalies) (List.length warnings) period |}.

Definition getSpikeRecommendation (increasePercent : N) : string :=
  if increasePercent >? of_Z 100 then
    "🚨 CRITICAL: Immediate investigation required. Check for runaway processes, unauthorized deployments, or DDoS attacks."
  else if increasePercent >? of_Z 75 then
    "⚠️ HIGH: Review recent changes. Check auto-scaling policies, new resource deployments, and data transfer costs."
  else if increasePercent >? of_Z 50 then
    "📊 MEDIUM: Monitor closely. Review service breakdown to identify cost drivers."
  else "Continue monitoring.".

Record Breakdown : Type := {
  b_aws : N;
  b_azure : N;
  b_gcp : N
}.

(** A spike record, without its [message] sentence. *)
Record Spike : Type := {
  sp_id : string;
  sp_date : string;
  currentCost : N;
  averageCost : N;
  increasePercent : N;
  sp_severity : string;
  breakdown : Breakdown;
  sp_recommendation : string
}.

Record SpikeReport : Type := {
  lookbackDays : Z;
  spikes : list Spike;
  totalSpikes : nat;
  criticalSpikes : nat;
  highSpikes : nat;
  mediumSpikes : nat
}.

(** One round of the loop of [detectCostSpikes] at index [i]: the spike it
    pushes, if any. Reading [dailyCosts[i].total] throws a TypeError when
    [dailyCosts[i]] is [undefined], which happens for a negative [i]. *)
Definition spike_round (dailyCosts : list DailyCost) (lookbackDays : Z) (i : Z)
  : option (list Spike) :=
  let historicalWindow := slice dailyCosts (i - lookbackDays) i in
  let historicalAvg := sum_by total historicalWindow / of_Z lookbackDays in
  match at_index dailyCosts i with
  | None => None
  | Some day =>
      let currentCost := total day in
      let increasePercent := (currentCost - historicalAvg) / historicalAvg * of_Z 100 in
      if increasePercent >? of_Z 50 then
        Some [ {| sp_id := "spike-" ++ dc_id day;
                  sp_date := dc_date day;
                  currentCost := toFixed2 currentCost;
                  averageCost := toFixed2 historicalAvg;
                  increasePercent := toFixed2 increasePercent;
                  sp_severity :=
                    if increasePercent >? of_Z 100 then "critical"
                    else if increasePercent >? of_Z 75 then "high" else "medium";
                  breakdown := {| b_aws := aws day; b_azure := azure day; b_gcp := gcp day |};
                  sp_recommendation := getSpikeRecommendation increasePercent |} ]
      else Some []
  end.

Definition count_severity (sev : string) (l : list Spike) : nat :=
  List.length (filter (fun s => String.eqb (sp_severity s) sev) l).

(** [None] is a thrown TypeError. *)
Definition detectCostSpikes (dailyCosts : list DailyCost) (lookbackDays : Z)
  : option SpikeReport :=
  match collect (spike_round dailyCosts lookbackDays)
          (range lookbackDays (Z.of_nat (List.length dailyCosts))) with
  | None => None
  | Some spikes =>
      Some {| lookbackDays := lookbackDays;
              spikes := spikes;
              totalSpikes := List.length spikes;
              criticalSpikes := count_severity "critical" spikes;
              highSpikes := count_severity "high" spikes;
              mediumSpikes := count_severity "medium" spikes |}
  end.

(** An opportunity of [identifyOptimizationOpportunities]. *)
Record CostOpportunity : Type := {
  co_id : string;
  co_type : string;
  co_title : string;
  co_description : string;
  co_currentCost : N;
  co_potentialSavings : N;
  co_confidence : N;
  effort : string
}.

Record OpportunityReport : Type := {
  or_period : Z;
  opportunities : list CostOpportunity;
  totalOpportunities : nat;
  totalPotentialSavings : N
}.

(** A count printed in a template literal. *)
Definition show_count (n : nat) : string := NilEmpty.string_of_uint (Nat.to_uint n).

(** [getDay] is what [new Date(date).getDay()] answers for a date text: the
    day of the week from 0 (Sunday) to 6 (Saturday); [None] stands for the NaN
    of an invalid date, which is neither a weekend day nor a weekday. *)
Definition identifyOptimizationOpportunities (getDay : string -> option Z)
  (dailyCosts : list DailyCost) (period : Z) : OpportunityReport :=
  let recentCosts := slice_from dailyCosts (- period) in
  let stats := calculateStatistics (map total recentCosts) in
  let weekendDays :=
    filter (fun d => match getDay (dc_date d) with
                     | Some day => (day =? 0)%Z || (day =? 6)%Z
                     | None => false
                     end) recentCosts in
  let weekdayDays :=
    filter (fun d => match getDay (dc_date d) with
                     | Some day => (1 <=? day)%Z && (day <=? 5)%Z
                     | None => false
                     end) recentCosts in
  let avgWeekendCost :=
    if (0 <? List.length weekendDays)%nat
    then sum_by total weekendDays / of_Z (Z.of_nat (List.length weekendDays))
    else of_Z 0 in
  let avgWeekdayCost :=
    if (0 <? List.length weekdayDays)%nat
    then sum_by total weekdayDays / of_Z (Z.of_nat (List.length weekdayDays))
    else of_Z 0 in
  let weekend :=
    if (avgWeekendCost >? of_Z 0) && (avgWeekdayCost >? of_Z 0) then
      let weekendRatio := avgWeekendCost / avgWeekdayCost in
      if weekendRatio >? lit (5 # 10) then
        let potentialSavings :=
          (avgWeekendCost - avgWeekdayCost * lit (3 # 10)) * of_Z 4 in
        [ {| co_id := "opp-weekend";
             co_type := "weekend_optimization";
             co_title := "Weekend Cost Optimization";
             co_description := "Your weekend costs are relatively high. Consider scheduling non-production resources to stop during weekends.";
             co_currentCost := toFixed2 (avgWeekendCost * of_Z 8);
             co_potentialSavings := toFixed2 potentialSavings;
             co_confidence := lit (85 # 100);
             effort := "low" |} ]
      else []
    else [] in
  let coefficientOfVariation := stdDev stats / mean stats in
  let stability :=
    if coefficientOfVariation >? lit (3 # 10) then
      [ {| co_id := "opp-variance";
           co_type := "cost_stability";
           co_title := "Reduce Cost Variability";
           co_description := "Your costs show high variability. Consider reserved instances or savings plans for predictable workloads.";
           co_currentCost := toFixed2 (mean stats * of_Z 30);
           co_potentialSavings := toFixed2 (mean stats * of_Z 30 * lit (15 # 100));
           co_confidence := lit (75 # 100);
           effort := "medium" |} ]
    else [] in
  let highCostDays :=
    filter (fun d => total d >? mean stats + stdDev stats) recentCosts in
  let peak :=
    if (3 <? List.length highCostDays)%nat then
      [ {| co_id := "opp-highdays";
           co_type := "peak_optimization";
           co_title := "Optimize Peak Cost Days";
           co_description :=
             show_count (List.length highCostDays)
             ++ " days had unusually high costs. Investigate patterns and consider cost allocation strategies.";
           co_currentCost := toFixed2 (sum_by total highCostDays);
           co_potentialSavings := toFixed2 (sum_by total highCostDays * lit (2 # 10));
           co_confidence := lit (70 # 100);
           effort := "medium" |} ]
    else [] in
  let opportunities := weekend ++ stability ++ peak in
  {| or_period := period;
     opportunities := opportunities;
     totalOpportunities := List.length opportunities;
     totalPotentialSavings := toFixed2 (sum_by co_potentialSavings opportunities) |}.

Record AnalysisSummary : Type := {
  overallHealth : string;
  su_healthScore : N;
  su_totalAnomalies : nat;
  su_totalSpikes : nat;
  criticalIssues : nat;
  su_potentialSavings : N
}.

(** The result of [runFullAnalysis], without its [generatedAt] time stamp. *)
Record FullAnalysis : Type := {
  fa_period : Z;
  anomalyDetection : AnomalyReport;
  spikeDetection : SpikeReport;
  optimizationOpportunities : OpportunityReport;
  movingAverages : list MovingAverage;
  summary : AnalysisSummary
}.

(** [runFullAnalysis(period)]. The source draws [dailyCosts], a random series
    of [period + 30] days, from [CostAnalyticsService.generateDailyCosts]: it
    is an argument here. [None] is a TypeError thrown by [detectCostSpikes]. *)
Definition runFullAnalysis (getDay : string -> option Z)
  (dailyCosts : list DailyCost) (period : Z) : option FullAnalysis :=
  let anomalyDetection := detectAnomalies dailyCosts period in
  match detectCostSpikes dailyCosts 7 with
  | None => None
  | Some spikeDetection =>
      let optimizationOpportunities :=
        identifyOptimizationOpportunities getDay dailyCosts period in
      let movingAverages :=
        calculateMovingAverage (slice_from dailyCosts (- period)) 7 in
      Some {| fa_period := period;
              anomalyDetection := anomalyDetection;
              spikeDetection := spikeDetection;
              optimizationOpportunities := optimizationOpportunities;
              movingAverages := slice_from movingAverages (-14);
              summary :=
                {| overallHealth :=
                     if healthScore anomalyDetection >=? of_Z 80 then "good"
                     else if healthScore anomalyDetection >=? of_Z 50 then "fair"
                     else "poor";
                   su_healthScore := healthScore anomalyDetection;
                   su_totalAnomalies := totalAnomalies anomalyDetection;
                   su_totalSpikes := totalSpikes spikeDetection;
                   criticalIssues :=
                     criticalSpikes spikeDetection
                     + List.length
                         (filter (fun a => String.eqb (severity a) "error")
                                 (anomalies anomalyDetection));
                   su_potentialSavings :=
                     totalPotentialSavings optimizationOpportunities |} |}
  end.

End WithNumber.

Arguments CostOpportunity N : clear implicits.
Arguments OpportunityReport N : clear implicits.
Arguments AnalysisSummary N : clear implicits.
Arguments FullAnalysis N : clear implicits.
Arguments DailyCost N : clear implicits.
Arguments Statistics N : clear implicits.
Arguments MovingAverage N : clear implicits.
Arguments Anomaly N : clear implicits.
Arguments ReportStatistics N : clear implicits.
Arguments AnomalyReport N : clear implicits.
Arguments Breakdown N : clear implicits.
Arguments Spike N : clear implicits.
Arguments SpikeReport N : clear implicits.

End AnomalyDetectionService.

(** ** Resources, shared by the recommendation rules *)

Section Resources.
Context {N : Type} `{JSNumber N}.

(** [utilization: { cpu, memory }]: either field may be missing. *)
Record Utilization : Type := {
  cpu : option N;
  memory : option N
}.

Record Resource : Type := {
  resourceId : string;
  resourceName : option string;
  resourceType : string;
  cost : N;
  utilization : option Utilization
}.

(** [x || 0] on a field that may be [undefined]. *)
Definition or_zero (x : option N) : N :=
  match x with
  | Some v => if truthy v then v else of_Z 0
  | None => of_Z 0
  end.

(** [a || b] on strings: the empty string and [undefined] are falsy. *)
Definition or_string (a : option string) (b : string) : string :=
  match a with
  | Some s => if String.eqb s "" then b else s
  | None => b
  end.

(** [array.sort((a, b) => key(b) - key(a))]: a stable sort, descending in
    [key]; [a] stays before [b] unless the comparator is positive. With a key
    that is NaN the comparator is not consistent and the order an engine
    returns is its own: the list below then stands for the elements, not for
    their order. *)
Fixpoint insert_desc {A : Type} (key : A -> N) (x : A) (l : list A) : list A :=
  match l with
  | [] => [x]
  | y :: rest =>
      if (key y - key x >? of_Z 0)%js then y :: insert_desc key x rest
      else x :: y :: rest
  end.

Definition sort_desc {A : Type} (key : A -> N) (l : list A) : list A :=
  fold_right (insert_desc key) [] l.

End Resources.

Arguments Utilization N : clear implicits.
Arguments Resource N : clear implicits.

(** ** The analytics engine (awsCostService.js, class AnalyticsEngine) *)

Module AnalyticsEngine.
Section WithNumber.
Context {N : Type} `{JSNumber N}.
Local Open Scope js_scope.

(** A point of the historical series. *)
Record CostPoint : Type := {
  cp_date : string;
  cp_cost : N
}.

(** The fields [analyzeCostTrends] adds when it has enough data. *)
Record TrendDetails : Type := {
  slope : N;
  anomalyThreshold : N;
  standardDeviation : N
}.

Record TrendAnalysis : Type := {
  trend : string;
  averageDaily : N;
  projectedMonthly : N;
  anomaly : bool;
  trend_details : option TrendDetails
}.

(** [costs.reduce((sum, cost, i) => sum + (i + 1) * cost, 0)] *)
Definition sum_index_times (costs : list N) : N :=
  fold_left (fun sum '(i, cost) => sum + of_Z (i + 1) * cost) (indexed costs) (of_Z 0).

(** [dailyCosts] is [None] for a missing ([null] or [undefined]) argument. *)
Definition analyzeCostTrends (dailyCosts : option (list CostPoint)) : TrendAnalysis :=
  match dailyCosts with
  | None =>
      {| trend := "insufficient_data"; averageDaily := of_Z 0;
         projectedMonthly := of_Z 0; anomaly := false; trend_details := None |}
  | Some dailyCosts =>
      if (Z.of_nat (List.length dailyCosts) <? 7)%Z then
        {| trend := "insufficient_data"; averageDaily := of_Z 0;
           projectedMonthly := of_Z 0; anomaly := false; trend_details := None |}
      else
        let costs := map cp_cost dailyCosts in
        let len := of_Z (Z.of_nat (List.length costs)) in
        let averageDaily := sum_by (fun c => c) costs / len in
        let projectedMonthly := averageDaily * of_Z 30 in
        let n := len in
        let sumX := n * (n + of_Z 1) / of_Z 2 in
        let sumY := sum_by (fun c => c) costs in
        let sumXY := sum_index_times costs in
        let sumX2 := n * (n + of_Z 1) * (of_Z 2 * n + of_Z 1) / of_Z 6 in
        let slope := (n * sumXY - sumX * sumY) / (n * sumX2 - sumX * sumX) in
        let trend := "stable"%string in
        let trend := if slope >? averageDaily * lit (1 # 100) then "increasing"%string else trend in
        let trend := if slope <? - averageDaily * lit (1 # 100) then "decreasing"%string else trend in
        let mean := averageDaily in
        let variance := sum_by (fun cost => pow2 (cost - mean)) costs / n in
        let stdDev := sqrt variance in
        let threshold := mean + of_Z 2 * stdDev in
        let anomalies := filter (fun cost => cost >? threshold) costs in
        let hasAnomaly := (0 <? List.length anomalies)%nat in
        {| trend := trend;
           averageDaily := averageDaily;
           projectedMonthly := projectedMonthly;
           anomaly := hasAnomaly;
           trend_details :=
             Some {| slope := slope; anomalyThreshold := threshold;
                     standardDeviation := stdDev |} |}
  end.

(** A service of [serviceCosts]: its name, total and daily data. *)
Record ServiceCost : Type := {
  service : string;
  sc_total : N;
  data : list CostPoint
}.

(** An optimization opportunity. [percentage] is present on a high-spend
    service, [growth] on a rapid-growth one, [op_cpu] and [op_memory] on a
    resource; the [recommendation] sentence is left out. *)
Record Opportunity : Type := {
  op_type : string;
  op_subject : string;
  op_resourceType : option string;
  op_cpu : option N;
  op_memory : option N;
  op_cost : N;
  percentage : option N;
  growth : option N;
  priority : string;
  potentialSavings : N
}.

(** The opportunities one service adds. *)
Definition service_opportunities (serviceCosts : list ServiceCost) (s : ServiceCost)
  : list Opportunity :=
  let percentage := sc_total s / sum_by sc_total serviceCosts * of_Z 100 in
  (if percentage >? of_Z 30 then
     [ {| op_type := "high_spend_service"; op_subject := service s;
          op_resourceType := None; op_cpu := None; op_memory := None;
          op_cost := sc_total s; percentage := Some percentage; growth := None;
          priority := "high";
          potentialSavings := sc_total s * lit (15 # 100) |} ]
   else [])
  ++
  (if (7 <=? Z.of_nat (List.length (data s)))%Z then
     let recentWeek := sum_by cp_cost (slice_from (data s) (-7)) in
     let previousWeek := sum_by cp_cost (slice (data s) 0 (-7)) in
     let growth :=
       if previousWeek >? of_Z 0
       then (recentWeek - previousWeek) / previousWeek * of_Z 100
       else of_Z 0 in
     if growth >? of_Z 20 then
       [ {| op_type := "rapid_growth"; op_subject := service s;
            op_resourceType := None; op_cpu := None; op_memory := None;
            op_cost := sc_total s; percentage := None; growth := Some growth;
            priority := "medium";
            potentialSavings := sc_total s * lit (10 # 100) |} ]
     else []
   else []).

(** The opportunities one resource adds: the body of
    [resources.forEach(resource => ...)]. *)
Definition resource_opportunities (resource : Resource N) : list Opportunity :=
  match utilization resource with
  | None => []
  | Some u =>
      let cpu := or_zero (cpu u) in
      let memory := or_zero (memory u) in
      (if (cpu <? of_Z 20) && (memory <? of_Z 20) then
         [ {| op_type := "underutilized_resource";
              op_subject := or_string (resourceName resource) (resourceId resource);
              op_resourceType := Some (resourceType resource);
              op_cpu := Some cpu; op_memory := Some memory;
              op_cost := cost resource; percentage := None; growth := None;
              priority := if cpu <? of_Z 10 then "high" else "medium";
              potentialSavings := cost resource * lit (40 # 100) |} ]
       else [])
      ++
      (if (cpu <? of_Z 5) && (memory <? of_Z 5) then
         [ {| op_type := "idle_resource";
              op_subject := or_string (resourceName resource) (resourceId resource);
              op_resourceType := Some (resourceType resource);
              op_cpu := Some cpu; op_memory := Some memory;
              op_cost := cost resource; percentage := None; growth := None;
              priority := "high";
              potentialSavings := cost resource |} ]
       else [])
  end.

Definition identifyOptimizationOpportunities (serviceCosts : list ServiceCost)
  (resources : list (Resource N)) : list Opportunity :=
  let opportunities :=
    flat_map (service_opportunities serviceCosts) serviceCosts
    ++ flat_map resource_opportunities resources in
  sort_desc potentialSavings opportunities.

(** A point of the forecast: [{date, predicted, low, high}]. The date is the
    day number [today + i]. *)
Record ForecastPoint : Type := {
  fp_date : Z;
  predicted : N;
  low : N;
  high : N
}.

(** The fields of the result beside [forecast] and [confidence]. *)
Record ForecastDetails : Type := {
  fc_averageDaily : N;
  fc_trend : string;
  fc_projectedMonthly : N
}.

Record Forecast : Type := {
  forecast : list ForecastPoint;
  confidence : string;
  forecast_details : option ForecastDetails
}.

(** [historicalData] is [None] for a missing argument; [today] is the day
    number the clock gives. *)
Definition forecastCosts (today : Z) (historicalData : option (list CostPoint))
  (days : Z) : Forecast :=
  match historicalData with
  | None => {| forecast := []; confidence := "low"; forecast_details := None |}
  | Some historicalData =>
      if (Z.of_nat (List.length historicalData) <? 14)%Z then
        {| forecast := []; confidence := "low"; forecast_details := None |}
      else
        let windowSize := 7%Z in
        let recentData := slice_from historicalData (- windowSize) in
        let averageRecent :=
          sum_by cp_cost recentData / of_Z (Z.of_nat (List.length recentData)) in
        let olderData := slice historicalData (-14) (-7) in
        let averageOlder :=
          sum_by cp_cost olderData / of_Z (Z.of_nat (List.length olderData)) in
        let trend := (averageRecent - averageOlder) / averageOlder in
        let forecast :=
          map (fun i =>
                 let dampenedTrend := trend * lit (5 # 10) in
                 let predicted :=
                   averageRecent * (of_Z 1 + dampenedTrend * (of_Z i / of_Z days)) in
                 {| fp_date := (today + i)%Z;
                    predicted := toFixed2 predicted;
                    low := toFixed2 (predicted * lit (9 # 10));
                    high := toFixed2 (predicted * lit (11 # 10)) |})
              (range 1 (days + 1)) in
        {| forecast := forecast;
           confidence :=
             if (30 <=? Z.of_nat (List.length historicalData))%Z then "high" else "medium";
           forecast_details :=
             Some {| fc_averageDaily := averageRecent;
                     fc_trend :=
                       if trend >? lit (5 # 100) then "increasing"
                       else if trend <? - lit (5 # 100) then "decreasing" else "stable";
                     fc_projectedMonthly := toFixed2 (averageRecent * of_Z 30) |} |}
  end.

Record ByPriority : Type := {
  bp_high : N;
  bp_medium : N;
  bp_low : N
}.

(** The result of [calculateSavingsPotential]. [byType] is the object built
    key by key, as the list of its own properties in the order they were
    created (an engine enumerates keys that look like integers first: the list
    stands for the properties, not for the order of their enumeration); it is
    [None] when an opportunity's type names a property every object inherits,
    where the source reads that inherited value and appends text to it. *)
Record SavingsPotential : Type := {
  sv_total : N;
  byPriority : ByPriority;
  byType : option (list (string * N));
  sv_count : nat;
  averagePerOpportunity : N
}.

(** [obj[key]] on an own property: [None] stands for [undefined]. *)
Fixpoint get_own (key : string) (obj : list (string * N)) : option N :=
  match obj with
  | [] => None
  | (k, v) :: rest => if String.eqb k key then Some v else get_own key rest
  end.

(** [obj[key] = v]: an existing property keeps its place. *)
Fixpoint set_own (key : string) (v : N) (obj : list (string * N)) : list (string * N) :=
  match obj with
  | [] => [(key, v)]
  | (k, w) :: rest =>
      if String.eqb k key then (k, v) :: rest else (k, w) :: set_own key v rest
  end.

(** The names an empty object literal answers to without owning them. *)
Definition inherited (key : string) : bool :=
  existsb (String.eqb key)
    [ "constructor"; "hasOwnProperty"; "isPrototypeOf"; "propertyIsEnumerable";
      "toLocaleString"; "toString"; "valueOf"; "__proto__";
      "__defineGetter__"; "__defineSetter__"; "__lookupGetter__";
      "__lookupSetter__" ]%string.

(** [if (!byType[opp.type]) byType[opp.type] = 0;
     byType[opp.type] += opp.potentialSavings] *)
Definition add_by_type (byType : list (string * N)) (opp : Opportunity)
  : list (string * N) :=
  let current :=
    match get_own (op_type opp) byType with
    | Some v => if truthy v then v else of_Z 0
    | None => of_Z 0
    end in
  set_own (op_type opp) (current + potentialSavings opp) byType.

Definition calculateSavingsPotential (opportunities : list Opportunity)
  : SavingsPotential :=
  let total := sum_by potentialSavings opportunities in
  let of_priority p :=
    sum_by potentialSavings
      (filter (fun o => String.eqb (priority o) p) opportunities) in
  let count := List.length opportunities in
  {| sv_total := total;
     byPriority :=
       {| bp_high := of_priority "high"%string;
          bp_medium := of_priority "medium"%string;
          bp_low := of_priority "low"%string |};
     byType :=
       if existsb (fun o => inherited (op_type o)) opportunities then None
       else Some (fold_left add_by_type opportunities []);
     sv_count := count;
     averagePerOpportunity :=
       total / of_Z (if (count =? 0)%nat then 1 else Z.of_nat count) |}.

End WithNumber.

Arguments ByPriority N : clear implicits.
Arguments SavingsPotential N : clear implicits.

Arguments CostPoint N : clear implicits.
Arguments TrendDetails N : clear implicits.
Arguments TrendAnalysis N : clear implicits.
Arguments ServiceCost N : clear implicits.
Arguments Opportunity N : clear implicits.
Arguments ForecastPoint N : clear implicits.
Arguments ForecastDetails N : clear implicits.
Arguments Forecast N : clear implicits.

End AnalyticsEngine.

(** ** costAnalyticsService.js *)

Module CostAnalyticsService.
Section WithNumber.
Context {N : Type} `{JSNumber N}.
Local Open Scope js_scope.

(** A point of the regression forecast:
    [{_id, date, predicted, lowerBound, upperBound, confidence}]; both [_id]
    and [date] print the day [now + i], kept here as its day number. *)
Record ForecastPoint : Type := {
  fp_date : Z;
  predicted : N;
  lowerBound : N;
  upperBound : N;
  confidence : N
}.

Record Forecast : Type := {
  fc_period : Z;
  basedOnPeriod : Z;
  forecast : list ForecastPoint;
  totalForecast : N;
  avgDailyForecast : N;
  trend : string
}.

(** [dailyTrend.reduce((sum, d, i) => sum + i * d.total, 0)] *)
Definition sum_index_total (dailyTrend : list (AnomalyDetectionService.DailyCost N)) : N :=
  fold_left (fun sum '(i, d) => sum + of_Z i * AnomalyDetectionService.total d)
            (indexed dailyTrend) (of_Z 0).

(** [forecastCosts(days, period)]. The source takes [dailyTrend] from
    [getCostOverview(period)], which draws a random series of [period] days,
    and the date from the clock: both are arguments here. *)
Definition forecastCosts (dailyTrend : list (AnomalyDetectionService.DailyCost N))
  (now : Z) (days period : Z) : Forecast :=
  let n := of_Z (Z.of_nat (List.length dailyTrend)) in
  let sumX := n * (n - of_Z 1) / of_Z 2 in
  let sumY := sum_by AnomalyDetectionService.total dailyTrend in
  let sumXY := sum_index_total dailyTrend in
  let sumX2 := n * (n - of_Z 1) * (of_Z 2 * n - of_Z 1) / of_Z 6 in
  let slope := (n * sumXY - sumX * sumY) / (n * sumX2 - sumX * sumX) in
  let intercept := (sumY - slope * sumX) / n in
  let forecast :=
    map (fun i =>
           let predicted := intercept + slope * (n + of_Z i) in
           let confidence := max (lit (7 # 10)) (of_Z 1 - of_Z i * lit (5 # 100)) in
           {| fp_date := (now + i)%Z;
              predicted := toFixed2 predicted;
              lowerBound := toFixed2 (predicted * lit (9 # 10));
              upperBound := toFixed2 (predicted * lit (11 # 10));
              confidence := toFixed2 confidence |})
        (range 1 (days + 1)) in
  {| fc_period := days;
     basedOnPeriod := period;
     forecast := forecast;
     totalForecast := toFixed2 (sum_by predicted forecast);
     avgDailyForecast := toFixed2 (sum_by predicted forecast / of_Z days);
     trend :=
       if slope >? of_Z 0 then "increasing"
       else if slope <? of_Z 0 then "decreasing" else "stable" |}.

End WithNumber.

Arguments ForecastPoint N : clear implicits.
Arguments Forecast N : clear implicits.

End CostAnalyticsService.

(** ** aiInsightsEngine.js (class AIInsightsEngine) *)

Module AIInsightsEngine.
Section WithNumber.
Context {N : Type} `{JSNumber N}.
Local Open Scope js_scope.

(** [details] of a rightsizing or idle recommendation. *)
Record Details : Type := {
  d_cpu : N;
  d_memory : N;
  d_cost : N;
  suggestedAction : string
}.

(** A recommendation, without its [description] sentence. *)
Record Recommendation : Type := {
  category : string;
  priority : string;
  title : string;
  details : Details;
  estimatedSavings : N;
  savingsPercentage : N;
  implementationEffort : string;
  aiConfidence : N;
  rec_resourceId : string
}.

(** The body of [resources.forEach(resource => ...)] in
    [generateRightsizingRecommendations]. *)
Definition rightsizing_round (resource : Resource N) : list Recommendation :=
  match utilization resource with
  | None => []
  | Some u =>
      let cpu := or_zero (cpu u) in
      let memory := or_zero (memory u) in
      let avgUtilization := (cpu + memory) / of_Z 2 in
      if (avgUtilization <? of_Z 40) && (cpu <? of_Z 50) && (memory <? of_Z 50) then
        let savings := cost resource * lit (4 # 10) in
        [ {| category := "rightsizing";
             priority := if avgUtilization <? of_Z 20 then "high" else "medium";
             title := "Rightsize " ++ or_string (resourceName resource) (resourceType resource);
             details := {| d_cpu := cpu; d_memory := memory; d_cost := cost resource;
                           suggestedAction := "Downsize instance" |};
             estimatedSavings := toFixed2 savings;
             savingsPercentage := of_Z 40;
             implementationEffort := "low";
             aiConfidence := min (of_Z 95) (of_Z 70 + (of_Z 40 - avgUtilization));
             rec_resourceId := resourceId resource |} ]
      else []
  end.

Definition generateRightsizingRecommendations (resources : list (Resource N))
  : list Recommendation :=
  flat_map rightsizing_round resources.

(** The body of the loop of [generateIdleResourceRecommendations]. *)
Definition idle_round (resource : Resource N) : list Recommendation :=
  match utilization resource with
  | None => []
  | Some u =>
      let cpu := or_zero (cpu u) in
      let memory := or_zero (memory u) in
      if (cpu <? of_Z 5) && (memory <? of_Z 5) then
        [ {| category := "idle_resources";
             priority := "high";
             title := "Terminate or stop idle "
                      ++ or_string (resourceName resource) (resourceType resource);
             details := {| d_cpu := cpu; d_memory := memory; d_cost := cost resource;
                           suggestedAction :=
                             if cpu <? of_Z 2 then "Terminate" else "Stop" |};
             estimatedSavings := toFixed2 (cost resource);
             savingsPercentage := of_Z 100;
             implementationEffort := "low";
             aiConfidence := of_Z 85;
             rec_resourceId := resourceId resource |} ]
      else []
  end.

Definition generateIdleResourceRecommendations (resources : list (Resource N))
  : list Recommendation :=
  flat_map idle_round resources.

(** A cost anomaly of [detectAnomalies]; the [deviation] text and the
    [message] sentence, both printed with [toFixed], are left out. *)
Record CostAnomaly : Type := {
  ca_type : string;
  ca_date : string;
  ca_actualCost : N;
  ca_expectedCost : N;
  ca_severity : string
}.

(** [detectAnomalies(historicalData)]. Without enough data the trend analysis
    has no [anomalyThreshold]; its [anomaly] flag is false then, and the
    comparison with [undefined] would be false as well. *)
Definition detectAnomalies (historicalData : option (list (AnalyticsEngine.CostPoint N)))
  : list CostAnomaly :=
  let trendAnalysis := AnalyticsEngine.analyzeCostTrends historicalData in
  if negb (AnalyticsEngine.anomaly trendAnalysis) then []
  else
    match historicalData, AnalyticsEngine.trend_details trendAnalysis with
    | Some historicalData, Some details =>
        flat_map (fun day =>
          if AnalyticsEngine.cp_cost day >? AnalyticsEngine.anomalyThreshold details then
            [ {| ca_type := "cost_spike";
                 ca_date := AnalyticsEngine.cp_date day;
                 ca_actualCost := AnalyticsEngine.cp_cost day;
                 ca_expectedCost := AnalyticsEngine.averageDaily trendAnalysis;
                 ca_severity :=
                   if AnalyticsEngine.cp_cost day
                      >? AnalyticsEngine.averageDaily trendAnalysis * of_Z 2
                   then "high" else "medium" |} ]
          else []) historicalData
    | _, _ => []
    end.

End WithNumber.

Arguments CostAnomaly N : clear implicits.
Arguments Details N : clear implicits.
Arguments Recommendation N : clear implicits.

End AIInsightsEngine.

(** ** recommendationController.js: the resource rules of generateRecommendations *)

Module RecommendationController.
Section WithNumber.
Context {N : Type} `{JSNumber N}.
Local Open Scope js_scope.

(** A recommendation built from a resource, without the [user],
    [cloudProvider] and [description] fields. *)
Record Recommendation : Type := {
  category : string;
  priority : string;
  title : string;
  estimatedSavings : N;
  savingsPercentage : N;
  implementationEffort : string;
  rec_resourceId : string;
  rec_resourceName : option string;
  currentCost : N;
  optimizedCost : N;
  aiConfidence : N
}.

(** The body of [for (const resource of resources)]: the recommendations
    one resource adds. *)
Definition resource_recommendations (resource : Resource N) : list Recommendation :=
  match utilization resource with
  | None => []
  | Some u =>
      let cpuUtil := or_zero (cpu u) in
      let memoryUtil := or_zero (memory u) in
      (if (cpuUtil <? of_Z 30) && (memoryUtil <? of_Z 30) then
         let estimatedSavings := cost resource * lit (4 # 10) in
         [ {| category := "rightsizing";
              priority := if cpuUtil <? of_Z 10 then "high" else "medium";
              title := "Rightsize " ++ or_string (resourceName resource) (resourceType resource);
              estimatedSavings := estimatedSavings;
              savingsPercentage := of_Z 40;
              implementationEffort := "low";
              rec_resourceId := resourceId resource;
              rec_resourceName := resourceName resource;
              currentCost := cost resource;
              optimizedCost := cost resource - estimatedSavings;
              aiConfidence :=
                min (of_Z 95) (of_Z 70 + (of_Z 30 - max cpuUtil memoryUtil)) |} ]
       else [])
      ++
      (if (cpuUtil <? of_Z 5) && (memoryUtil <? of_Z 5) then
         [ {| category := "idle_resources";
              priority := "high";
              title := "Review idle resource: "
                       ++ or_string (resourceName resource) (resourceType resource);
              estimatedSavings := cost resource;
              savingsPercentage := of_Z 100;
              implementationEffort := "low";
              rec_resourceId := resourceId resource;
              rec_resourceName := resourceName resource;
              currentCost := cost resource;
              optimizedCost := of_Z 0;
              aiConfidence := of_Z 85 |} ]
       else [])
  end.

End WithNumber.

Arguments Recommendation N : clear implicits.

End RecommendationController.

(** ** Grouping into a [Map] of arrays *)

(** [if (!m.has(k)) m.set(k, []); m.get(k).push(v)] on a [Map], kept as the
    list of its entries in insertion order. *)
Fixpoint map_push {K V : Type} (same : K -> K -> bool) (k : K) (v : V)
  (m : list (K * list V)) : list (K * list V) :=
  match m with
  | [] => [(k, [v])]
  | (k', vs) :: rest =>
      if same k' k then (k', vs ++ [v]) :: rest
      else (k', vs) :: map_push same k v rest
  end.

(** Equality of keys that may be [undefined]. *)
Definition same_key (a b : option string) : bool :=
  match a, b with
  | Some x, Some y => String.eqb x y
  | None, None => true
  | _, _ => false
  end.

(** ** awsCostService.js (class AWSCostService): reading a Cost Explorer answer *)

Module AWSCostService.
Section WithNumber.
Context {N : Type} `{JSNumber N}.
Local Open Scope js_scope.

(** [parseFloat] on a text, as the engine reads it. *)
Variable parseFloat : string -> N.

(** A group of a result: its [Keys] and [Metrics.UnblendedCost.Amount]. *)
Record Group : Type := {
  Keys : list string;
  group_amount : string
}.

(** An element of [ResultsByTime]: [TimePeriod.Start], the amount
    [Total?.UnblendedCost?.Amount] and [Groups], the last two optional. *)
Record ResultByTime : Type := {
  period_start : string;
  total_amount : option string;
  Groups : option (list Group)
}.

Record ParsedService : Type := {
  ps_service : option string;
  ps_data : list (AnalyticsEngine.CostPoint N);
  ps_total : N
}.

Record ParsedCosts : Type := {
  pc_dailyCosts : list (AnalyticsEngine.CostPoint N);
  pc_serviceCosts : list ParsedService;
  pc_totalCost : N
}.

(** [parseFloat(amount || 0)]: a missing or empty amount reads as 0. *)
Definition amount_or_zero (amount : option string) : N :=
  match amount with
  | Some s => if String.eqb s "" then of_Z 0 else parseFloat s
  | None => of_Z 0
  end.

(** The entries the groups of one result push onto the map of services. *)
Definition push_groups (serviceCosts : list (option string * list (AnalyticsEngine.CostPoint N)))
  (result : ResultByTime) : list (option string * list (AnalyticsEngine.CostPoint N)) :=
  match Groups result with
  | None => serviceCosts
  | Some groups =>
      fold_left (fun m group =>
                   let service := hd_error (Keys group) in
                   let cost := parseFloat (group_amount group) in
                   map_push same_key service
                     {| AnalyticsEngine.cp_date := period_start result;
                        AnalyticsEngine.cp_cost := cost |} m)
                groups serviceCosts
  end.

Definition parseCostAndUsageResponse (resultsByTime : list ResultByTime) : ParsedCosts :=
  let dailyCosts :=
    map (fun result =>
           {| AnalyticsEngine.cp_date := period_start result;
              AnalyticsEngine.cp_cost := amount_or_zero (total_amount result) |})
        resultsByTime in
  let serviceCosts := fold_left push_groups resultsByTime [] in
  {| pc_dailyCosts := dailyCosts;
     pc_serviceCosts :=
       map (fun '(service, data) =>
              {| ps_service := service;
                 ps_data := data;
                 ps_total := sum_by (@AnalyticsEngine.cp_cost N) data |})
           serviceCosts;
     pc_totalCost := sum_by (@AnalyticsEngine.cp_cost N) dailyCosts |}.

End WithNumber.

Arguments ParsedService N : clear implicits.
Arguments ParsedCosts N : clear implicits.

End AWSCostService.

(** ** dataFlowController.js (class DataFlowController) *)

Module DataFlowController.
Section WithNumber.
Context {N : Type} `{JSNumber N}.
Local Open Scope js_scope.

(** A cost document as [fetchFromDatabase] reads it: [cost_day] is the day
    [date.toISOString().split('T')[0]] prints. *)
Record Cost : Type := {
  cost_day : string;
  cost_service : string;
  cost_amount : N
}.

Record CostData : Type := {
  totalCost : N;
  dailyCosts : list (AnalyticsEngine.CostPoint N);
  serviceCosts : list (AnalyticsEngine.ServiceCost N)
}.

Record CloudData : Type := {
  costData : CostData;
  resourceData : list (Resource N);
  historicalData : list (AnalyticsEngine.CostPoint N)
}.

(** [let dayEntry = dailyCosts.find(d => d.date === dateStr);
     if (!dayEntry) { dayEntry = { date: dateStr, cost: 0 }; dailyCosts.push(dayEntry); }
     dayEntry.cost += cost]: the entry is updated in place. *)
Fixpoint add_to_day (dateStr : string) (cost : N)
  (dailyCosts : list (AnalyticsEngine.CostPoint N)) : list (AnalyticsEngine.CostPoint N) :=
  match dailyCosts with
  | [] => [ {| AnalyticsEngine.cp_date := dateStr;
               AnalyticsEngine.cp_cost := of_Z 0 + cost |} ]
  | d :: rest =>
      if String.eqb (AnalyticsEngine.cp_date d) dateStr then
        {| AnalyticsEngine.cp_date := AnalyticsEngine.cp_date d;
           AnalyticsEngine.cp_cost := AnalyticsEngine.cp_cost d + cost |} :: rest
      else d :: add_to_day dateStr cost rest
  end.

(** [fetchFromDatabase(userId, days)], after its two queries: [costs] are the
    user's cost documents of the period by ascending date, [resources] the
    user's resources. *)
Definition fetchFromDatabase (costs : list Cost) (resources : list (Resource N))
  : CloudData :=
  let dailyCosts :=
    fold_left (fun days cost => add_to_day (cost_day cost) (cost_amount cost) days)
              costs [] in
  let serviceMap :=
    fold_left (fun m cost =>
                 map_push String.eqb (cost_service cost)
                   {| AnalyticsEngine.cp_date := cost_day cost;
                      AnalyticsEngine.cp_cost := cost_amount cost |} m)
              costs [] in
  let serviceCosts :=
    map (fun '(service, data) =>
           {| AnalyticsEngine.service := service;
              AnalyticsEngine.sc_total := sum_by (@AnalyticsEngine.cp_cost N) data;
              AnalyticsEngine.data := data |})
        serviceMap in
  {| costData :=
       {| totalCost := sum_by cost_amount costs;
          dailyCosts := dailyCosts;
          serviceCosts := serviceCosts |};
     resourceData := resources;
     historicalData :=
       map (fun d => {| AnalyticsEngine.cp_date := AnalyticsEngine.cp_date d;
                        AnalyticsEngine.cp_cost := AnalyticsEngine.cp_cost d |})
           dailyCosts |}.

Record Analytics : Type := {
  an_trend : AnalyticsEngine.TrendAnalysis N;
  an_opportunities : list (AnalyticsEngine.Opportunity N);
  savingsPotential : AnalyticsEngine.SavingsPotential N
}.

Definition runAnalytics (costData : CostData) (resourceData : list (Resource N))
  (historicalData : option (list (AnalyticsEngine.CostPoint N))) : Analytics :=
  let trendAnalysis := AnalyticsEngine.analyzeCostTrends historicalData in
  let opportunities :=
    AnalyticsEngine.identifyOptimizationOpportunities (serviceCosts costData) resourceData in
  let savingsPotential := AnalyticsEngine.calculateSavingsPotential opportunities in
  {| an_trend := trendAnalysis;
     an_opportunities := opportunities;
     savingsPotential := savingsPotential |}.

(** An EC2 instance and an RDS instance as [AWSCostService] lists them, with
    the fields [fetchFromAWS] copies into a resource. *)
Record EC2Instance : Type := {
  instanceId : string;
  instanceType : string
}.

Record RDSInstance : Type := {
  dbInstanceIdentifier : string;
  dbInstanceClass : string
}.

(** The [resourceData] of [fetchFromAWS]: one resource per EC2 instance, then
    one per RDS instance, with the utilization and the cost the source sets
    until CloudWatch and the cost data fill them in. The [region], [status]
    and [specifications] fields are not part of [Resource]. *)
Definition fetchFromAWS_resources (ec2Instances : list EC2Instance)
  (rdsInstances : list RDSInstance) : list (Resource N) :=
  map (fun inst =>
         {| resourceId := instanceId inst;
            resourceName := Some ("EC2-" ++ instanceType inst)%string;
            resourceType := "EC2";
            cost := of_Z 0;
            utilization := Some {| cpu := Some (of_Z 0); memory := Some (of_Z 0) |} |})
      ec2Instances
  ++
  map (fun inst =>
         {| resourceId := dbInstanceIdentifier inst;
            resourceName := Some ("RDS-" ++ dbInstanceClass inst)%string;
            resourceType := "RDS";
            cost := of_Z 0;
            utilization := Some {| cpu := Some (of_Z 0); memory := Some (of_Z 0) |} |})
      rdsInstances.

End WithNumber.

Arguments Cost N : clear implicits.
Arguments CostData N : clear implicits.
Arguments CloudData N : clear implicits.
Arguments Analytics N : clear implicits.

End DataFlowController.

(** ** Objects as the client sees them *)

(** The value of a field of a serialized forecast point. *)
Inductive Value (N : Type) : Type :=
| VNum (n : N)
| VDay (d : Z).

Arguments VNum {N} n.
Arguments VDay {N} d.

(** The own properties of a forecast point of [AnalyticsEngine.forecastCosts],
    in the order of the object literal. *)
Definition engine_point_fields {N : Type} (p : AnalyticsEngine.ForecastPoint N)
  : list (string * Value N) :=
  [ ("date"%string, VDay (AnalyticsEngine.fp_date p));
    ("predicted"%string, VNum (AnalyticsEngine.predicted p));
    ("low"%string, VNum (AnalyticsEngine.low p));
    ("high"%string, VNum (AnalyticsEngine.high p)) ].

(** The own properties of a point of [CostAnalyticsService.forecastCosts]. *)
Definition service_point_fields {N : Type} (p : CostAnalyticsService.ForecastPoint N)
  : list (string * Value N) :=
  [ ("_id"%string, VDay (CostAnalyticsService.fp_date p));
    ("date"%string, VDay (CostAnalyticsService.fp_date p));
    ("predicted"%string, VNum (CostAnalyticsService.predicted p));
    ("lowerBound"%string, VNum (CostAnalyticsService.lowerBound p));
    ("upperBound"%string, VNum (CostAnalyticsService.upperBound p));
    ("confidence"%string, VNum (CostAnalyticsService.confidence p)) ].

(** [obj[key]]: [None] stands for [undefined]. *)
Fixpoint get_field {N : Type} (key : string) (obj : list (string * Value N))
  : option (Value N) :=
  match obj with
  | [] => None
  | (k, v) :: rest => if String.eqb k key then Some v else get_field key rest
  end.

(** ** Concrete inputs *)

Module Scenario.
Import AnomalyDetectionService.

(** A day with only its identifier and total set. *)
Definition day (id : string) (t : float) : DailyCost float :=
  {| dc_id := id; dc_date := id; total := t;
     aws := 0%float; azure := 0%float; gcp := 0%float |}.

(** The eight days [100,100,100,100,100,100,100,500] of the specification. *)
Definition eight_days : list (DailyCost float) :=
  [ day "1" 100; day "2" 100; day "3" 100; day "4" 100;
    day "5" 100; day "6" 100; day "7" 100; day "8" 500 ]%float.

(** Seven days without spend followed by a day at 10. *)
Definition free_week_then_spend : list (DailyCost float) :=
  [ day "1" 0; day "2" 0; day "3" 0; day "4" 0;
    day "5" 0; day "6" 0; day "7" 0; day "8" 10 ]%float.

(** A single day without spend. *)
Definition one_free_day : list (DailyCost float) := [ day "1" 0%float ].

(** [|x - v| <= 0.05]: [x] agrees with the figure [v], printed to one decimal. *)
Definition agrees (x v : float) : bool :=
  PrimFloat.leb (PrimFloat.abs (x - v)) 0.05.

(** A resource with both utilization readings present. *)
Definition resource_with (c m k : float) : Resource float :=
  {| resourceId := "i-0abc123def"; resourceName := None; resourceType := "EC2";
     cost := k; utilization := Some {| cpu := Some c; memory := Some m |} |}.

(** A historical series from its costs. *)
Definition history (costs : list float) : list (AnalyticsEngine.CostPoint float) :=
  map (fun c => {| AnalyticsEngine.cp_date := "d"; AnalyticsEngine.cp_cost := c |}) costs.

End Scenario.

(** ** What the claims of the specification say *)

Section Claims.
Context {N : Type} `{JSNumber N}.
Local Open Scope js_scope.

(** The rightsizing rule as the specification words it: a recommendation
    exactly when cpu < 30 and memory < 30, of priority high exactly when
    cpu < 10, saving 0.4 times the cost. [emitted] lists what a generator
    returned for the resource, as (priority, savings) pairs. *)
Definition spec_rightsizing_rule (cpu memory cost : N)
  (emitted : list (string * N)) : Prop :=
  emitted =
    if (cpu <? of_Z 30) && (memory <? of_Z 30)
    then [ (if cpu <? of_Z 10 then "high"%string else "medium"%string,
             cost * lit (4 # 10)) ]
    else [].

(** The idle rule as the specification words it, for a resource below 5 on
    both readings: one recommendation, of priority high, saving the full cost. *)
Definition spec_idle_rule (cost : N) (emitted : list (string * N)) : Prop :=
  emitted = [ ("high"%string, cost) ].

End Claims.

(** ** Summaries of recommendations *)

(** What a recommendation says of its priority and its savings. *)
Definition insight_summary {N : Type} (r : AIInsightsEngine.Recommendation N)
  : string * N :=
  (AIInsightsEngine.priority r, AIInsightsEngine.estimatedSavings r).

Definition opportunity_summary {N : Type} (o : AnalyticsEngine.Opportunity N)
  : string * N :=
  (AnalyticsEngine.priority o, AnalyticsEngine.potentialSavings o).

Definition controller_summary {N : Type} (r : RecommendationController.Recommendation N)
  : string * N :=
  (RecommendationController.priority r, RecommendationController.estimatedSavings r).

Definition of_type {N : Type} (t : string) (l : list (AnalyticsEngine.Opportunity N))
  : list (AnalyticsEngine.Opportunity N) :=
  filter (fun o => String.eqb (AnalyticsEngine.op_type o) t) l.

Definition of_category {N : Type} (c : string)
  (l : list (RecommendationController.Recommendation N))
  : list (RecommendationController.Recommendation N) :=
  filter (fun r => String.eqb (RecommendationController.category r) c) l.

(** ** The sort keeps the opportunities *)

Section SortDesc.
Context {N : Type} `{JSNumber N} {A : Type} (key : A -> N).

Lemma insert_desc_In (x y : A) (l : list A) :
  In y (insert_desc key x l) <-> y = x \/ In y l.
Proof.
  induction l as [|z l IH]; simpl.
  - intuition congruence.
  - destruct (ltb _ _); simpl; rewrite ?IH; intuition congruence.
Qed.

Lemma sort_desc_In (y : A) (l : list A) : In y (sort_desc key l) <-> In y l.
Proof.
  induction l as [|x l IH]; simpl; [tauto|].
  rewrite insert_desc_In, IH. intuition congruence.
Qed.

Lemma insert_desc_permutation (x : A) (l : list A) :
  Permutation (insert_desc key x l) (x :: l).
Proof.
  induction l as [|z l IH]; simpl; [reflexivity|].
  destruct (ltb _ _); [|reflexivity].
  rewrite IH. apply perm_swap.
Qed.

Lemma sort_desc_permutation (l : list A) : Permutation (sort_desc key l) l.
Proof.
  induction l as [|x l IH]; simpl; [reflexivity|].
  rewrite insert_desc_permutation. now apply perm_skip.
Qed.

End SortDesc.

(** X3. What [identifyOptimizationOpportunities] returns is a rearrangement of
    the opportunities its service rules and its resource rules added: an
    opportunity is returned exactly when a service or a resource added it. *)
Theorem identifyOptimizationOpportunities_permutation {N : Type} `{JSNumber N}
  (serviceCosts : list (AnalyticsEngine.ServiceCost N)) (resources : list (Resource N)) :
  Permutation
    (AnalyticsEngine.identifyOptimizationOpportunities serviceCosts resources)
    (flat_map (AnalyticsEngine.service_opportunities serviceCosts) serviceCosts
     ++ flat_map AnalyticsEngine.resource_opportunities resources)
  /\ forall o,
       In o (AnalyticsEngine.identifyOptimizationOpportunities serviceCosts resources) <->
       (exists s, In s serviceCosts
                  /\ In o (AnalyticsEngine.service_opportunities serviceCosts s))
       \/ (exists r, In r resources /\ In o (AnalyticsEngine.resource_opportunities r)).
Proof.
  unfold AnalyticsEngine.identifyOptimizationOpportunities. split.
  - apply sort_desc_permutation.
  - intros o. rewrite sort_desc_In, in_app_iff, !in_flat_map. tauto.
Qed.

(** For a single resource and no service, the sort leaves the opportunities
    of each type as the resource rules added them. *)
Lemma opportunities_of_one_resource {N : Type} `{JSNumber N} (r : Resource N) :
  map opportunity_summary
    (of_type "underutilized_resource"
       (AnalyticsEngine.identifyOptimizationOpportunities [] [r]))
  = map opportunity_summary
      (of_type "underutilized_resource" (AnalyticsEngine.resource_opportunities r))
  /\ map opportunity_summary
       (of_type "idle_resource"
          (AnalyticsEngine.identifyOptimizationOpportunities [] [r]))
     = map opportunity_summary
         (of_type "idle_resource" (AnalyticsEngine.resource_opportunities r)).
Proof.
  unfold AnalyticsEngine.identifyOptimizationOpportunities,
    AnalyticsEngine.resource_opportunities.
  simpl. rewrite app_nil_r.
  destruct (utilization r) as [u|]; [|split; reflexivity].
  destruct ((_ <? of_Z 20)%js && (_ <? of_Z 20)%js),
    ((_ <? of_Z 5)%js && (_ <? of_Z 5)%js); simpl; try (split; reflexivity).
  destruct (ltb _ _); split; reflexivity.
Qed.

(** ** Rightsizing (C3) *)

(** C3, as the code has it. For a resource with utilization data, writing
    cpu and memory for its readings (a missing reading counts as 0):
    - [AIInsightsEngine.generateRightsizingRecommendations] recommends exactly
      when (cpu + memory) / 2 < 40, cpu < 50 and memory < 50, with priority
      high exactly when the average is below 20, and savings cost * 0.4
      rounded to two decimals;
    - [AnalyticsEngine.identifyOptimizationOpportunities] adds an
      underutilized-resource opportunity exactly when cpu < 20 and
      memory < 20, of priority high exactly when cpu < 10, saving cost * 0.4;
    - the recommendation controller follows the rule of the specification:
      cpu < 30 and memory < 30, high exactly when cpu < 10, saving cost * 0.4. *)
Theorem rightsizing_rules {N : Type} `{JSNumber N} (r : Resource N) (u : Utilization N) :
  utilization r = Some u ->
  let c := or_zero (cpu u) in
  let m := or_zero (memory u) in
  let avg := ((c + m) / of_Z 2)%js in
  map insight_summary (AIInsightsEngine.generateRightsizingRecommendations [r]) =
    (if (avg <? of_Z 40)%js && (c <? of_Z 50)%js && (m <? of_Z 50)%js
     then [ (if (avg <? of_Z 20)%js then "high"%string else "medium"%string,
             toFixed2 (cost r * lit (4 # 10))%js) ]
     else [])
  /\ map opportunity_summary
       (of_type "underutilized_resource"
          (AnalyticsEngine.identifyOptimizationOpportunities [] [r])) =
    (if (c <? of_Z 20)%js && (m <? of_Z 20)%js
     then [ (if (c <? of_Z 10)%js then "high"%string else "medium"%string,
             (cost r * lit (40 # 100))%js) ]
     else [])
  /\ spec_rightsizing_rule c m (cost r)
       (map controller_summary
          (of_category "rightsizing" (RecommendationController.resource_recommendations r))).
Proof.
  intros Hu c m avg.
  rewrite (proj1 (opportunities_of_one_resource r)).
  unfold AIInsightsEngine.generateRightsizingRecommendations,
    AIInsightsEngine.rightsizing_round, AnalyticsEngine.resource_opportunities,
    RecommendationController.resource_recommendations, spec_rightsizing_rule.
  simpl. rewrite Hu. fold c m. fold avg.
  repeat split.
  - destruct ((avg <? of_Z 40)%js && (c <? of_Z 50)%js && (m <? of_Z 50)%js);
      reflexivity.
  - destruct ((c <? of_Z 20)%js && (m <? of_Z 20)%js),
      ((c <? of_Z 5)%js && (m <? of_Z 5)%js); reflexivity.
  - destruct ((c <? of_Z 30)%js && (m <? of_Z 30)%js),
      ((c <? of_Z 5)%js && (m <? of_Z 5)%js); reflexivity.
Qed.

Lemma rightsizing_rules_witness :
  map insight_summary
    (AIInsightsEngine.generateRightsizingRecommendations [Scenario.resource_with 8 12 348])
  = [ ("high"%string, 139.2%float) ]
  /\ map opportunity_summary
       (of_type "underutilized_resource"
          (AnalyticsEngine.identifyOptimizationOpportunities []
             [Scenario.resource_with 8 12 348]))
     = [ ("high"%string, 139.20000000000002%float) ]
  /\ spec_rightsizing_rule 8%float 12%float 348%float
       (map controller_summary
          (of_category "rightsizing"
             (RecommendationController.resource_recommendations
                (Scenario.resource_with 8 12 348)))).
Proof.
  exact (rightsizing_rules (Scenario.resource_with 8 12 348) eq_refl).
Defined.

(** C3 fails on the two generators the claim cites: at cpu = memory = 35 the
    insights engine recommends rightsizing although 35 < 30 is false, and at
    cpu = memory = 25 the analytics engine adds nothing although both are
    below 30. *)
Lemma rightsizing_rule_of_spec_fails :
  ~ spec_rightsizing_rule 35%float 35%float 100%float
      (map insight_summary
         (AIInsightsEngine.generateRightsizingRecommendations
            [Scenario.resource_with 35 35 100]))
  /\ ~ spec_rightsizing_rule 25%float 25%float 100%float
         (map opportunity_summary
            (of_type "underutilized_resource"
               (AnalyticsEngine.identifyOptimizationOpportunities []
                  [Scenario.resource_with 25 25 100]))).
Proof.
  split; unfold spec_rightsizing_rule; vm_compute; discriminate.
Qed.

(** ** Idle resources (C8) *)

(** C8, as the code has it. For a resource with utilization data whose cpu
    and memory readings (a missing reading counts as 0) are both below 5:
    - [AIInsightsEngine.generateIdleResourceRecommendations] gives one
      recommendation, of priority high, whose estimated savings are the cost
      rounded to two decimals;
    - [AnalyticsEngine.identifyOptimizationOpportunities] adds one
      idle-resource opportunity, of priority high, whose potential savings are
      the cost itself;
    - the recommendation controller gives one idle recommendation, of
      priority high, whose estimated savings are the cost itself. *)
Theorem idle_rules {N : Type} `{JSNumber N} (r : Resource N) (u : Utilization N) :
  utilization r = Some u ->
  (or_zero (cpu u) <? of_Z 5)%js = true ->
  (or_zero (memory u) <? of_Z 5)%js = true ->
  map insight_summary (AIInsightsEngine.generateIdleResourceRecommendations [r]) =
    [ ("high"%string, toFixed2 (cost r)) ]
  /\ map opportunity_summary
       (of_type "idle_resource"
          (AnalyticsEngine.identifyOptimizationOpportunities [] [r])) =
     [ ("high"%string, cost r) ]
  /\ spec_idle_rule (cost r)
       (map controller_summary
          (of_category "idle_resources"
             (RecommendationController.resource_recommendations r))).
Proof.
  intros Hu Hc Hm.
  rewrite (proj2 (opportunities_of_one_resource r)).
  unfold AIInsightsEngine.generateIdleResourceRecommendations,
    AIInsightsEngine.idle_round, AnalyticsEngine.resource_opportunities,
    RecommendationController.resource_recommendations, spec_idle_rule.
  simpl. rewrite Hu, Hc, Hm. simpl.
  repeat split.
  - destruct ((_ <? of_Z 20)%js && (_ <? of_Z 20)%js); reflexivity.
  - destruct ((_ <? of_Z 30)%js && (_ <? of_Z 30)%js); reflexivity.
Qed.

Lemma idle_rules_witness :
  map insight_summary
    (AIInsightsEngine.generateIdleResourceRecommendations [Scenario.resource_with 1 2 348])
  = [ ("high"%string, toFixed2 348%float) ]
  /\ map opportunity_summary
       (of_type "idle_resource"
          (AnalyticsEngine.identifyOptimizationOpportunities []
             [Scenario.resource_with 1 2 348]))
     = [ ("high"%string, 348%float) ]
  /\ spec_idle_rule 348%float
       (map controller_summary
          (of_category "idle_resources"
             (RecommendationController.resource_recommendations
                (Scenario.resource_with 1 2 348)))).
Proof.
  exact (idle_rules (Scenario.resource_with 1 2 348) eq_refl eq_refl eq_refl).
Defined.

(** C8 fails on the insights engine for a cost with more than two decimals:
    an idle resource costing 12.3456 is reported as saving 12.35. *)
Lemma idle_savings_are_rounded :
  map insight_summary
    (AIInsightsEngine.generateIdleResourceRecommendations
       [Scenario.resource_with 1 1 12.3456])
  = [ ("high"%string, 12.35%float) ]
  /\ ~ spec_idle_rule 12.3456%float
         (map insight_summary
            (AIInsightsEngine.generateIdleResourceRecommendations
               [Scenario.resource_with 1 1 12.3456])).
Proof.
  split; [vm_compute; reflexivity|].
  unfold spec_idle_rule. intros Heq.
  apply (f_equal (map (fun p => Prim2SF (snd p)))) in Heq.
  vm_compute in Heq. discriminate.
Qed.

(** ** Forecast of the analytics engine on a short history (C10) *)

(** C10. With a missing history or fewer than 14 points,
    [AnalyticsEngine.forecastCosts] returns the forecast without points marked
    'low', whatever the horizon. *)
Theorem forecastCosts_short_history {N : Type} `{JSNumber N} (today : Z)
  (historicalData : option (list (AnalyticsEngine.CostPoint N))) (days : Z) :
  match historicalData with
  | None => True
  | Some points => (List.length points < 14)%nat
  end ->
  AnalyticsEngine.forecastCosts today historicalData days =
    {| AnalyticsEngine.forecast := [];
       AnalyticsEngine.confidence := "low";
       AnalyticsEngine.forecast_details := None |}.
Proof.
  destruct historicalData as [points|]; intros Hshort; simpl; [|reflexivity].
  destruct (Z.ltb_spec (Z.of_nat (List.length points)) 14); [reflexivity|lia].
Qed.

Lemma forecastCosts_short_history_witness :
  AnalyticsEngine.forecastCosts 0
    (Some (Scenario.history [10; 20; 30; 40; 50; 60; 70; 80; 90; 100; 110; 120; 130]%float))
    30
  = {| AnalyticsEngine.forecast := [];
       AnalyticsEngine.confidence := "low";
       AnalyticsEngine.forecast_details := None |}.
Proof.
  apply forecastCosts_short_history. simpl. lia.
Defined.

(** ** Moving average: one record per day over its trailing window *)

Lemma nth_error_indexed_from {A : Type} (l : list A) (s i : nat) :
  nth_error (combine (map Z.of_nat (seq s (List.length l))) l) i
  = option_map (fun x => (Z.of_nat (s + i), x)) (nth_error l i).
Proof.
  revert s i. induction l as [|x l IH]; intros s i; simpl.
  - now destruct i.
  - destruct i as [|i]; simpl.
    + now rewrite Nat.add_0_r.
    + rewrite IH. now rewrite Nat.add_succ_r.
Qed.

Lemma nth_error_indexed {A : Type} (l : list A) (i : nat) :
  nth_error (indexed l) i = option_map (fun x => (Z.of_nat i, x)) (nth_error l i).
Proof. unfold indexed. now rewrite nth_error_indexed_from. Qed.

Lemma indexed_length {A : Type} (l : list A) : List.length (indexed l) = List.length l.
Proof.
  unfold indexed. rewrite length_combine, length_map, length_seq. apply Nat.min_id.
Qed.

(** The elements of [slice l start stop] for indices within the array are
    those of [l] at the positions [start], ..., [stop - 1]. *)
Lemma nth_error_slice {A : Type} (l : list A) (start stop : Z) (k : nat) :
  (0 <= start)%Z -> (start <= stop)%Z -> (stop <= Z.of_nat (List.length l))%Z ->
  nth_error (slice l start stop) k
  = if (Z.of_nat k <? stop - start)%Z then nth_error l (Z.to_nat start + k) else None.
Proof.
  intros H0 Hle Hlen. unfold slice, relative_index.
  destruct (Z.ltb_spec start 0); [lia|]. destruct (Z.ltb_spec stop 0); [lia|].
  rewrite !Z.min_l by lia.
  rewrite nth_error_firstn, nth_error_skipn.
  destruct (Nat.ltb_spec k (Z.to_nat (stop - start))), (Z.ltb_spec (Z.of_nat k) (stop - start));
    try reflexivity; lia.
Qed.

(** X1. One record per day, each over its trailing window. Whatever the series
    and the window size, [calculateMovingAverage] returns as many records as
    there are days; the record of day [i] averages the window
    [slice(max(0, i - W + 1), i + 1)], whose elements are the days
    max(0, i - W + 1), ..., i (none when W is 0 or less). *)
Theorem calculateMovingAverage_trailing_window {N : Type} `{JSNumber N}
  (dailyCosts : list (AnomalyDetectionService.DailyCost N)) (windowSize : Z) :
  List.length (AnomalyDetectionService.calculateMovingAverage dailyCosts windowSize) = List.length dailyCosts
  /\ forall (i : nat) (day : AnomalyDetectionService.DailyCost N),
       nth_error dailyCosts i = Some day ->
       let start := Z.max 0 (Z.of_nat i - windowSize + 1) in
       let window := slice dailyCosts start (Z.of_nat i + 1) in
       let avg := (sum_by AnomalyDetectionService.total window / of_Z (Z.of_nat (List.length window)))%js in
       (forall k, nth_error window k
                  = if (Z.of_nat k <? Z.of_nat i + 1 - start)%Z
                    then nth_error dailyCosts (Z.to_nat start + k) else None)
       /\ nth_error (AnomalyDetectionService.calculateMovingAverage dailyCosts windowSize) i
          = Some {| AnomalyDetectionService.ma_date := AnomalyDetectionService.dc_date day;
                    AnomalyDetectionService.actual := AnomalyDetectionService.total day;
                    AnomalyDetectionService.movingAverage := toFixed2 avg;
                    AnomalyDetectionService.deviation := toFixed2 (AnomalyDetectionService.total day - avg)%js;
                    AnomalyDetectionService.ma_deviationPercent :=
                      toFixed2 ((AnomalyDetectionService.total day - avg) / avg * of_Z 100)%js |}.
Proof.
  split.
  - unfold AnomalyDetectionService.calculateMovingAverage. now rewrite length_map, indexed_length.
  - intros i day Hday start window avg. split.
    + intros k. unfold window.
      assert (Hi : (i < List.length dailyCosts)%nat)
        by (apply nth_error_Some; rewrite Hday; discriminate).
      destruct (Z.le_gt_cases start (Z.of_nat i + 1)) as [Hle|Hgt].
      * apply nth_error_slice; unfold start in *; lia.
      * (* a window size of zero or less: the window is empty *)
        destruct (Z.ltb_spec (Z.of_nat k) (Z.of_nat i + 1 - start)); [lia|].
        unfold slice, relative_index.
        destruct (Z.ltb_spec start 0); [unfold start in *; lia|].
        destruct (Z.ltb_spec (Z.of_nat i + 1) 0); [lia|].
        replace (Z.to_nat (Z.min (Z.of_nat i + 1) (Z.of_nat (List.length dailyCosts))
                           - Z.min start (Z.of_nat (List.length dailyCosts)))) with 0%nat by lia.
        now destruct k.
    + unfold AnomalyDetectionService.calculateMovingAverage. rewrite nth_error_map, nth_error_indexed, Hday.
      reflexivity.
Qed.

(** X2. With a missing series or fewer than 7 points, [analyzeCostTrends]
    answers 'insufficient_data' with zeroed fields. *)
Theorem analyzeCostTrends_insufficient_data {N : Type} `{JSNumber N}
  (dailyCosts : option (list (AnalyticsEngine.CostPoint N))) :
  match dailyCosts with
  | None => True
  | Some points => (List.length points < 7)%nat
  end ->
  AnalyticsEngine.analyzeCostTrends dailyCosts =
    {| AnalyticsEngine.trend := "insufficient_data";
       AnalyticsEngine.averageDaily := of_Z 0;
       AnalyticsEngine.projectedMonthly := of_Z 0;
       AnalyticsEngine.anomaly := false;
       AnalyticsEngine.trend_details := None |}.
Proof.
  destruct dailyCosts as [points|]; intros Hshort; simpl; [|reflexivity].
  destruct (Z.ltb_spec (Z.of_nat (List.length points)) 7); [reflexivity|lia].
Qed.

Lemma analyzeCostTrends_insufficient_data_witness :
  AnalyticsEngine.analyzeCostTrends (Some (Scenario.history [10; 20; 30]%float)) =
    {| AnalyticsEngine.trend := "insufficient_data";
       AnalyticsEngine.averageDaily := of_Z 0;
       AnalyticsEngine.projectedMonthly := of_Z 0;
       AnalyticsEngine.anomaly := false;
       AnalyticsEngine.trend_details := None |}.
Proof.
  apply analyzeCostTrends_insufficient_data. simpl. lia.
Defined.

(** ** Runs in binary64 *)

(** C1 at its failing input. After seven days without spend the trailing
    average is 0; a day at 10 is then reported as a critical spike whose
    [increasePercent] is infinite. *)
Theorem spike_over_zero_average :
  option_map
    (fun report =>
       map (fun s => (AnomalyDetectionService.sp_id s,
                      AnomalyDetectionService.averageCost s,
                      AnomalyDetectionService.increasePercent s,
                      is_finite (AnomalyDetectionService.increasePercent s),
                      AnomalyDetectionService.sp_severity s))
           (AnomalyDetectionService.spikes report))
    (AnomalyDetectionService.detectCostSpikes Scenario.free_week_then_spend 7)
  = Some [ ("spike-8"%string, 0%float, infinity, false, "critical"%string) ].
Proof. vm_compute. reflexivity. Qed.

(** C2 at its failing input. On a day without spend the moving average is 0
    and the record's [deviationPercent] is NaN. *)
Theorem moving_average_over_zero :
  map (fun r => (AnomalyDetectionService.movingAverage r,
                 is_nan (AnomalyDetectionService.ma_deviationPercent r)))
      (AnomalyDetectionService.calculateMovingAverage Scenario.one_free_day 7)
  = [ (0%float, true) ].
Proof. vm_compute. reflexivity. Qed.

(** C4, with the figures the code computes. On the eight days
    [100,100,100,100,100,100,100,500] with period 8 the mean is 150, the
    standard deviation 132.29 and the error threshold 414.58 (to two
    decimals); day 8 alone is flagged, as an anomaly of severity "error", and
    there is no warning. *)
Theorem eight_days_report :
  let report := AnomalyDetectionService.detectAnomalies Scenario.eight_days 8 in
  let stats := AnomalyDetectionService.statistics report in
  AnomalyDetectionService.rs_mean stats = 150%float
  /\ AnomalyDetectionService.rs_stdDev stats = 132.29%float
  /\ AnomalyDetectionService.rs_threshold stats = 414.58%float
  /\ map (fun a => (AnomalyDetectionService.an_id a,
                    AnomalyDetectionService.actualCost a,
                    AnomalyDetectionService.severity a))
         (AnomalyDetectionService.anomalies report)
     = [ ("anomaly-8"%string, 500%float, "error"%string) ]
  /\ AnomalyDetectionService.warnings report = [].
Proof. vm_compute. repeat split; reflexivity. Qed.

(** The figures the specification gives for that run (137.5, 132.6 and
    402.7) are not the computed ones: none agrees to its printed decimal,
    before or after the rounding of the report. *)
Lemma eight_days_figures_of_spec_fail :
  let values := map (@AnomalyDetectionService.total float) Scenario.eight_days in
  let stats := AnomalyDetectionService.calculateStatistics values in
  let threshold :=
    (AnomalyDetectionService.mean stats + 2 * AnomalyDetectionService.stdDev stats)%float in
  AnomalyDetectionService.mean stats = 150%float
  /\ Scenario.agrees (AnomalyDetectionService.mean stats) 137.5 = false
  /\ Scenario.agrees (AnomalyDetectionService.stdDev stats) 132.6 = false
  /\ Scenario.agrees threshold 402.7 = false.
Proof. vm_compute. repeat split; reflexivity. Qed.

(** X4. The scenario of the specification in binary64: for the resource
    {cpu: 8, memory: 12, cost: 348} the insights engine recommends
    rightsizing with priority "high" and estimated savings 139.2. *)
Theorem rightsizing_scenario :
  map (fun r => (AIInsightsEngine.category r, AIInsightsEngine.priority r,
                 AIInsightsEngine.estimatedSavings r,
                 AIInsightsEngine.savingsPercentage r))
      (AIInsightsEngine.generateRightsizingRecommendations
         [Scenario.resource_with 8 12 348])
  = [ ("rightsizing"%string, "high"%string, 139.2%float, 40%float) ].
Proof. vm_compute. reflexivity. Qed.

(** ** Exact arithmetic *)

Section ExactArithmetic.
Import Exact.
Import AnomalyDetectionService.
Local Open Scope R_scope.

(** Reading the operations of the interface at [xreal]. *)
Ltac xreal_ops :=
  cbv [add sub mul div opp sqrt ltb leb max min toFixed2 truthy is_finite is_nan
       of_Z lit inf ninf xreal_number] in *.

(** The sum of a list of reals. *)
Definition Rsum (l : list R) : R := fold_right Rplus 0 l.

Lemma Rltb_true a b : Rltb a b = true <-> (a < b)%R.
Proof. unfold Rltb. destruct (Rlt_dec a b); split; intros; try easy. Qed.
Lemma Rltb_false a b : Rltb a b = false <-> (b <= a)%R.
Proof. unfold Rltb. destruct (Rlt_dec a b); split; intros; try easy; lra. Qed.
Lemma Reqb_true a b : Reqb a b = true <-> a = b.
Proof. unfold Reqb. destruct (Req_dec_T a b); split; intros; easy. Qed.
Lemma Reqb_false a b : Reqb a b = false <-> a <> b.
Proof. unfold Reqb. destruct (Req_dec_T a b); split; intros; easy. Qed.

Section Sums.
Context {A : Type} (f : A -> xreal).

Lemma sum_from_finite (g : A -> R) (l : list A) (a : R) :
  (forall x, In x l -> f x = Fin (g x)) ->
  fold_left (fun s v => xadd s (f v)) l (Fin a) = Fin (a + Rsum (map g l)).
Proof.
  revert a. induction l as [|x l IH]; intros a Hf; simpl.
  - f_equal. lra.
  - rewrite (Hf x (or_introl eq_refl)). simpl. rewrite IH.
    + f_equal. lra.
    + intros y Hy. apply Hf. now right.
Qed.

Lemma sum_from_nan (l : list A) :
  fold_left (fun s v => xadd s (f v)) l NaN = NaN.
Proof. induction l as [|x l IH]; simpl; auto. Qed.

Lemma sum_with_nan (l : list A) (acc : xreal) (x : A) :
  In x l -> f x = NaN -> fold_left (fun s v => xadd s (f v)) l acc = NaN.
Proof.
  revert acc. induction l as [|y l IH]; intros acc Hin Hx; simpl; [easy|].
  destruct Hin as [->|Hin].
  - rewrite Hx. replace (xadd acc NaN) with NaN by now destruct acc.
    apply sum_from_nan.
  - now apply IH.
Qed.

(** A finite sum has only finite terms. *)
Lemma sum_finite_inv (l : list A) (acc : xreal) (s : R) :
  fold_left (fun s v => xadd s (f v)) l acc = Fin s ->
  (exists a, acc = Fin a) /\ forall x, In x l -> exists r, f x = Fin r.
Proof.
  revert acc. induction l as [|y l IH]; intros acc Hs; simpl in *.
  - split; [eauto|easy].
  - apply IH in Hs. destruct Hs as [[a Ha] Hl].
    destruct acc, (f y) eqn:Hy; simpl in Ha; try discriminate.
    split; [eauto|]. intros x [<-|Hx]; eauto.
Qed.

(** A sum that is +infinity has a term that is. *)
Lemma sum_pinf_inv (l : list A) (acc : xreal) :
  fold_left (fun s v => xadd s (f v)) l acc = PInf ->
  acc = PInf \/ exists x, In x l /\ f x = PInf.
Proof.
  revert acc. induction l as [|y l IH]; intros acc Hs; simpl in *.
  - now left.
  - apply IH in Hs. destruct Hs as [Ha|[x [Hx Hfx]]].
    + destruct acc, (f y) eqn:Hy; simpl in Ha; try discriminate; eauto.
    + right. exists x. auto.
Qed.

Lemma sum_ninf_inv (l : list A) (acc : xreal) :
  fold_left (fun s v => xadd s (f v)) l acc = NInf ->
  acc = NInf \/ exists x, In x l /\ f x = NInf.
Proof.
  revert acc. induction l as [|y l IH]; intros acc Hs; simpl in *.
  - now left.
  - apply IH in Hs. destruct Hs as [Ha|[x [Hx Hfx]]].
    + destruct acc, (f y) eqn:Hy; simpl in Ha; try discriminate; eauto.
    + right. exists x. auto.
Qed.

End Sums.

Lemma firstn_In {A} (n : nat) (l : list A) x : In x (firstn n l) -> In x l.
Proof. intros Hin. rewrite <- (firstn_skipn n l). apply in_or_app. now left. Qed.

Lemma skipn_In {A} (n : nat) (l : list A) x : In x (skipn n l) -> In x l.
Proof. intros Hin. rewrite <- (firstn_skipn n l). apply in_or_app. now right. Qed.

Lemma slice_In {A} (l : list A) a b x : In x (slice l a b) -> In x l.
Proof.
  unfold slice. intros Hin. apply firstn_In in Hin. eapply skipn_In; eauto.
Qed.

(** The real a finite number stands for. *)
Definition real_of (x : xreal) : R := match x with Fin r => r | _ => 0%R end.

Lemma all_finite_map (values : list xreal) :
  forallb xis_finite values = true -> values = map Fin (map real_of values).
Proof.
  induction values as [|x l IH]; simpl; [reflexivity|].
  intros H. apply andb_prop in H. destruct H as [Hx Hl].
  destruct x; try discriminate. simpl. f_equal. auto.
Qed.

Lemma not_all_finite (values : list xreal) :
  forallb xis_finite values = false -> exists x, In x values /\ xis_finite x = false.
Proof.
  induction values as [|x l IH]; simpl; [discriminate|].
  intros H. apply andb_false_iff in H. destruct H as [Hx|Hl].
  - exists x. auto.
  - destruct (IH Hl) as [y [Hy Hfy]]. exists y. auto.
Qed.

(** Mean and population variance of a list of reals. *)
Definition Rmean (rs : list R) : R := (Rsum rs / INR (List.length rs))%R.
Definition Rvariance (rs : list R) : R :=
  (Rsum (map (fun r => (r - Rmean rs) * (r - Rmean rs)) rs) / INR (List.length rs))%R.

Lemma length_pos_INR {A} (l : list A) : l <> [] -> (0 < INR (List.length l))%R.
Proof. destruct l; [easy|]. intros _. apply lt_0_INR. simpl. lia. Qed.

Lemma Rsum_squares_nonneg (f : R -> R) (rs : list R) :
  (0 <= Rsum (map (fun r => f r * f r) rs))%R.
Proof. induction rs as [|r rs IH]; simpl; [lra|]. nra. Qed.

Lemma Rsum_squares_pos (f : R -> R) (rs : list R) (r : R) :
  In r rs -> f r <> 0%R -> (0 < Rsum (map (fun r => f r * f r) rs))%R.
Proof.
  induction rs as [|y rs IH]; simpl; [easy|].
  intros [->|Hin] Hr.
  - pose proof (Rsum_squares_nonneg f rs). nra.
  - specialize (IH Hin Hr). nra.
Qed.

Lemma Rvariance_nonneg rs : rs <> [] -> (0 <= Rvariance rs)%R.
Proof.
  intros Hne. unfold Rvariance.
  pose proof (length_pos_INR Hne).
  pose proof (Rsum_squares_nonneg (fun r => r - Rmean rs)%R rs).
  apply Rmult_le_pos; [assumption|]. left. now apply Rinv_0_lt_compat.
Qed.

Lemma calculateStatistics_nonempty {N} `{JSNumber N} (values : list N) :
  values <> [] ->
  let n := of_Z (Z.of_nat (List.length values)) in
  let m := div (sum_by (fun v => v) values) n in
  mean (calculateStatistics values) = m
  /\ stdDev (calculateStatistics values) =
       sqrt (div (sum_by (fun v => pow2 (sub v m)) values) n).
Proof. destruct values; [easy|]. intros _. split; reflexivity. Qed.

Lemma stats_finite (rs : list R) :
  rs <> [] ->
  mean (calculateStatistics (map Fin rs)) = Fin (Rmean rs)
  /\ stdDev (calculateStatistics (map Fin rs)) = Fin (R_sqrt.sqrt (Rvariance rs)).
Proof.
  intros Hne. pose proof (length_pos_INR Hne) as Hn.
  assert (Hne' : map Fin rs <> []) by (destruct rs; [easy|discriminate]).
  destruct (calculateStatistics_nonempty Hne') as [-> ->].
  rewrite length_map.
  assert (Hmean : div (sum_by (fun v : xreal => v) (map Fin rs))
                      (of_Z (Z.of_nat (List.length rs))) = Fin (Rmean rs)).
  { unfold sum_by. xreal_ops.
    rewrite (@sum_from_finite _ (fun v => v) real_of).
    - rewrite <- INR_IZR_INZ. unfold xdiv.
      replace (Reqb (INR (List.length rs)) 0) with false
        by (symmetry; apply Reqb_false; lra).
      f_equal. unfold Rmean. rewrite map_map. simpl. rewrite map_id. f_equal. lra.
    - intros x Hx. apply in_map_iff in Hx. destruct Hx as [r [<- _]]. reflexivity. }
  split; [exact Hmean|].
  rewrite Hmean. unfold sum_by, pow2. xreal_ops.
  rewrite (@sum_from_finite _ _ (fun v => (real_of v - Rmean rs) * (real_of v - Rmean rs))%R).
  - rewrite <- INR_IZR_INZ. unfold xdiv.
    replace (Reqb (INR (List.length rs)) 0) with false
      by (symmetry; apply Reqb_false; lra).
    unfold xsqrt. rewrite map_map. simpl.
    replace (0 + Rsum (map (fun x => (x - Rmean rs) * (x - Rmean rs)) rs))%R
      with (Rsum (map (fun x => (x - Rmean rs) * (x - Rmean rs)) rs)) by lra.
    fold (Rvariance rs).
    replace (Rltb (Rvariance rs) 0) with false; [reflexivity|].
    symmetry. apply Rltb_false. now apply Rvariance_nonneg.
  - intros x Hx. apply in_map_iff in Hx. destruct Hx as [r [<- _]]. reflexivity.
Qed.

Lemma xdiv_nan_l y : xdiv NaN y = NaN.
Proof. reflexivity. Qed.

Lemma xadd_nan_r x : xadd x NaN = NaN.
Proof. now destruct x. Qed.

Lemma xmul_nan_r x : xmul x NaN = NaN.
Proof. now destruct x. Qed.

(** With a value that is not finite, the standard deviation is NaN. *)
Lemma stats_not_finite (values : list xreal) (x : xreal) :
  In x values -> xis_finite x = false ->
  stdDev (calculateStatistics values) = NaN.
Proof.
  intros Hin Hx.
  assert (Hne : values <> []) by (destruct values; [easy|discriminate]).
  pose proof (length_pos_INR Hne) as Hn.
  destruct (calculateStatistics_nonempty Hne) as [_ ->].
  unfold sum_by, pow2. xreal_ops. rewrite <- INR_IZR_INZ.
  set (n := INR (List.length values)) in *.
  set (m := xdiv (fold_left (fun s v => xadd s v) values (Fin (IZR 0))) (Fin n)).
  enough (Hbad : exists y, In y values /\ xmul (xsub y m) (xsub y m) = NaN).
  { destruct Hbad as [y [Hy Hnan]].
    rewrite (sum_with_nan (fun v => xmul (xsub v m) (xsub v m)) values _ y Hy Hnan).
    reflexivity. }
  assert (Hpos : Rltb n 0 = false) by (apply Rltb_false; lra).
  destruct (fold_left (fun s v => xadd s v) values (Fin (IZR 0))) as [s| | |] eqn:Hs.
  - apply (sum_finite_inv (fun v => v)) in Hs. destruct Hs as [_ Hall].
    destruct (Hall x Hin) as [r ->]. discriminate.
  - apply (sum_pinf_inv (fun v => v)) in Hs. destruct Hs as [Hs|[y [Hy ->]]]; [discriminate|].
    exists PInf. split; [assumption|]. subst m. simpl. now rewrite Hpos.
  - apply (sum_ninf_inv (fun v => v)) in Hs. destruct Hs as [Hs|[y [Hy ->]]]; [discriminate|].
    exists NInf. split; [assumption|]. subst m. simpl. now rewrite Hpos.
  - exists x. split; [assumption|]. subst m. simpl. now destruct x.
Qed.

(** A value above mean + w * stdDev: all values are finite, and the value is
    strictly above the mean. *)
Lemma above_threshold (values : list xreal) (t : xreal) (w : R) :
  In t values -> 0 <= w ->
  xltb (xadd (mean (calculateStatistics values))
             (xmul (Fin w) (stdDev (calculateStatistics values)))) t = true ->
  exists rs r, values = map Fin rs /\ rs <> [] /\ In r rs /\ t = Fin r
               /\ Rmean rs + w * R_sqrt.sqrt (Rvariance rs) < r.
Proof.
  intros Hin Hw Habove.
  destruct (forallb xis_finite values) eqn:Hall.
  - apply all_finite_map in Hall. set (rs := map real_of values) in *.
    assert (Hne : rs <> []).
    { intros E. rewrite E in Hall. rewrite Hall in Hin. easy. }
    destruct (stats_finite Hne) as [Hm Hs].
    rewrite Hall in Habove, Hin. rewrite Hm, Hs in Habove.
    apply in_map_iff in Hin. destruct Hin as [r [<- Hr]].
    exists rs, r. simpl in Habove. apply Rltb_true in Habove. auto.
  - apply not_all_finite in Hall. destruct Hall as [x [Hx Hfx]].
    rewrite (stats_not_finite values x Hx Hfx) in Habove.
    rewrite xmul_nan_r, xadd_nan_r in Habove. discriminate.
Qed.

Lemma flat_map_nil {A B} (f : A -> list B) (l : list A) :
  (forall x, In x l -> f x = []) -> flat_map f l = [].
Proof.
  induction l as [|x l IH]; intros Hf; simpl; [reflexivity|].
  rewrite (Hf x (or_introl eq_refl)), IH; [reflexivity|].
  intros y Hy. apply Hf. now right.
Qed.

Lemma Rsum_constant (rs : list R) (r : R) :
  (forall x, In x rs -> x = r) -> Rsum rs = INR (List.length rs) * r.
Proof.
  induction rs as [|y rs IH]; intros Hc.
  - simpl. lra.
  - change (Rsum (y :: rs)) with (y + Rsum rs).
    rewrite IH by (intros x Hx; apply Hc; now right).
    rewrite (Hc y (or_introl eq_refl)).
    change (List.length (r :: rs)) with (S (List.length rs)).
    rewrite S_INR. lra.
Qed.

Lemma Rmean_constant (rs : list R) (r : R) :
  rs <> [] -> (forall x, In x rs -> x = r) -> Rmean rs = r.
Proof.
  intros Hne Hc. unfold Rmean. rewrite (Rsum_constant rs Hc).
  pose proof (length_pos_INR Hne). field. lra.
Qed.

(** A constant series has no value above mean + w * stdDev. *)
Lemma constant_not_above (values : list xreal) (c : xreal) (w : R) :
  (forall v, In v values -> v = c) -> In c values -> 0 <= w ->
  xltb (xadd (mean (calculateStatistics values))
             (xmul (Fin w) (stdDev (calculateStatistics values)))) c = false.
Proof.
  intros Hc Hin Hw.
  destruct (xltb _ c) eqn:Habove; [exfalso|reflexivity].
  apply above_threshold in Habove; try assumption.
  destruct Habove as [rs [r [Hvals [Hne [Hr [-> Hlt]]]]]].
  assert (Hmean : Rmean rs = r).
  { apply Rmean_constant; [assumption|]. intros x Hx.
    assert (Hfx : In (Fin x) values) by (rewrite Hvals; now apply in_map).
    apply Hc in Hfx. now injection Hfx. }
  pose proof (sqrt_pos (Rvariance rs)). rewrite Hmean in Hlt. nra.
Qed.

Lemma lit_15_10 : @lit xreal _ (15 # 10) = Fin (3 / 2).
Proof. simpl. f_equal. unfold Q2R. simpl. lra. Qed.

(** In exact arithmetic, on a series whose daily totals all equal [c],
    whatever the period, [detectAnomalies] reports no anomaly and no warning,
    and a health score of exactly 100. *)
Theorem constant_series_healthy (dailyCosts : list (DailyCost xreal)) (period : Z)
  (c : xreal) :
  (forall d, In d dailyCosts -> total d = c) ->
  let report := detectAnomalies dailyCosts period in
  anomalies report = [] /\ warnings report = []
  /\ totalAnomalies report = 0%nat /\ totalWarnings report = 0%nat
  /\ healthScore report = of_Z 100.
Proof.
  intros Hconst.
  set (recent := slice_from dailyCosts (- period)).
  assert (Hrecent : forall d, In d recent -> total d = c).
  { intros d Hd. apply Hconst. exact (slice_In _ _ _ _ Hd). }
  assert (Hvalues : forall v, In v (map (@total xreal) recent) -> v = c).
  { intros v Hv. apply in_map_iff in Hv. destruct Hv as [d [<- Hd]]. auto. }
  assert (Hquiet : forall d w, In d recent -> 0 <= w ->
            xltb (xadd (mean (calculateStatistics (map (@total xreal) recent)))
                    (xmul (Fin w) (stdDev (calculateStatistics (map (@total xreal) recent)))))
                 (total d) = false).
  { intros d w Hd Hw. rewrite (Hrecent d Hd).
    apply constant_not_above; try assumption.
    rewrite <- (Hrecent d Hd). now apply in_map. }
  assert (Ha : anomalies (detectAnomalies dailyCosts period) = []).
  { unfold detectAnomalies. cbn [anomalies]. fold recent.
    apply flat_map_nil. intros d Hd.
    change (@of_Z xreal _ 2) with (Fin 2). xreal_ops.
    rewrite (Hquiet d 2 Hd) by lra. reflexivity. }
  assert (Hw : warnings (detectAnomalies dailyCosts period) = []).
  { unfold detectAnomalies. cbn [warnings]. fold recent.
    apply flat_map_nil. intros d Hd. rewrite lit_15_10.
    change (@of_Z xreal _ 2) with (Fin 2). xreal_ops.
    rewrite (Hquiet d 2 Hd) by lra. rewrite (Hquiet d (3/2) Hd) by lra. reflexivity. }
  cbv zeta. repeat split; try assumption.
  - unfold detectAnomalies in *. cbn [anomalies totalAnomalies] in *. now rewrite Ha.
  - unfold detectAnomalies in *. cbn [warnings totalWarnings] in *. now rewrite Hw.
  - unfold detectAnomalies in *. cbn [anomalies warnings healthScore] in *.
    rewrite Ha, Hw. unfold calculateHealthScore. simpl.
    replace (Rltb 0 (100 + - (0 * 15) + - (0 * 5))) with true
      by (symmetry; apply Rltb_true; lra).
    f_equal. lra.
Qed.

Lemma Rvariance_pos (rs : list R) (r : R) :
  In r rs -> r <> Rmean rs -> 0 < Rvariance rs.
Proof.
  intros Hr Hne.
  assert (Hnil : rs <> []) by (destruct rs; [easy|discriminate]).
  pose proof (length_pos_INR Hnil).
  unfold Rvariance. apply Rmult_lt_0_compat; [|now apply Rinv_0_lt_compat].
  apply (Rsum_squares_pos (fun x => x - Rmean rs) _ _ Hr). lra.
Qed.

(** The z-score of a value above mean + w * stdDev is finite. *)
Lemma zScore_finite_above (values : list xreal) (t : xreal) (w : R) :
  In t values -> 0 <= w ->
  xltb (xadd (mean (calculateStatistics values))
             (xmul (Fin w) (stdDev (calculateStatistics values)))) t = true ->
  xis_finite
    (xtoFixed2 (xdiv (xsub t (mean (calculateStatistics values)))
                     (stdDev (calculateStatistics values)))) = true.
Proof.
  intros Hin Hw Habove.
  destruct (above_threshold values t Hin Hw Habove)
    as [rs [r [Hvals [Hne [Hr [-> Hlt]]]]]].
  destruct (stats_finite Hne) as [Hm Hs]. rewrite Hvals, Hm, Hs.
  pose proof (sqrt_pos (Rvariance rs)) as Hsq.
  assert (Hpos : 0 < R_sqrt.sqrt (Rvariance rs)).
  { apply sqrt_lt_R0. apply (Rvariance_pos Hr). nra. }
  simpl. replace (Reqb (R_sqrt.sqrt (Rvariance rs)) 0) with false; [reflexivity|].
  symmetry. apply Reqb_false. lra.
Qed.

(** With a standard deviation of 0, no value is above mean + w * stdDev. *)
Lemma zero_deviation_not_above (values : list xreal) (t : xreal) (w : R) :
  In t values -> 0 <= w ->
  stdDev (calculateStatistics values) = Fin 0 ->
  xltb (xadd (mean (calculateStatistics values))
             (xmul (Fin w) (stdDev (calculateStatistics values)))) t = false.
Proof.
  intros Hin Hw Hzero.
  destruct (xltb _ t) eqn:Habove; [exfalso|reflexivity].
  destruct (above_threshold values t Hin Hw Habove)
    as [rs [r [Hvals [Hne [Hr [-> Hlt]]]]]].
  destruct (stats_finite Hne) as [_ Hs].
  rewrite Hvals, Hs in Hzero. injection Hzero as Hzero.
  rewrite Hzero in Hlt.
  assert (Hpos : 0 < R_sqrt.sqrt (Rvariance rs)).
  { apply sqrt_lt_R0. apply (Rvariance_pos Hr). lra. }
  lra.
Qed.

(** In exact arithmetic, every anomaly and every warning that
    [detectAnomalies] emits carries a finite [zScore], although the division
    by the standard deviation is not guarded: a record is emitted only for a
    total strictly above the mean, and then the standard deviation is not
    zero. With a standard deviation of 0 no record is emitted at all. *)
Theorem emitted_zScore_finite (dailyCosts : list (DailyCost xreal)) (period : Z) :
  let report := detectAnomalies dailyCosts period in
  let stats := calculateStatistics (map (@total xreal) (slice_from dailyCosts (- period))) in
  Forall (fun a => is_finite (zScore a) = true) (anomalies report ++ warnings report)
  /\ (stdDev stats = of_Z 0 -> anomalies report = [] /\ warnings report = []).
Proof.
  cbv zeta. unfold detectAnomalies. cbn [anomalies warnings].
  set (recent := slice_from dailyCosts (- period)).
  set (stats := calculateStatistics (map (@total xreal) recent)).
  rewrite lit_15_10. change (@of_Z xreal _ 2) with (Fin 2).
  change (@of_Z xreal _ 0) with (Fin 0). split.
  - apply Forall_app. split; apply Forall_forall; intros a Ha;
      apply in_flat_map in Ha; destruct Ha as [day [Hday Ha]].
    + destruct (ltb _ (total day)) eqn:Habove; [|easy].
      destruct Ha as [<-|[]]. cbn [zScore anomaly_record].
      apply (zScore_finite_above (map (@total xreal) recent) (total day) (w := 2));
        [now apply in_map|lra|exact Habove].
    + destruct (ltb _ (total day)) eqn:Herror; [easy|].
      destruct (ltb _ (total day)) eqn:Habove in Ha; [|easy].
      destruct Ha as [<-|[]]. cbn [zScore anomaly_record].
      apply (zScore_finite_above (map (@total xreal) recent) (total day) (w := 3 / 2));
        [now apply in_map|lra|exact Habove].
  - intros Hzero. subst stats.
    assert (Hquiet : forall day w, In day recent -> 0 <= w ->
              ltb (add (mean (calculateStatistics (map (@total xreal) recent)))
                       (mul (Fin w) (stdDev (calculateStatistics (map (@total xreal) recent)))))
                  (total day) = false).
    { intros day w Hday Hw.
      apply (@zero_deviation_not_above (map (@total xreal) recent) (total day) w);
        [now apply in_map|exact Hw|exact Hzero]. }
    split; apply flat_map_nil; intros day Hday.
    + now rewrite (Hquiet day 2 Hday) by lra.
    + rewrite (Hquiet day 2 Hday) by lra. now rewrite (Hquiet day (3 / 2) Hday) by lra.
Qed.

Lemma Rleb_true a b : Rleb a b = true <-> a <= b.
Proof. unfold Rleb. destruct (Rle_dec a b); split; intros; easy. Qed.

Lemma round2_nonneg_monotone (x y : R) : 0 <= x -> x <= y -> round2 x <= round2 y.
Proof.
  intros Hx Hxy. unfold round2.
  replace (Rltb x 0) with false by (symmetry; apply Rltb_false; lra).
  replace (Rltb y 0) with false by (symmetry; apply Rltb_false; lra).
  assert (Hz : (Zfloor (x * 100 + / 2) <= Zfloor (y * 100 + / 2))%Z)
    by (apply Zfloor_le; lra).
  apply IZR_le in Hz. lra.
Qed.

(** A whole number of cents is its own rounding to two decimals. *)
Lemma round2_cents (k : Z) : round2 (IZR k / 100) = IZR k / 100.
Proof.
  unfold round2. destruct (Rltb (IZR k / 100) 0) eqn:Hneg.
  - replace (- (IZR k / 100) * 100 + / 2) with (IZR (- k) + / 2)
      by (rewrite opp_IZR; field).
    rewrite (Zfloor_eq (- k)) by lra. rewrite opp_IZR. field.
  - replace (IZR k / 100 * 100 + / 2) with (IZR k + / 2) by field.
    now rewrite (Zfloor_eq k) by lra.
Qed.

(** The confidence of the point [i] days ahead, as a real. *)
Definition confidence_at (i : Z) : R := round2 (Rmax (7 / 10) (1 - IZR i * (5 / 100))).

Lemma confidence_at_antitone (i j : Z) : (i <= j)%Z -> confidence_at j <= confidence_at i.
Proof.
  intros Hij. unfold confidence_at. apply IZR_le in Hij.
  apply round2_nonneg_monotone.
  - pose proof (Rmax_l (7 / 10) (1 - IZR j * (5 / 100))). lra.
  - apply Rle_max_compat_l. lra.
Qed.

Lemma xmax_Fin (a b : R) : xmax (Fin a) (Fin b) = Fin (Rmax a b).
Proof.
  unfold xmax, xltb, Rltb, Rmax.
  destruct (Rlt_dec a b), (Rle_dec a b); try reflexivity;
    try (f_equal; lra); exfalso; lra.
Qed.

Lemma xmul_Fin (a b : R) : xmul (Fin a) (Fin b) = Fin (a * b).
Proof. reflexivity. Qed.

Lemma xsub_Fin (a b : R) : xsub (Fin a) (Fin b) = Fin (a - b).
Proof. reflexivity. Qed.

Lemma xadd_Fin (a b : R) : xadd (Fin a) (Fin b) = Fin (a + b).
Proof. reflexivity. Qed.

Lemma nth_error_range (from to : Z) (k : nat) (i : Z) :
  nth_error (range from to) k = Some i -> i = (from + Z.of_nat k)%Z.
Proof.
  unfold range. rewrite nth_error_map.
  destruct (nth_error (seq 0 _) k) as [m|] eqn:Hm; [|discriminate].
  assert (Hk : (k < List.length (seq 0 (Z.to_nat (to - from))))%nat)
    by (apply nth_error_Some; rewrite Hm; discriminate).
  rewrite length_seq in Hk.
  rewrite nth_error_nth' with (d := 0%nat) in Hm by now rewrite length_seq.
  rewrite seq_nth in Hm by assumption. injection Hm as <-.
  intros [= <-]. reflexivity.
Qed.

Lemma range_length (from to : Z) : List.length (range from to) = Z.to_nat (to - from).
Proof. unfold range. now rewrite length_map, length_seq. Qed.

Lemma nth_error_map_range {B : Type} (g : Z -> B) (from to : Z) (k : nat) (p : B) :
  nth_error (map g (range from to)) k = Some p -> p = g (from + Z.of_nat k)%Z.
Proof.
  rewrite nth_error_map.
  destruct (nth_error (range from to) k) as [i|] eqn:Hi; [|discriminate].
  apply nth_error_range in Hi. subst i. simpl. intros Hp. now injection Hp.
Qed.

Lemma service_confidence (dailyTrend : list (DailyCost xreal)) (now days period : Z)
  (k : nat) (p : CostAnalyticsService.ForecastPoint xreal) :
  nth_error (CostAnalyticsService.forecast
               (CostAnalyticsService.forecastCosts dailyTrend now days period)) k = Some p ->
  CostAnalyticsService.confidence p = Fin (confidence_at (1 + Z.of_nat k)).
Proof.
  unfold CostAnalyticsService.forecastCosts. cbn [CostAnalyticsService.forecast].
  intros Hp. apply nth_error_map_range in Hp. subst p.
  cbn [CostAnalyticsService.confidence]. xreal_ops.
  rewrite xmul_Fin, xsub_Fin, xmax_Fin. unfold xtoFixed2, confidence_at.
  replace (Q2R (7 # 10)) with (7 / 10) by (unfold Q2R; simpl; lra).
  replace (Q2R (5 # 100)) with (5 / 100) by (unfold Q2R; simpl; lra).
  reflexivity.
Qed.

Lemma nth_error_lt {B : Type} (l : list B) (k : nat) (x : B) :
  nth_error l k = Some x -> (k < List.length l)%nat.
Proof. intros Hk. apply nth_error_Some. rewrite Hk. discriminate. Qed.

(** C7, as the code has it. The regression forecast of
    [CostAnalyticsService.forecastCosts] has one point per future day, each
    carrying a [confidence], and the confidence never increases along the
    horizon. The windowed forecast of [AnalyticsEngine.forecastCosts], on a
    history of at least 14 points, has one point per future day too, but its
    points carry no [confidence]: the result has a single label for the whole
    series. *)
Theorem forecast_confidence (dailyTrend : list (DailyCost xreal)) (now days period : Z)
  (today : Z) (history : list (AnalyticsEngine.CostPoint xreal)) :
  (14 <= List.length history)%nat ->
  let regression :=
    CostAnalyticsService.forecast
      (CostAnalyticsService.forecastCosts dailyTrend now days period) in
  let windowed :=
    AnalyticsEngine.forecast (AnalyticsEngine.forecastCosts today (Some history) days) in
  (List.length regression = Z.to_nat days
   /\ (forall p, In p regression ->
         get_field "confidence" (service_point_fields p)
         = Some (VNum (CostAnalyticsService.confidence p)))
   /\ (forall i j pi pj, (i < j)%nat ->
         nth_error regression i = Some pi -> nth_error regression j = Some pj ->
         (CostAnalyticsService.confidence pi >=? CostAnalyticsService.confidence pj)%js = true))
  /\ (List.length windowed = Z.to_nat days
      /\ (forall p, In p windowed ->
            get_field "confidence" (engine_point_fields p) = None)
      /\ AnalyticsEngine.confidence
           (AnalyticsEngine.forecastCosts today (Some history) days)
         = if (30 <=? Z.of_nat (List.length history))%Z
           then "high"%string else "medium"%string).
Proof.
  intros Hlen regression windowed. split; [split; [|split]|split; [|split]].
  - unfold regression, CostAnalyticsService.forecastCosts.
    cbn [CostAnalyticsService.forecast].
    rewrite length_map, range_length. f_equal. lia.
  - reflexivity.
  - intros i j pi pj Hij Hi Hj.
    unfold regression in Hi, Hj.
    rewrite (@service_confidence _ _ _ _ _ _ Hi), (@service_confidence _ _ _ _ _ _ Hj).
    apply Rleb_true. apply confidence_at_antitone. lia.
  - unfold windowed, AnalyticsEngine.forecastCosts.
    destruct (Z.ltb_spec (Z.of_nat (List.length history)) 14); [lia|].
    cbn [AnalyticsEngine.forecast]. rewrite length_map, range_length. f_equal. lia.
  - reflexivity.
  - unfold AnalyticsEngine.forecastCosts.
    destruct (Z.ltb_spec (Z.of_nat (List.length history)) 14); [lia|].
    reflexivity.
Qed.


(** *** Trend of an arithmetic series *)

Import AnalyticsEngine.

(** The series [a, a + d, a + 2d, ...] of [n] days. *)
Definition arithmetic_series (a d : R) (n : nat) : list (CostPoint xreal) :=
  map (fun k => {| cp_date := ""; cp_cost := Fin (a + INR k * d) |}) (seq 0 n).

Lemma xdiv_Fin (a b : R) : b <> 0 -> xdiv (Fin a) (Fin b) = Fin (a / b).
Proof. intros Hb. unfold xdiv. now replace (Reqb b 0) with false by (symmetry; now apply Reqb_false). Qed.

Ltac fin_ops :=
  repeat first [ rewrite xadd_Fin | rewrite xmul_Fin | rewrite xsub_Fin
               | rewrite xdiv_Fin by lra ].

Lemma Rsum_app (l1 l2 : list R) : Rsum (l1 ++ l2) = Rsum l1 + Rsum l2.
Proof. induction l1 as [|x l1 IH]; simpl; [lra|]. rewrite IH. lra. Qed.

Lemma sum_of_terms (a d : R) (n : nat) :
  Rsum (map (fun k => a + INR k * d) (seq 0 n)) = INR n * a + d * INR n * (INR n - 1) / 2.
Proof.
  induction n as [|n IH].
  - simpl. lra.
  - rewrite seq_S, map_app, Rsum_app, IH. simpl map. simpl Rsum.
    rewrite S_INR. lra.
Qed.

Lemma sum_of_weighted_terms (a d : R) (n : nat) :
  Rsum (map (fun k => IZR (Z.of_nat k + 1) * (a + INR k * d)) (seq 0 n))
  = a * INR n * (INR n + 1) / 2 + d * (INR n - 1) * INR n * (INR n + 1) / 3.
Proof.
  induction n as [|n IH].
  - simpl. lra.
  - rewrite seq_S, map_app, Rsum_app, IH. simpl map. simpl Rsum.
    rewrite plus_IZR, <- INR_IZR_INZ, S_INR. simpl. lra.
Qed.

Lemma sum_index_times_finite (g : nat -> R) (l : list nat) (acc : R) :
  fold_left (fun sum '(i, cost) => xadd sum (xmul (Fin (IZR (i + 1))) cost))
            (map (fun k => (Z.of_nat k, Fin (g k))) l) (Fin acc)
  = Fin (acc + Rsum (map (fun k => IZR (Z.of_nat k + 1) * g k) l)).
Proof.
  revert acc. induction l as [|k l IH]; intros acc; simpl.
  - f_equal. lra.
  - rewrite IH. f_equal. lra.
Qed.

Lemma combine_map_map {A B C : Type} (f : A -> B) (g : A -> C) (l : list A) :
  combine (map f l) (map g l) = map (fun x => (f x, g x)) l.
Proof. induction l as [|x l IH]; simpl; [reflexivity|]. now rewrite IH. Qed.

Lemma slope_of_arithmetic_series (a d : R) (n : nat) :
  (2 <= n)%nat ->
  let costs := map (@cp_cost xreal) (arithmetic_series a d n) in
  let len := @of_Z xreal _ (Z.of_nat (List.length costs)) in
  let m := a + d * (INR n - 1) / 2 in
  div (sum_by (fun c => c) costs) len = Fin m
  /\ (let sumX := (len * (len + of_Z 1) / of_Z 2)%js in
      let sumY := sum_by (fun c => c) costs in
      let sumXY := sum_index_times costs in
      let sumX2 := (len * (len + of_Z 1) * (of_Z 2 * len + of_Z 1) / of_Z 6)%js in
      ((len * sumXY - sumX * sumY) / (len * sumX2 - sumX * sumX))%js = Fin d).
Proof.
  intros Hn costs len m.
  assert (Hcosts : costs = map (fun k => Fin (a + INR k * d)) (seq 0 n)).
  { unfold costs, arithmetic_series. now rewrite map_map. }
  assert (Hlen : len = Fin (INR n)).
  { unfold len. rewrite Hcosts, length_map, length_seq. simpl. now rewrite <- INR_IZR_INZ. }
  assert (HN : 2 <= INR n) by (apply le_INR in Hn; simpl in Hn; lra).
  assert (HsumY : sum_by (fun c => c) costs
                  = Fin (INR n * a + d * INR n * (INR n - 1) / 2)).
  { unfold sum_by. xreal_ops. rewrite Hcosts.
    rewrite (@sum_from_finite _ (fun v => v) real_of).
    - rewrite map_map. simpl. rewrite sum_of_terms. f_equal. lra.
    - intros x Hx. apply in_map_iff in Hx. destruct Hx as [k [<- _]]. reflexivity. }
  assert (HsumXY : sum_index_times costs
                   = Fin (a * INR n * (INR n + 1) / 2
                          + d * (INR n - 1) * INR n * (INR n + 1) / 3)).
  { unfold sum_index_times, indexed. xreal_ops.
    rewrite Hcosts, length_map, length_seq, combine_map_map.
    rewrite (sum_index_times_finite (fun k => a + INR k * d)).
    rewrite sum_of_weighted_terms. f_equal. lra. }
  split.
  - rewrite HsumY, Hlen. xreal_ops. rewrite xdiv_Fin by lra. f_equal. unfold m. field. lra.
  - cbv zeta. rewrite HsumY, HsumXY, Hlen. xreal_ops.
    fin_ops. set (x := INR n) in *.
    assert (Hpos : 0 < x * x * (x + 1) * (x - 1))
      by (repeat apply Rmult_lt_0_compat; lra).
    assert (Hden : x * (x * (x + 1) * (2 * x + 1) / 6) - x * (x + 1) / 2 * (x * (x + 1) / 2)
                   = x * x * (x + 1) * (x - 1) / 12) by field.
    assert (Hnum : x * (a * x * (x + 1) / 2 + d * (x - 1) * x * (x + 1) / 3)
                   - x * (x + 1) / 2 * (x * a + d * x * (x - 1) / 2)
                   = d * (x * x * (x + 1) * (x - 1) / 12)) by field.
    rewrite Hden, Hnum. rewrite xdiv_Fin by lra. f_equal. field. lra.
Qed.

Lemma arithmetic_series_length a d n : List.length (arithmetic_series a d n) = n.
Proof. unfold arithmetic_series. now rewrite length_map, length_seq. Qed.

(** The classification of an arithmetic series, as a formula in its first
    term, step and length. *)
Lemma arithmetic_trend_formula (a d : R) (n : nat) :
  (7 <= n)%nat ->
  let m := a + d * (INR n - 1) / 2 in
  trend (analyzeCostTrends (Some (arithmetic_series a d n))) =
    if Rltb d (- m * (1 / 100)) then "decreasing"%string
    else if Rltb (m * (1 / 100)) d then "increasing"%string
    else "stable"%string.
Proof.
  intros Hn m.
  assert (H2 : (2 <= n)%nat) by lia.
  destruct (slope_of_arithmetic_series a d H2) as [Havg Hslope].
  cbv zeta in Havg, Hslope.
  unfold analyzeCostTrends. rewrite arithmetic_series_length.
  destruct (Z.ltb_spec (Z.of_nat n) 7); [lia|].
  cbn [trend]. rewrite Hslope, Havg. fold m.
  replace (@lit xreal _ (1 # 100)) with (Fin (1 / 100))
    by (simpl; f_equal; unfold Q2R; simpl; lra).
  xreal_ops. cbn [xopp]. rewrite !xmul_Fin. cbn [xltb].
  destruct (Rltb d (- m * (1 / 100))), (Rltb (m * (1 / 100)) d); reflexivity.
Qed.

(** In exact arithmetic, on an arithmetic series of at least 7 points,
    with first term [a], step [d] and mean [m], [analyzeCostTrends] compares
    the least-squares slope, which is [d], with 1% of [m]: it answers
    "decreasing" when d < -m/100, else "increasing" when d > m/100, else
    "stable". For a non-negative mean the answer is "increasing" exactly when
    d > m/100, "decreasing" exactly when d < -m/100, and "stable" exactly in
    between; a constant series of non-negative cost is stable. *)
Theorem trend_of_arithmetic_series (a d : R) (n : nat) :
  (7 <= n)%nat ->
  let m := a + d * (INR n - 1) / 2 in
  let answer := trend (analyzeCostTrends (Some (arithmetic_series a d n))) in
  answer = (if Rltb d (- m * (1 / 100)) then "decreasing"%string
            else if Rltb (m * (1 / 100)) d then "increasing"%string
            else "stable"%string)
  /\ (0 <= m ->
      (answer = "increasing"%string <-> m / 100 < d)
      /\ (answer = "decreasing"%string <-> d < - m / 100)
      /\ (answer = "stable"%string <-> - m / 100 <= d <= m / 100)).
Proof.
  intros Hn m answer.
  pose proof (arithmetic_trend_formula a d Hn) as Hformula.
  cbv zeta in Hformula. fold m answer in Hformula.
  split; [exact Hformula|]. intros Hm. rewrite Hformula.
  destruct (Rltb d (- m * (1 / 100))) eqn:Hdown;
    [apply Rltb_true in Hdown|apply Rltb_false in Hdown];
    (destruct (Rltb (m * (1 / 100)) d) eqn:Hup;
     [apply Rltb_true in Hup|apply Rltb_false in Hup]);
    repeat split; intros; try discriminate; try reflexivity; lra.
Qed.

(** *** Health score *)

(** The health score in exact arithmetic: 100 less 15 per anomaly and 5
    per warning, and never below 0. *)
Theorem calculateHealthScore_formula (anomalyCount warningCount : nat) (period : Z) :
  calculateHealthScore anomalyCount warningCount period
  = Fin (Rmax 0 (100 - 15 * INR anomalyCount - 5 * INR warningCount)).
Proof.
  unfold calculateHealthScore. simpl.
  rewrite <- !INR_IZR_INZ. unfold Rmax, Rltb.
  destruct (Rlt_dec _ _), (Rle_dec _ _); try (f_equal; lra); exfalso; lra.
Qed.

(** *** Ratios over a zero average (C1, C2) *)

(** Over a zero trailing average, a spike is pushed exactly when the day's
    cost is positive, and its [increasePercent] is then infinite. *)
Lemma spike_round_over_zero_average (dailyCosts : list (DailyCost xreal))
  (lookbackDays i : Z) (day : DailyCost xreal) (c : R) :
  div (sum_by (@total xreal) (slice dailyCosts (i - lookbackDays) i)) (of_Z lookbackDays)
    = Fin 0 ->
  at_index dailyCosts i = Some day ->
  total day = Fin c ->
  map (fun s => (increasePercent s, sp_severity s))
      (match spike_round dailyCosts lookbackDays i with Some l => l | None => [] end)
  = if Rltb 0 c then [ (PInf, "critical"%string) ] else [].
Proof.
  intros Havg Hday Hc. unfold spike_round. rewrite Havg, Hday, Hc. xreal_ops.
  unfold xsub, xopp, xadd, xdiv.
  replace (Reqb 0 0) with true by (symmetry; now apply Reqb_true).
  destruct (Reqb (c + - 0) 0) eqn:Hz.
  - apply Reqb_true in Hz.
    replace (Rltb 0 c) with false by (symmetry; apply Rltb_false; lra). reflexivity.
  - apply Reqb_false in Hz. destruct (Rltb 0 (c + - 0)) eqn:Hpos.
    + apply Rltb_true in Hpos.
      replace (Rltb 0 c) with true by (symmetry; apply Rltb_true; lra).
      unfold xmul, inf_times.
      replace (Reqb 100 0) with false by (symmetry; apply Reqb_false; lra).
      replace (Rltb 0 100) with true by (symmetry; apply Rltb_true; lra).
      reflexivity.
    + apply Rltb_false in Hpos.
      replace (Rltb 0 c) with false by (symmetry; apply Rltb_false; lra).
      unfold xmul, inf_times.
      replace (Reqb 100 0) with false by (symmetry; apply Reqb_false; lra).
      replace (Rltb 0 100) with true by (symmetry; apply Rltb_true; lra).
      reflexivity.
Qed.

(** Over a zero window average, the [deviationPercent] of the record is
    never a finite number. *)
Lemma deviation_over_zero_average (dailyCosts : list (DailyCost xreal))
  (windowSize : Z) (i : nat) (day : DailyCost xreal) (r : MovingAverage xreal) :
  nth_error dailyCosts i = Some day ->
  (let window := slice dailyCosts (Z.max 0 (Z.of_nat i - windowSize + 1)) (Z.of_nat i + 1) in
   div (sum_by (@total xreal) window) (of_Z (Z.of_nat (List.length window))) = Fin 0) ->
  nth_error (calculateMovingAverage dailyCosts windowSize) i = Some r ->
  movingAverage r = Fin 0 /\ is_finite (ma_deviationPercent r) = false.
Proof.
  intros Hday Havg Hr. cbv zeta in Havg.
  unfold calculateMovingAverage in Hr.
  rewrite nth_error_map, nth_error_indexed, Hday in Hr.
  apply (f_equal (fun o => match o with Some x => x | None => r end)) in Hr.
  cbv beta iota delta [option_map] in Hr. subst r.
  cbn [movingAverage ma_deviationPercent]. rewrite Havg. split.
  - xreal_ops. cbn [xtoFixed2]. f_equal.
    transitivity (IZR 0 / 100); [|lra].
    replace 0 with (IZR 0 / 100) at 1 by lra. apply round2_cents.
  - xreal_ops.
    assert (H100 : Reqb 100 0 = false) by (apply Reqb_false; lra).
    assert (Hpos : Rltb 0 100 = true) by (apply Rltb_true; lra).
    assert (H00 : Rltb 0 0 = false) by (apply Rltb_false; lra).
    assert (Hz : Reqb 0 0 = true) by now apply Reqb_true.
    destruct (total day) as [c| | |]; unfold xsub, xopp, xadd, xdiv;
      rewrite ?Hz, ?H00; try reflexivity.
    + destruct (Reqb (c + - 0) 0); [reflexivity|].
      destruct (Rltb 0 (c + - 0)); unfold xmul, inf_times; rewrite H100, Hpos;
        reflexivity.
    + unfold xmul, inf_times. rewrite H100, Hpos. reflexivity.
    + unfold xmul, inf_times. rewrite H100, Hpos. reflexivity.
Qed.

(** *** Corollaries for the shapes the specification names *)

(** A constant series of non-negative cost is stable. *)
Corollary constant_series_is_stable (a : R) (n : nat) :
  (7 <= n)%nat -> 0 <= a ->
  trend (analyzeCostTrends (Some (arithmetic_series a 0 n))) = "stable"%string.
Proof.
  intros Hn Ha. rewrite (arithmetic_trend_formula a 0 Hn). cbv zeta.
  replace (Rltb 0 (- (a + 0 * (INR n - 1) / 2) * (1 / 100))) with false
    by (symmetry; apply Rltb_false; lra).
  replace (Rltb ((a + 0 * (INR n - 1) / 2) * (1 / 100)) 0) with false
    by (symmetry; apply Rltb_false; lra).
  reflexivity.
Qed.

(** A rising series whose step exceeds 1% of its mean is increasing; a
    falling series of non-negative mean whose step is below minus 1% of its
    mean is decreasing. *)
Corollary steep_series_is_classified (a d : R) (n : nat) :
  (7 <= n)%nat ->
  let m := a + d * (INR n - 1) / 2 in
  0 <= m ->
  (m / 100 < d ->
   trend (analyzeCostTrends (Some (arithmetic_series a d n))) = "increasing"%string)
  /\ (d < - m / 100 ->
      trend (analyzeCostTrends (Some (arithmetic_series a d n))) = "decreasing"%string).
Proof.
  intros Hn m Hm. rewrite (arithmetic_trend_formula a d Hn). cbv zeta. fold m.
  split; intros Hd.
  - replace (Rltb d (- m * (1 / 100))) with false by (symmetry; apply Rltb_false; lra).
    now replace (Rltb (m * (1 / 100)) d) with true by (symmetry; apply Rltb_true; lra).
  - now replace (Rltb d (- m * (1 / 100))) with true by (symmetry; apply Rltb_true; lra).
Qed.

End ExactArithmetic.

(** ** Instances of the theorems above, and runs that refute the claims *)

Module Instances.
Import Exact.

(** Three days at 150, in exact arithmetic. *)
Definition three_equal_days : list (AnomalyDetectionService.DailyCost xreal) :=
  map (fun id =>
         {| AnomalyDetectionService.dc_id := id;
            AnomalyDetectionService.dc_date := id;
            AnomalyDetectionService.total := Fin 150;
            AnomalyDetectionService.aws := Fin 0;
            AnomalyDetectionService.azure := Fin 0;
            AnomalyDetectionService.gcp := Fin 0 |})
      [ "1"; "2"; "3" ]%string.

(** Fourteen days at 100, in exact arithmetic. *)
Definition two_weeks : list (AnalyticsEngine.CostPoint xreal) :=
  map (fun id => {| AnalyticsEngine.cp_date := id; AnalyticsEngine.cp_cost := Fin 100 |})
      [ "1"; "2"; "3"; "4"; "5"; "6"; "7"; "8"; "9"; "10"; "11"; "12"; "13"; "14" ]%string.

(** A day with only its identifier and total set, in exact arithmetic. *)
Definition xday (id : string) (t : R) : AnomalyDetectionService.DailyCost xreal :=
  {| AnomalyDetectionService.dc_id := id;
     AnomalyDetectionService.dc_date := id;
     AnomalyDetectionService.total := Fin t;
     AnomalyDetectionService.aws := Fin 0;
     AnomalyDetectionService.azure := Fin 0;
     AnomalyDetectionService.gcp := Fin 0 |}.

(** Four days without spend and a day at 10: mean 2, standard deviation 4. *)
Definition quiet_then_ten : list (AnomalyDetectionService.DailyCost xreal) :=
  [ xday "1" 0; xday "2" 0; xday "3" 0; xday "4" 0; xday "5" 10 ].

(** The costs 1000, 1001, ..., 1006 in binary64. *)
Definition slow_rise : list (AnalyticsEngine.CostPoint float) :=
  Scenario.history [1000; 1001; 1002; 1003; 1004; 1005; 1006]%float.

(** Fourteen days rising by 10 in binary64. *)
Definition two_weeks_rising : list (AnalyticsEngine.CostPoint float) :=
  Scenario.history [10; 20; 30; 40; 50; 60; 70; 80; 90; 100; 110; 120; 130; 140]%float.

(** [k] cents as a double. *)
Definition cent_amount (k : nat) : float :=
  PrimFloat.div (Binary64.of_Z (Z.of_nat k)) 100.

(** No anomaly and no warning on [n] days at the constant [c], in binary64. *)
Definition quiet_at (c : float) (n : nat) : bool :=
  let report :=
    AnomalyDetectionService.detectAnomalies
      (map (fun _ => Scenario.day "d" c) (seq 0 n)) 30 in
  Nat.eqb (AnomalyDetectionService.totalAnomalies report) 0
  && Nat.eqb (AnomalyDetectionService.totalWarnings report) 0.

(** The confidences of a list of points never increase. *)
Fixpoint never_increases (l : list float) : bool :=
  match l with
  | x :: (y :: _) as rest => PrimFloat.leb y x && never_increases rest
  | _ => true
  end.

End Instances.

Lemma constant_series_healthy_witness :
  let report := AnomalyDetectionService.detectAnomalies Instances.three_equal_days 30 in
  AnomalyDetectionService.anomalies report = []
  /\ AnomalyDetectionService.warnings report = []
  /\ AnomalyDetectionService.totalAnomalies report = 0%nat
  /\ AnomalyDetectionService.totalWarnings report = 0%nat
  /\ AnomalyDetectionService.healthScore report = of_Z 100.
Proof.
  apply (constant_series_healthy Instances.three_equal_days 30 (c := Exact.Fin 150)).
  intros d [<-|[<-|[<-|[]]]]; reflexivity.
Defined.

Lemma forecast_confidence_witness :
  let regression :=
    CostAnalyticsService.forecast
      (CostAnalyticsService.forecastCosts Instances.three_equal_days 0 3 30) in
  let windowed :=
    AnalyticsEngine.forecast
      (AnalyticsEngine.forecastCosts 0 (Some Instances.two_weeks) 3) in
  (List.length regression = 3%nat
   /\ (forall p, In p regression ->
         get_field "confidence" (service_point_fields p)
         = Some (VNum (CostAnalyticsService.confidence p)))
   /\ (forall i j pi pj, (i < j)%nat ->
         nth_error regression i = Some pi -> nth_error regression j = Some pj ->
         (CostAnalyticsService.confidence pi >=? CostAnalyticsService.confidence pj)%js = true))
  /\ (List.length windowed = 3%nat
      /\ (forall p, In p windowed ->
            get_field "confidence" (engine_point_fields p) = None)
      /\ AnalyticsEngine.confidence
           (AnalyticsEngine.forecastCosts 0 (Some Instances.two_weeks) 3)
         = "medium"%string).
Proof.
  apply (forecast_confidence Instances.three_equal_days 0 3 30 0 Instances.two_weeks).
  simpl. lia.
Defined.

Lemma trend_of_arithmetic_series_witness :
  AnalyticsEngine.trend
    (AnalyticsEngine.analyzeCostTrends (Some (arithmetic_series 1000 1 7)))
  = "stable"%string.
Proof.
  assert (Hlen : (7 <= 7)%nat) by lia.
  destruct (@trend_of_arithmetic_series 1000 1 7 Hlen) as [_ Hrule].
  assert (Hmean : (0 <= 1000 + 1 * (INR 7 - 1) / 2)%R) by (simpl; lra).
  apply (Hrule Hmean). simpl. lra.
Defined.

(** A run in exact arithmetic that does emit a record: with four days at 0
    and one at 10 the mean is 2 and the standard deviation 4, so the day at 10
    is not above the error threshold 10 but is above the warning threshold 8;
    its z-score is 2. *)
Lemma quiet_then_ten_statistics :
  let stats :=
    AnomalyDetectionService.calculateStatistics
      (map (@AnomalyDetectionService.total Exact.xreal) Instances.quiet_then_ten) in
  AnomalyDetectionService.mean stats = Exact.Fin 2
  /\ AnomalyDetectionService.stdDev stats = Exact.Fin 4.
Proof.
  assert (Hne : [0; 0; 0; 0; 10]%R <> @nil R) by discriminate.
  destruct (stats_finite Hne) as [Hm Hs].
  assert (HM : Rmean [0; 0; 0; 0; 10]%R = 2%R) by (unfold Rmean, Rsum; simpl; lra).
  assert (HV : Rvariance [0; 0; 0; 0; 10]%R = (4 * 4)%R).
  { unfold Rvariance. rewrite HM. unfold Rsum. simpl. lra. }
  cbv zeta.
  change (map (@AnomalyDetectionService.total Exact.xreal) Instances.quiet_then_ten)
    with (map Exact.Fin [0; 0; 0; 0; 10]%R).
  rewrite Hm, Hs, HM, HV. rewrite sqrt_square by lra. auto.
Qed.

Example warning_in_exact_arithmetic :
  let report := AnomalyDetectionService.detectAnomalies Instances.quiet_then_ten 30 in
  AnomalyDetectionService.anomalies report = []
  /\ map (fun a => (AnomalyDetectionService.an_id a, AnomalyDetectionService.zScore a))
         (AnomalyDetectionService.warnings report)
     = [ ("warning-5"%string, Exact.Fin 2) ].
Proof.
  destruct quiet_then_ten_statistics as [Hm Hs].
  cbv zeta. unfold AnomalyDetectionService.detectAnomalies.
  cbn [AnomalyDetectionService.anomalies AnomalyDetectionService.warnings].
  change (slice_from Instances.quiet_then_ten (- (30))) with Instances.quiet_then_ten.
  rewrite lit_15_10. change (@of_Z Exact.xreal _ 2) with (Exact.Fin 2).
  unfold AnomalyDetectionService.anomaly_record. rewrite Hm, Hs.
  unfold Instances.quiet_then_ten.
  cbn [flat_map AnomalyDetectionService.total Instances.xday app map
       AnomalyDetectionService.an_id AnomalyDetectionService.zScore
       AnomalyDetectionService.dc_id].
  cbv [ltb add sub mul div toFixed2 Exact.xreal_number Exact.xadd Exact.xmul
       Exact.xltb Exact.xsub Exact.xopp Exact.xdiv Exact.xtoFixed2].
  repeat match goal with
  | |- context [Exact.Rltb ?a ?b] =>
      first [ replace (Exact.Rltb a b) with true by (symmetry; apply Rltb_true; lra)
            | replace (Exact.Rltb a b) with false by (symmetry; apply Rltb_false; lra) ]
  | |- context [Exact.Reqb ?a ?b] =>
      replace (Exact.Reqb a b) with false by (symmetry; apply Reqb_false; lra)
  end.
  cbn [app map AnomalyDetectionService.an_id AnomalyDetectionService.zScore].
  split; [reflexivity|].
  do 3 f_equal.
  replace ((10 + - (2)) / 4)%R with (IZR 200 / 100)%R by lra.
  transitivity (IZR 200 / 100)%R; [apply round2_cents|lra].
Qed.


(** C7 fails on the windowed forecast: on fourteen days of history and a
    horizon of two days, neither forecast point has a [confidence]. *)
Lemma windowed_points_have_no_confidence :
  map (fun p => get_field "confidence" (engine_point_fields p))
      (AnalyticsEngine.forecast
         (AnalyticsEngine.forecastCosts 0 (Some Instances.two_weeks_rising) 2))
  = [ None; None ].
Proof. vm_compute. reflexivity. Qed.

(** ** The same facts in binary64 *)

(** The regression forecast in binary64: over a horizon of a year, every
    point carries a confidence and the confidences never increase. *)
Remark regression_confidence_year_binary64 :
  let points :=
    CostAnalyticsService.forecast
      (CostAnalyticsService.forecastCosts Scenario.eight_days 0 365 30) in
  List.length points = 365%nat
  /\ Instances.never_increases (map (@CostAnalyticsService.confidence float) points) = true
  /\ map (@CostAnalyticsService.confidence float) (firstn 7 points)
     = [ 0.95; 0.9; 0.85; 0.8; 0.75; 0.7; 0.7 ]%float.
Proof. vm_compute. repeat split; reflexivity. Qed.

(** Thirty days at 150, and three days at 0.7 (whose sum is rounded), are
    healthy in binary64 as well. *)
Remark constant_series_binary64 :
  let quiet report :=
    (AnomalyDetectionService.totalAnomalies report,
     AnomalyDetectionService.totalWarnings report,
     AnomalyDetectionService.healthScore report) in
  quiet (AnomalyDetectionService.detectAnomalies
           (map (fun k => Scenario.day "d" 150) (seq 0 30)) 30)
  = (0%nat, 0%nat, 100%float)
  /\ quiet (AnomalyDetectionService.detectAnomalies
              (map (fun k => Scenario.day "d" 0.7) (seq 0 3)) 30)
     = (0%nat, 0%nat, 100%float).
Proof. vm_compute. split; reflexivity. Qed.

(** Every constant from 0.01 to 2.00 in steps of a cent, over 1 to 31 days,
    is quiet in binary64, rounded sums and means included. *)
Remark constant_cent_series_binary64 :
  forallb (fun k => forallb (Instances.quiet_at (Instances.cent_amount k)) (seq 1 31))
          (seq 1 200)
  = true.
Proof. vm_compute. reflexivity. Qed.

(** Where binary64 leaves the exact model: a squared deviation below the
    smallest double is rounded to 0, so the computed standard deviation can be
    0 although the values differ from the computed mean. This needs totals
    below about 1e-146. *)

(** C6 at its failing input. Three days at the same total, 0.7 * 2^-600: the
    rounded mean lies below the days, the squared deviations underflow, the
    standard deviation is 0 and both thresholds are the mean. Each of the
    three days is reported as an anomaly and the health score is 55. *)
Theorem constant_series_flagged_binary64 :
  let x := (0.7 * 0x1p-600)%float in
  let stats := AnomalyDetectionService.calculateStatistics [ x; x; x ] in
  let report :=
    AnomalyDetectionService.detectAnomalies
      [ Scenario.day "1" x; Scenario.day "2" x; Scenario.day "3" x ] 30 in
  x = 1.6869439055720188e-181%float
  /\ PrimFloat.ltb (AnomalyDetectionService.mean stats) x = true
  /\ AnomalyDetectionService.stdDev stats = 0%float
  /\ map (@AnomalyDetectionService.an_date float) (AnomalyDetectionService.anomalies report)
     = [ "1"; "2"; "3" ]%string
  /\ AnomalyDetectionService.totalAnomalies report = 3%nat
  /\ AnomalyDetectionService.totalWarnings report = 0%nat
  /\ AnomalyDetectionService.healthScore report = 55%float.
Proof. vm_compute. repeat split; reflexivity. Qed.

(** C9 at its failing input. A day without spend and a day at 1e-200: the
    mean is 5e-201, the squared deviations underflow and the standard
    deviation is 0, so the second day is above the threshold and is reported
    as an anomaly; its z-score, a positive difference over 0, is infinite. *)
Theorem zScore_infinite_binary64 :
  let stats := AnomalyDetectionService.calculateStatistics [ 0; 1e-200 ]%float in
  let report :=
    AnomalyDetectionService.detectAnomalies
      [ Scenario.day "1" 0; Scenario.day "2" 1e-200 ] 30 in
  AnomalyDetectionService.mean stats = 5e-201%float
  /\ AnomalyDetectionService.stdDev stats = 0%float
  /\ map (fun a => (AnomalyDetectionService.an_date a, AnomalyDetectionService.zScore a,
                    is_finite (AnomalyDetectionService.zScore a)))
         (AnomalyDetectionService.anomalies report)
     = [ ("2"%string, infinity, false) ]
  /\ AnomalyDetectionService.warnings report = [].
Proof. vm_compute. repeat split; reflexivity. Qed.

(** Integer arithmetic series in binary64. *)

Module Integers.

(** The series [a], [a + d], ..., of [n] points. *)
Definition integer_series (a d : Z) (n : nat) : list (AnalyticsEngine.CostPoint float) :=
  map (fun k => {| AnalyticsEngine.cp_date := "d";
                   AnalyticsEngine.cp_cost := Binary64.of_Z (a + Z.of_nat k * d) |})
      (seq 0 n).

(** The rule of the trend on the step [d] and twice the mean, [2a + d(n-1)],
    in integers. *)
Definition rule_on_integers (a d : Z) (n : nat) : string :=
  let twice_mean := (2 * a + d * (Z.of_nat n - 1))%Z in
  if (200 * d <? - twice_mean)%Z then "decreasing"
  else if (twice_mean <? 200 * d)%Z then "increasing" else "stable".

(** The analysis finds the step as the slope and classifies by the rule. *)
Definition follows_rule (a d : Z) (n : nat) : bool :=
  let analysis := AnalyticsEngine.analyzeCostTrends (Some (integer_series a d n)) in
  String.eqb (AnalyticsEngine.trend analysis) (rule_on_integers a d n)
  && match AnalyticsEngine.trend_details analysis with
     | Some details => PrimFloat.eqb (AnalyticsEngine.slope details) (Binary64.of_Z d)
     | None => false
     end.

End Integers.

(** On the arithmetic series of 7 to 13 points with an integer first term
    from 0 to 120 and an integer step from -3 to 3, binary64 computes the
    step as the slope and classifies as the rule does on the exact figures,
    the series on the edge of the band (97, 98, ..., 103) and the constant
    ones included. *)
Remark integer_series_binary64 :
  forallb (fun a =>
             forallb (fun d =>
                        forallb (Integers.follows_rule (Z.of_nat a) (Z.of_nat d - 3))
                                (seq 7 7))
                     (seq 0 7))
          (seq 0 121)
  = true.
Proof. vm_compute. reflexivity. Qed.

(** A constant series of negative totals is not classified "stable": its
    slope 0 is below minus 1% of its mean. *)
Remark negative_constant_is_decreasing :
  AnalyticsEngine.trend
    (AnalyticsEngine.analyzeCostTrends (Some (Integers.integer_series (-1) 0 7)))
  = "decreasing"%string.
Proof. vm_compute. reflexivity. Qed.

(** * The services around the core *)

(** ** Lists *)

Lemma fold_left_through_map {A B C : Type} (g : C -> B -> C) (f : A -> B) (l : list A) (c : C) :
  fold_left g (map f l) c = fold_left (fun acc x => g acc (f x)) l c.
Proof. revert c. induction l as [|x l IH]; intros c; simpl; [reflexivity|apply IH]. Qed.

Lemma filter_through_map {A B : Type} (p : B -> bool) (f : A -> B) (l : list A) :
  filter p (map f l) = map f (filter (fun x => p (f x)) l).
Proof.
  induction l as [|x l IH]; simpl; [reflexivity|].
  destruct (p (f x)); simpl; now rewrite IH.
Qed.

Lemma flat_map_filter {A B : Type} (p : A -> bool) (f : A -> B) (l : list A) :
  flat_map (fun x => if p x then [f x] else []) l = map f (filter p l).
Proof.
  induction l as [|x l IH]; simpl; [reflexivity|].
  destruct (p x); simpl; now rewrite IH.
Qed.

Lemma filter_all {A : Type} (p : A -> bool) (l : list A) :
  Forall (fun x => p x = true) l -> filter p l = l.
Proof.
  induction 1 as [|x l Hx _ IH]; simpl; [reflexivity|]. now rewrite Hx, IH.
Qed.

Lemma filter_none {A : Type} (p : A -> bool) (l : list A) :
  Forall (fun x => p x = false) l -> filter p l = [].
Proof. induction 1 as [|x l Hx _ IH]; simpl; [reflexivity|]. now rewrite Hx. Qed.

Lemma slice_from_last_length {A : Type} (l : list A) (k : Z) :
  (0 < k)%Z ->
  List.length (slice_from l (- k)) = Nat.min (Z.to_nat k) (List.length l).
Proof.
  intros Hk. unfold slice_from, slice, relative_index.
  destruct (Z.ltb_spec (- k) 0); [|lia].
  destruct (Z.ltb_spec (Z.of_nat (List.length l)) 0); [lia|].
  rewrite length_firstn, length_skipn. lia.
Qed.

(** ** Trend: the rule on the figures the analysis returns (C5) *)

Section TrendRule.
Context {N : Type} `{JSNumber N}.
Import AnalyticsEngine.
Local Open Scope js_scope.


End TrendRule.


(** ** Spike detection: what it throws on and how its counts add up *)

Section SpikeCounts.
Context {N : Type} `{JSNumber N}.
Import AnomalyDetectionService.

(** The severities a round of the loop can give. *)
Definition banded (s : Spike N) : Prop :=
  sp_severity s = "critical"%string \/ sp_severity s = "high"%string
  \/ sp_severity s = "medium"%string.

Lemma spike_round_banded (dailyCosts : list (DailyCost N)) (lookbackDays i : Z)
  (pushed : list (Spike N)) :
  spike_round dailyCosts lookbackDays i = Some pushed ->
  (List.length pushed <= 1)%nat /\ Forall banded pushed.
Proof.
  unfold spike_round. destruct (at_index dailyCosts i) as [day|]; [|discriminate].
  destruct (ltb (of_Z 50) _); intros [= <-]; simpl; [|auto].
  split; [lia|]. constructor; [|constructor]. unfold banded. simpl.
  destruct (ltb (of_Z 100) _); [auto|]. destruct (ltb (of_Z 75) _); auto.
Qed.

Lemma spike_round_negative (dailyCosts : list (DailyCost N)) (lookbackDays i : Z) :
  (i < 0)%Z -> spike_round dailyCosts lookbackDays i = None.
Proof.
  intros Hi. unfold spike_round, at_index.
  destruct (Z.ltb_spec i 0); [reflexivity|lia].
Qed.

Lemma collect_spikes (dailyCosts : list (DailyCost N)) (lookbackDays : Z) (l : list Z) :
  (forall i, In i l -> (0 <= i < Z.of_nat (List.length dailyCosts))%Z) ->
  exists spikes,
    collect (spike_round dailyCosts lookbackDays) l = Some spikes
    /\ (List.length spikes <= List.length l)%nat /\ Forall banded spikes.
Proof.
  induction l as [|i l IH]; intros Hin; simpl.
  - exists []. repeat split; auto.
  - destruct IH as [more [-> [Hlen Hall]]]; [intros j Hj; apply Hin; now right|].
    destruct (spike_round dailyCosts lookbackDays i) as [pushed|] eqn:Hround.
    + destruct (spike_round_banded _ _ _ Hround) as [Hone Hband].
      exists (pushed ++ more). rewrite length_app. repeat split; [lia|].
      apply Forall_app. now split.
    + exfalso. unfold spike_round, at_index in Hround.
      specialize (Hin i (or_introl eq_refl)).
      destruct (Z.ltb_spec i 0); [lia|].
      destruct (nth_error dailyCosts (Z.to_nat i)) eqn:Hnth.
      * destruct (ltb (of_Z 50) _); discriminate.
      * apply nth_error_None in Hnth. lia.
Qed.

Lemma count_banded (spikes : list (Spike N)) :
  Forall banded spikes ->
  List.length spikes
  = (count_severity "critical" spikes + count_severity "high" spikes
     + count_severity "medium" spikes)%nat.
Proof.
  unfold count_severity. induction 1 as [|s l Hs _ IH]; [reflexivity|].
  simpl. destruct Hs as [-> | [-> | ->]]; simpl; lia.
Qed.

(** With a look-back that is not negative, [detectCostSpikes] returns. *)
Lemma detectCostSpikes_returns (dailyCosts : list (DailyCost N)) (lookbackDays : Z) :
  (0 <= lookbackDays)%Z ->
  exists spikes,
    detectCostSpikes dailyCosts lookbackDays
    = Some {| lookbackDays := lookbackDays;
              spikes := spikes;
              totalSpikes := List.length spikes;
              criticalSpikes := count_severity "critical" spikes;
              highSpikes := count_severity "high" spikes;
              mediumSpikes := count_severity "medium" spikes |}.
Proof.
  intros Hpos. unfold detectCostSpikes.
  destruct (collect_spikes dailyCosts lookbackDays
              (range lookbackDays (Z.of_nat (List.length dailyCosts))))
    as [spikes [-> _]].
  - intros i Hi. unfold range in Hi. apply in_map_iff in Hi.
    destruct Hi as [k [<- Hk]]. apply in_seq in Hk. lia.
  - now exists spikes.
Qed.

(** X7. [detectCostSpikes] throws exactly on a negative look-back. Otherwise
    it returns a report in which every spike is critical, high or medium, so
    that the three counts add up to [totalSpikes], and there is at most one
    spike per day after the first [lookbackDays] days. *)
Theorem detectCostSpikes_counts (dailyCosts : list (DailyCost N)) (lookbackDays : Z) :
  if (lookbackDays <? 0)%Z then detectCostSpikes dailyCosts lookbackDays = None
  else exists report,
         detectCostSpikes dailyCosts lookbackDays = Some report
         /\ totalSpikes report
            = (criticalSpikes report + highSpikes report + mediumSpikes report)%nat
         /\ (Z.of_nat (totalSpikes report)
             <= Z.max 0 (Z.of_nat (List.length dailyCosts) - lookbackDays))%Z.
Proof.
  unfold detectCostSpikes. destruct (Z.ltb_spec lookbackDays 0) as [Hneg|Hpos].
  - unfold range.
    destruct (Z.to_nat (Z.of_nat (List.length dailyCosts) - lookbackDays)) as [|m] eqn:Hm;
      [lia|].
    cbn [seq map collect]. now rewrite spike_round_negative by lia.
  - destruct (collect_spikes dailyCosts lookbackDays
                (range lookbackDays (Z.of_nat (List.length dailyCosts))))
      as [spikes [-> [Hlen Hall]]].
    + intros i Hi. unfold range in Hi. apply in_map_iff in Hi.
      destruct Hi as [k [<- Hk]]. apply in_seq in Hk. lia.
    + eexists. split; [reflexivity|]. cbn [totalSpikes criticalSpikes highSpikes mediumSpikes].
      split; [now apply count_banded|].
      rewrite range_length in Hlen. lia.
Qed.

End SpikeCounts.

(** ** Spike detection: which days are reported *)

Section SpikeList.
Context {N : Type} `{JSNumber N}.
Import AnomalyDetectionService.
Local Open Scope js_scope.

(** The increase, in percent, of the day at index [i] over the average of the
    [lookbackDays] days before it. *)
Definition increase_at (dailyCosts : list (DailyCost N)) (lookbackDays i : Z)
  (day : DailyCost N) : N :=
  let historicalAvg :=
    sum_by (@total N) (slice dailyCosts (i - lookbackDays) i) / of_Z lookbackDays in
  (total day - historicalAvg) / historicalAvg * of_Z 100.

(** What a report shows of a spike: its identifier, date, increase and
    severity. *)
Definition reported (s : Spike N) : string * string * N * string :=
  (sp_id s, sp_date s, increasePercent s, sp_severity s).

(** What is reported of the day at index [i], if its increase exceeds 50. *)
Definition spike_of (dailyCosts : list (DailyCost N)) (lookbackDays i : Z)
  (day : DailyCost N) : list (string * string * N * string) :=
  let p := increase_at dailyCosts lookbackDays i day in
  if p >? of_Z 50 then
    [ ("spike-" ++ dc_id day, dc_date day, toFixed2 p,
       if p >? of_Z 100 then "critical" else if p >? of_Z 75 then "high" else "medium")%string ]
  else [].

Lemma spike_round_at (dailyCosts : list (DailyCost N)) (lookbackDays : Z) (k : nat)
  (day : DailyCost N) :
  nth_error dailyCosts k = Some day ->
  exists pushed,
    spike_round dailyCosts lookbackDays (Z.of_nat k) = Some pushed
    /\ map reported pushed = spike_of dailyCosts lookbackDays (Z.of_nat k) day.
Proof.
  intros Hday. unfold spike_round, at_index, spike_of, increase_at.
  destruct (Z.ltb_spec (Z.of_nat k) 0); [lia|]. rewrite Nat2Z.id, Hday.
  destruct (ltb (of_Z 50) _); eexists; split; reflexivity.
Qed.

Lemma skipn_cons_inv {A : Type} (l : list A) (s : nat) (x : A) (rest : list A) :
  skipn s l = x :: rest -> nth_error l s = Some x /\ skipn (S s) l = rest.
Proof.
  revert l. induction s as [|s IH]; intros [|y l] E; try discriminate.
  - injection E as -> ->. now split.
  - apply (IH l E).
Qed.

Lemma collect_suffix (dailyCosts : list (DailyCost N)) (lookbackDays : Z)
  (suffix : list (DailyCost N)) (s : nat) :
  skipn s dailyCosts = suffix ->
  exists spikes,
    collect (spike_round dailyCosts lookbackDays)
            (map Z.of_nat (seq s (List.length suffix)))
    = Some spikes
    /\ map reported spikes
       = flat_map (fun e => spike_of dailyCosts lookbackDays (fst e) (snd e))
                  (combine (map Z.of_nat (seq s (List.length suffix))) suffix).
Proof.
  revert s. induction suffix as [|day suffix IH]; intros s E.
  - exists []. now split.
  - apply skipn_cons_inv in E. destruct E as [Hday Hrest].
    destruct (IH (S s) Hrest) as [more [Hmore Hrep]].
    destruct (spike_round_at dailyCosts lookbackDays s Hday) as [pushed [Hpushed Hone]].
    exists (pushed ++ more). cbn [List.length seq map collect combine flat_map fst snd].
    rewrite Hpushed, Hmore. split; [reflexivity|].
    now rewrite map_app, Hone, Hrep.
Qed.

Lemma seq_shifted (k m a : nat) :
  map (fun j => (Z.of_nat k + Z.of_nat j)%Z) (seq a m) = map Z.of_nat (seq (k + a) m).
Proof.
  revert a. induction m as [|m IH]; intros a; [reflexivity|].
  cbn [seq map]. f_equal; [lia|]. rewrite IH. now rewrite Nat.add_succ_r.
Qed.

Lemma range_of_nat (k n : nat) :
  range (Z.of_nat k) (Z.of_nat n) = map Z.of_nat (seq k (n - k)).
Proof.
  unfold range. replace (Z.to_nat (Z.of_nat n - Z.of_nat k)) with (n - k)%nat by lia.
  rewrite seq_shifted. now rewrite Nat.add_0_r.
Qed.

Lemma after_lookback {B : Type} (f : Z -> DailyCost N -> list B) (k : nat)
  (suffix : list (DailyCost N)) (s : nat) :
  flat_map (fun e => if (Z.of_nat k <=? fst e)%Z then f (fst e) (snd e) else [])
           (combine (map Z.of_nat (seq s (List.length suffix))) suffix)
  = flat_map (fun e => f (fst e) (snd e))
             (combine (map Z.of_nat (seq (Nat.max s k)
                                         (List.length (skipn (k - s) suffix))))
                      (skipn (k - s) suffix)).
Proof.
  revert s. induction suffix as [|day suffix IH]; intros s.
  - now rewrite skipn_nil.
  - cbn [List.length seq map combine flat_map fst snd]. rewrite IH.
    destruct (Z.leb_spec (Z.of_nat k) (Z.of_nat s)) as [Hle|Hlt].
    + replace (k - s)%nat with 0%nat by lia. replace (k - S s)%nat with 0%nat by lia.
      replace (Nat.max s k) with s by lia. replace (Nat.max (S s) k) with (S s) by lia.
      reflexivity.
    + replace (k - s)%nat with (S (k - S s)) by lia.
      replace (Nat.max s k) with (Nat.max (S s) k) by lia. reflexivity.
Qed.

(** X6. Which days [detectCostSpikes] reports. With a look-back that is not
    negative, the spikes of the report are, in the order of the days, those
    of the days at an index of at least [lookbackDays] whose increase over
    the average of the [lookbackDays] days before exceeds 50 percent; a day
    before that index is never reported. Each spike carries the identifier
    and the date of its day, the increase rounded to two decimals, and the
    severity "critical" above 100 percent, "high" above 75 and "medium"
    otherwise. *)
Theorem detectCostSpikes_reported (dailyCosts : list (DailyCost N)) (lookbackDays : Z) :
  (0 <= lookbackDays)%Z ->
  exists report,
    detectCostSpikes dailyCosts lookbackDays = Some report
    /\ map reported (spikes report)
       = flat_map (fun e => if (lookbackDays <=? fst e)%Z
                            then spike_of dailyCosts lookbackDays (fst e) (snd e)
                            else [])
                  (indexed dailyCosts).
Proof.
  intros Hpos. unfold detectCostSpikes.
  set (k := Z.to_nat lookbackDays).
  assert (Hk : lookbackDays = Z.of_nat k) by (unfold k; lia). rewrite Hk.
  rewrite range_of_nat.
  destruct (@collect_suffix dailyCosts (Z.of_nat k) (skipn k dailyCosts) k eq_refl)
    as [found [Hfound Hrep]].
  rewrite length_skipn in Hfound, Hrep. rewrite Hfound.
  eexists. split; [reflexivity|]. cbn [spikes]. rewrite Hrep.
  unfold indexed.
  rewrite (after_lookback (spike_of dailyCosts (Z.of_nat k)) k dailyCosts 0).
  rewrite Nat.sub_0_r, Nat.max_0_l, length_skipn. reflexivity.
Qed.

End SpikeList.

Lemma detectCostSpikes_reported_witness :
  exists report,
    AnomalyDetectionService.detectCostSpikes Scenario.eight_days 7 = Some report
    /\ map (@reported float) (AnomalyDetectionService.spikes report)
       = flat_map (fun e => if (7 <=? fst e)%Z
                            then spike_of Scenario.eight_days 7 (fst e) (snd e)
                            else [])
                  (indexed Scenario.eight_days).
Proof.
  apply (@detectCostSpikes_reported float _ Scenario.eight_days 7). lia.
Defined.

(** ** The full analysis *)

Section FullAnalysis.
Context {N : Type} `{JSNumber N}.
Import AnomalyDetectionService.

Lemma anomalies_are_errors (dailyCosts : list (DailyCost N)) (period : Z) :
  Forall (fun a => severity a = "error"%string)
         (anomalies (detectAnomalies dailyCosts period)).
Proof.
  unfold detectAnomalies. cbn [anomalies]. apply Forall_forall. intros a Ha.
  apply in_flat_map in Ha. destruct Ha as [day [_ Ha]].
  destruct (ltb _ (total day)); [|easy]. now destruct Ha as [<-|[]].
Qed.

(** X8. [runFullAnalysis] never throws, whatever the series and the period:
    its spike detection looks back 7 days. In its summary, [criticalIssues]
    counts the critical spikes and every anomaly, since each anomaly has the
    severity "error"; and the moving averages it returns are those of the last
    14 days of the window, or of the whole window when it is shorter. *)
Theorem runFullAnalysis_summary (getDay : string -> option Z)
  (dailyCosts : list (DailyCost N)) (period : Z) :
  exists analysis,
    runFullAnalysis getDay dailyCosts period = Some analysis
    /\ anomalyDetection analysis = detectAnomalies dailyCosts period
    /\ detectCostSpikes dailyCosts 7 = Some (spikeDetection analysis)
    /\ criticalIssues (summary analysis)
       = (criticalSpikes (spikeDetection analysis)
          + totalAnomalies (anomalyDetection analysis))%nat
    /\ movingAverages analysis
       = slice_from (calculateMovingAverage (slice_from dailyCosts (- period)) 7) (-14)
    /\ List.length (movingAverages analysis)
       = Nat.min 14 (List.length (slice_from dailyCosts (- period))).
Proof.
  unfold runFullAnalysis.
  destruct (collect_spikes dailyCosts 7 (range 7 (Z.of_nat (List.length dailyCosts))))
    as [spikes [Hspikes _]].
  { intros i Hi. unfold range in Hi. apply in_map_iff in Hi.
    destruct Hi as [k [<- Hk]]. apply in_seq in Hk. lia. }
  unfold detectCostSpikes at 1. rewrite Hspikes.
  eexists. split; [reflexivity|]. cbn [anomalyDetection spikeDetection summary
    criticalIssues movingAverages].
  repeat split.
  - unfold detectCostSpikes. now rewrite Hspikes.
  - f_equal. rewrite filter_all.
    + reflexivity.
    + eapply Forall_impl; [|apply anomalies_are_errors].
      intros a Ha. cbv beta. now rewrite Ha.
  - rewrite (@slice_from_last_length _ _ 14) by lia.
    unfold calculateMovingAverage. now rewrite length_map, indexed_length.
Qed.

End FullAnalysis.

(** ** Grouping: what a [Map] of arrays holds after the pushes *)

Section Grouping.
Context {K V : Type} (same : K -> K -> bool).
Hypothesis same_spec : forall a b, same a b = true <-> a = b.

(** The array a key maps to; empty when the key is absent. *)
Fixpoint pushed_to (k : K) (m : list (K * list V)) : list V :=
  match m with
  | [] => []
  | (k', vs) :: rest => if same k' k then vs else pushed_to k rest
  end.

(** Every array of the map holds a value: an entry is made only to push. *)
Definition inhabited (m : list (K * list V)) : Prop :=
  Forall (fun e => snd e <> []) m.

Lemma same_refl (k : K) : same k k = true.
Proof. now apply same_spec. Qed.

Lemma map_push_keys (k : K) (v : V) (m : list (K * list V)) (k' : K) :
  In k' (map fst (map_push same k v m)) <-> k' = k \/ In k' (map fst m).
Proof.
  induction m as [|[k0 vs] m IH]; simpl.
  - intuition congruence.
  - destruct (same k0 k) eqn:Hk; simpl.
    + apply same_spec in Hk. subst. intuition congruence.
    + rewrite IH. intuition congruence.
Qed.

Lemma map_push_NoDup (k : K) (v : V) (m : list (K * list V)) :
  NoDup (map fst m) -> NoDup (map fst (map_push same k v m)).
Proof.
  induction m as [|[k0 vs] m IH]; simpl; intros Hnd.
  - constructor; [easy|constructor].
  - destruct (same k0 k) eqn:Hk; simpl; [exact Hnd|].
    inversion Hnd as [|? ? Hnotin Hrest]; subst. constructor; [|auto].
    rewrite map_push_keys. intros [->|Hin]; [|contradiction].
    rewrite same_refl in Hk. discriminate.
Qed.

Lemma map_push_pushed (k : K) (v : V) (m : list (K * list V)) (k' : K) :
  pushed_to k' (map_push same k v m)
  = if same k k' then pushed_to k' m ++ [v] else pushed_to k' m.
Proof.
  induction m as [|[k0 vs] m IH]; simpl.
  - destruct (same k k'); reflexivity.
  - destruct (same k0 k) eqn:Hk; simpl.
    + apply same_spec in Hk. subst k0. destruct (same k k'); reflexivity.
    + destruct (same k0 k') eqn:Hk'; [|exact IH].
      apply same_spec in Hk'. subst k0.
      destruct (same k k') eqn:Hkk; [|reflexivity].
      apply same_spec in Hkk. subst k'. rewrite same_refl in Hk. discriminate.
Qed.

Lemma map_push_inhabited (k : K) (v : V) (m : list (K * list V)) :
  inhabited m -> inhabited (map_push same k v m).
Proof.
  unfold inhabited. induction m as [|[k0 vs] m IH]; simpl; intros Hm.
  - constructor; [discriminate|constructor].
  - inversion Hm; subst. destruct (same k0 k); constructor; auto.
    simpl. now destruct vs.
Qed.

Lemma pushed_to_In (k : K) (vs : list V) (m : list (K * list V)) :
  NoDup (map fst m) -> In (k, vs) m -> pushed_to k m = vs.
Proof.
  induction m as [|[k0 ws] m IH]; simpl; intros Hnd Hin; [easy|].
  inversion Hnd as [|? ? Hnotin Hrest]; subst. destruct Hin as [[= -> ->]|Hin].
  - now rewrite same_refl.
  - destruct (same k0 k) eqn:Hk; [|auto].
    apply same_spec in Hk. subst k0. exfalso. apply Hnotin.
    apply in_map_iff. now exists (k, vs).
Qed.

(** After pushing the entries [es] one by one onto an empty map: the keys are
    distinct, they are the keys of the entries, and each maps to the values
    pushed under it, in the order of the pushes. *)
Lemma grouped (es : list (K * V)) (m0 : list (K * list V)) :
  NoDup (map fst m0) -> inhabited m0 ->
  let m := fold_left (fun m e => map_push same (fst e) (snd e) m) es m0 in
  NoDup (map fst m) /\ inhabited m
  /\ (forall k, In k (map fst m) <-> In k (map fst m0) \/ In k (map fst es))
  /\ (forall k, pushed_to k m
                = pushed_to k m0 ++ map snd (filter (fun e => same (fst e) k) es)).
Proof.
  revert m0. induction es as [|[k v] es IH]; intros m0 Hnd Hin; cbn [fold_left].
  - repeat split; try assumption; try tauto.
    + intros [?|[]]; assumption.
    + intros k. simpl. now rewrite app_nil_r.
  - cbn [fst snd].
    destruct (IH (map_push same k v m0) (map_push_NoDup k v m0 Hnd)
                 (map_push_inhabited k v Hin)) as [Hnd' [Hin' [Hkeys Hvals]]].
    repeat split; try assumption.
    + rewrite Hkeys, map_push_keys. simpl. intuition congruence.
    + rewrite Hkeys, map_push_keys. simpl. intuition congruence.
    + intros k'. rewrite Hvals, map_push_pushed. simpl.
      destruct (same k k'); [|reflexivity]. now rewrite <- app_assoc.
Qed.

End Grouping.

Lemma same_key_spec (a b : option string) : same_key a b = true <-> a = b.
Proof.
  destruct a as [x|], b as [y|]; simpl; try (split; [discriminate|congruence]);
    [|tauto].
  rewrite String.eqb_eq. split; congruence.
Qed.

(** ** Reading a Cost Explorer answer *)

Section ParseResponse.
Context {N : Type} `{JSNumber N} (parseFloat : string -> N).
Import AWSCostService.

(** The groups of an answer in the order the source visits them, each with
    its first key, the day of its result and its cost. *)
Definition group_entries (resultsByTime : list ResultByTime)
  : list (option string * AnalyticsEngine.CostPoint N) :=
  flat_map (fun result =>
              match Groups result with
              | Some groups =>
                  map (fun group =>
                         (hd_error (Keys group),
                          {| AnalyticsEngine.cp_date := period_start result;
                             AnalyticsEngine.cp_cost := parseFloat (group_amount group) |}))
                      groups
              | None => []
              end) resultsByTime.

Lemma push_groups_entries (resultsByTime : list ResultByTime)
  (m0 : list (option string * list (AnalyticsEngine.CostPoint N))) :
  fold_left (push_groups parseFloat) resultsByTime m0
  = fold_left (fun m e => map_push same_key (fst e) (snd e) m)
              (group_entries resultsByTime) m0.
Proof.
  revert m0. induction resultsByTime as [|r rs IH]; intros m0; [reflexivity|].
  cbn [fold_left group_entries flat_map]. rewrite fold_left_app, IH. f_equal.
  unfold push_groups. destruct (Groups r) as [groups|]; [|reflexivity].
  now rewrite fold_left_through_map.
Qed.

(** X9. What [parseCostAndUsageResponse] makes of an answer: one daily cost
    per result, in order; one service per distinct first key of the groups,
    holding the day and cost of each group under that key in the order of the
    answer, never an empty array, with their sum as its total. *)
Theorem parseCostAndUsageResponse_groups (resultsByTime : list ResultByTime) :
  let parsed := parseCostAndUsageResponse parseFloat resultsByTime in
  let entries := group_entries resultsByTime in
  map (@AnalyticsEngine.cp_date N) (pc_dailyCosts parsed)
  = map period_start resultsByTime
  /\ NoDup (map (@ps_service N) (pc_serviceCosts parsed))
  /\ (forall key, In key (map (@ps_service N) (pc_serviceCosts parsed))
                  <-> In key (map fst entries))
  /\ (forall s, In s (pc_serviceCosts parsed) ->
        ps_data s = map snd (filter (fun e => same_key (fst e) (ps_service s)) entries)
        /\ ps_data s <> []
        /\ ps_total s = sum_by (@AnalyticsEngine.cp_cost N) (ps_data s)).
Proof.
  cbv zeta. unfold parseCostAndUsageResponse. cbn [pc_dailyCosts pc_serviceCosts].
  rewrite push_groups_entries.
  destruct (@grouped _ _ same_key same_key_spec (group_entries resultsByTime) [])
    as [Hnd [Hin [Hkeys Hvals]]]; [constructor|constructor|].
  set (m := fold_left _ (group_entries resultsByTime) []) in *.
  assert (Hfst : map (@ps_service N)
                   (map (fun '(service, data) =>
                           {| ps_service := service; ps_data := data;
                              ps_total := sum_by (@AnalyticsEngine.cp_cost N) data |}) m)
                 = map fst m).
  { rewrite map_map. apply map_ext. now intros [k vs]. }
  rewrite Hfst. split; [now rewrite map_map|]. split; [exact Hnd|]. split.
  - intros key. rewrite Hkeys. simpl. tauto.
  - intros s Hs. apply in_map_iff in Hs. destruct Hs as [[k vs] [<- Hkv]].
    cbn [ps_data ps_service ps_total]. repeat split.
    + rewrite <- (@pushed_to_In _ _ same_key same_key_spec k vs m Hnd Hkv). apply Hvals.
    + unfold inhabited in Hin. rewrite Forall_forall in Hin. exact (Hin _ Hkv).
Qed.

End ParseResponse.

(** ** Aggregating the cost documents of the database *)

Section FetchFromDatabase.
Context {N : Type} `{JSNumber N}.
Import AnalyticsEngine.
Import DataFlowController.
Local Open Scope js_scope.

(** The cost the entry of [day] holds; 0, the value a new entry starts from,
    when there is none. *)
Fixpoint cost_on (day : string) (dailyCosts : list (CostPoint N)) : N :=
  match dailyCosts with
  | [] => of_Z 0
  | d :: rest => if String.eqb (cp_date d) day then cp_cost d else cost_on day rest
  end.

Lemma add_to_day_dates (day : string) (c : N) (l : list (CostPoint N)) (day' : string) :
  In day' (map (@cp_date N) (add_to_day day c l)) <-> day' = day \/ In day' (map (@cp_date N) l).
Proof.
  induction l as [|d l IH]; simpl.
  - intuition congruence.
  - destruct (String.eqb_spec (cp_date d) day) as [<-|Hne]; simpl.
    + intuition congruence.
    + rewrite IH. intuition congruence.
Qed.

Lemma add_to_day_NoDup (day : string) (c : N) (l : list (CostPoint N)) :
  NoDup (map (@cp_date N) l) -> NoDup (map (@cp_date N) (add_to_day day c l)).
Proof.
  induction l as [|d l IH]; simpl; intros Hnd.
  - constructor; [easy|constructor].
  - inversion Hnd as [|? ? Hnotin Hrest]; subst.
    destruct (String.eqb_spec (cp_date d) day) as [<-|Hne]; simpl.
    + now constructor.
    + constructor; [|auto]. rewrite add_to_day_dates. intros [E|Hin]; congruence.
Qed.

Lemma add_to_day_cost (day : string) (c : N) (l : list (CostPoint N)) (day' : string) :
  cost_on day' (add_to_day day c l)
  = if String.eqb day day' then cost_on day' l + c else cost_on day' l.
Proof.
  induction l as [|d l IH]; simpl.
  - destruct (String.eqb day day'); reflexivity.
  - destruct (String.eqb_spec (cp_date d) day) as [<-|Hne]; simpl.
    + destruct (String.eqb (cp_date d) day'); reflexivity.
    + destruct (String.eqb_spec (cp_date d) day') as [<-|Hne']; [|exact IH].
      destruct (String.eqb_spec day (cp_date d)); [congruence|reflexivity].
Qed.

Lemma cost_on_In (d : CostPoint N) (l : list (CostPoint N)) :
  NoDup (map (@cp_date N) l) -> In d l -> cost_on (cp_date d) l = cp_cost d.
Proof.
  induction l as [|e l IH]; simpl; intros Hnd Hin; [easy|].
  inversion Hnd as [|? ? Hnotin Hrest]; subst. destruct Hin as [->|Hin].
  - now rewrite String.eqb_refl.
  - destruct (String.eqb_spec (cp_date e) (cp_date d)) as [E|_]; [|auto].
    exfalso. apply Hnotin. rewrite E. now apply in_map.
Qed.

Lemma days_added (costs : list (Cost N)) (l0 : list (CostPoint N)) :
  NoDup (map (@cp_date N) l0) ->
  let l := fold_left (fun days cost => add_to_day (cost_day cost) (cost_amount cost) days)
                     costs l0 in
  NoDup (map (@cp_date N) l)
  /\ (forall day, In day (map (@cp_date N) l)
                  <-> In day (map (@cp_date N) l0) \/ In day (map (@cost_day N) costs))
  /\ (forall day, cost_on day l
                  = fold_left (fun sum c => sum + cost_amount c)
                      (filter (fun c => String.eqb (cost_day c) day) costs)
                      (cost_on day l0)).
Proof.
  revert l0. induction costs as [|c costs IH]; intros l0 Hnd; cbn [fold_left].
  - repeat split; try assumption; try tauto. intros [?|[]]; assumption.
  - destruct (IH (add_to_day (cost_day c) (cost_amount c) l0)
                 (add_to_day_NoDup _ _ _ Hnd)) as [Hnd' [Hdates Hcost]].
    split; [exact Hnd'|]. split.
    + intros day. rewrite Hdates, add_to_day_dates. simpl. intuition congruence.
    + intros day. rewrite Hcost, add_to_day_cost. simpl.
      destruct (String.eqb (cost_day c) day); reflexivity.
Qed.

Lemma point_eta (d : CostPoint N) :
  {| cp_date := cp_date d; cp_cost := cp_cost d |} = d.
Proof. now destruct d. Qed.

(** X10. What [fetchFromDatabase] makes of the cost documents. There is one
    daily cost per distinct day, holding the sum of the costs of that day
    taken in the order of the documents; one service per distinct service
    name, holding the day and cost of each of its documents in order, with
    their sum as its total; the historical series is the list of daily
    costs. *)
Theorem fetchFromDatabase_groups (costs : list (Cost N)) (resources : list (Resource N)) :
  let fetched := fetchFromDatabase costs resources in
  let days := dailyCosts (costData fetched) in
  let services := serviceCosts (costData fetched) in
  NoDup (map (@cp_date N) days)
  /\ (forall day, In day (map (@cp_date N) days) <-> In day (map (@cost_day N) costs))
  /\ (forall d, In d days ->
        cp_cost d
        = sum_by (@cost_amount N)
            (filter (fun c => String.eqb (cost_day c) (cp_date d)) costs))
  /\ NoDup (map (@service N) services)
  /\ (forall name, In name (map (@service N) services)
                   <-> In name (map (@cost_service N) costs))
  /\ (forall s, In s services ->
        data s
        = map (fun c => {| cp_date := cost_day c;
                           cp_cost := cost_amount c |})
              (filter (fun c => String.eqb (cost_service c) (service s))
                      costs)
        /\ sc_total s = sum_by (@cp_cost N) (data s))
  /\ historicalData fetched = days
  /\ resourceData fetched = resources.
Proof.
  cbv zeta. unfold fetchFromDatabase.
  cbn [costData dailyCosts serviceCosts historicalData resourceData].
  destruct (@days_added costs [] (NoDup_nil _)) as [Hnd [Hdates Hcost]].
  set (days := fold_left _ costs []) in *.
  set (entries := map (fun cost => (cost_service cost,
                                    {| cp_date := cost_day cost;
                                       cp_cost := cost_amount cost |})) costs).
  set (m := fold_left _ costs []).
  assert (Hm : m = fold_left (fun m e => map_push String.eqb (fst e) (snd e) m)
                             entries []).
  { unfold m, entries. now rewrite fold_left_through_map. }
  clearbody m. subst m.
  destruct (@grouped _ _ String.eqb String.eqb_eq entries [])
    as [Hsnd [_ [Hkeys Hvals]]]; [constructor|constructor|].
  set (m := fold_left _ entries []) in *.
  assert (Hfst : map (@service N)
                   (map (fun '(service, data) =>
                           {| service := service;
                              sc_total := sum_by (@cp_cost N) data;
                              data := data |}) m)
                 = map fst m).
  { rewrite map_map. apply map_ext. now intros [k vs]. }
  rewrite Hfst.
  split; [exact Hnd|]. split; [intros day; rewrite Hdates; simpl; tauto|].
  split.
  { intros d Hd. rewrite <- (@cost_on_In d days Hnd Hd). apply Hcost. }
  split; [exact Hsnd|]. split.
  { intros name. rewrite Hkeys. unfold entries. rewrite map_map. simpl. tauto. }
  split.
  { intros s Hs. apply in_map_iff in Hs. destruct Hs as [[k vs] [<- Hkv]].
    cbn [data service sc_total].
    split; [|reflexivity].
    rewrite <- (@pushed_to_In _ _ String.eqb String.eqb_eq k vs m Hsnd Hkv).
    rewrite Hvals. simpl. unfold entries.
    rewrite filter_through_map, map_map. reflexivity. }
  split; [|reflexivity].
  rewrite (map_ext _ (fun d => d) point_eta). apply map_id.
Qed.

End FetchFromDatabase.

(** ** Cost anomalies of the insights engine *)

Section InsightAnomalies.
Context {N : Type} `{JSNumber N}.
Import AnalyticsEngine.
Local Open Scope js_scope.

(** With enough data the anomalies are the days whose cost exceeds the
    threshold of the trend analysis; without, there is none. *)
Lemma detectAnomalies_costs (historicalData : option (list (CostPoint N))) :
  match historicalData, trend_details (analyzeCostTrends historicalData) with
  | Some points, Some details =>
      AIInsightsEngine.detectAnomalies historicalData
      = map (fun day =>
               {| AIInsightsEngine.ca_type := "cost_spike";
                  AIInsightsEngine.ca_date := cp_date day;
                  AIInsightsEngine.ca_actualCost := cp_cost day;
                  AIInsightsEngine.ca_expectedCost :=
                    averageDaily (analyzeCostTrends historicalData);
                  AIInsightsEngine.ca_severity :=
                    if cp_cost day >? averageDaily (analyzeCostTrends historicalData) * of_Z 2
                    then "high"%string else "medium"%string |})
            (filter (fun d => cp_cost d >? anomalyThreshold details) points)
  | _, _ => AIInsightsEngine.detectAnomalies historicalData = []
  end.
Proof.
  unfold AIInsightsEngine.detectAnomalies.
  destruct historicalData as [points|]; [|reflexivity].
  unfold analyzeCostTrends.
  destruct (Z.ltb (Z.of_nat (List.length points)) 7); [reflexivity|].
  cbn [anomaly trend_details anomalyThreshold averageDaily].
  set (threshold := (_ + of_Z 2 * sqrt _)%js).
  rewrite (flat_map_filter (fun day => cp_cost day >? threshold)).
  rewrite (filter_through_map (fun c => c >? threshold)), length_map.
  now destruct (filter (fun day => cp_cost day >? threshold) points).
Qed.

Lemma trend_flag (points : list (CostPoint N)) (details : TrendDetails N) :
  trend_details (analyzeCostTrends (Some points)) = Some details ->
  anomaly (analyzeCostTrends (Some points))
  = (0 <? List.length (filter (fun d => cp_cost d >? anomalyThreshold details) points))%nat.
Proof.
  unfold analyzeCostTrends.
  destruct (Z.ltb (Z.of_nat (List.length points)) 7); [discriminate|].
  cbn [anomaly trend_details]. intros [= <-]. cbn [anomalyThreshold].
  now rewrite (filter_through_map (fun c => c >? _)), length_map.
Qed.

(** X11. The anomalies of the insights engine and the [anomaly] flag of the
    trend analysis agree: the list is empty exactly when the flag is false.
    With enough data the anomalies are the days whose cost exceeds the
    threshold of the analysis, in order, each expected at the daily average;
    without, there is none. *)
Theorem detectAnomalies_agrees_with_flag
  (historicalData : option (list (CostPoint N))) :
  let trendAnalysis := analyzeCostTrends historicalData in
  let found := AIInsightsEngine.detectAnomalies historicalData in
  (found = [] <-> anomaly trendAnalysis = false)
  /\ Forall (fun a => AIInsightsEngine.ca_expectedCost a = averageDaily trendAnalysis) found
  /\ match historicalData, trend_details trendAnalysis with
     | Some points, Some details =>
         map (fun a => (AIInsightsEngine.ca_date a, AIInsightsEngine.ca_actualCost a)) found
         = map (fun d => (cp_date d, cp_cost d))
               (filter (fun d => cp_cost d >? anomalyThreshold details) points)
     | _, _ => found = []
     end.
Proof.
  cbv zeta. pose proof (detectAnomalies_costs historicalData) as Hcosts.
  destruct historicalData as [points|].
  - destruct (trend_details (analyzeCostTrends (Some points))) as [details|] eqn:Hd.
    + rewrite Hcosts. split; [|split].
      * rewrite (trend_flag _ Hd).
        destruct (filter _ points); simpl; split; intros; easy.
      * apply Forall_forall. intros a Ha. apply in_map_iff in Ha.
        now destruct Ha as [d [<- _]].
      * now rewrite map_map.
    + rewrite Hcosts. repeat split; try constructor.
      unfold analyzeCostTrends in *.
      destruct (Z.ltb (Z.of_nat (List.length points)) 7); [reflexivity|discriminate].
  - rewrite Hcosts. repeat split; constructor.
Qed.

End InsightAnomalies.

(** ** Savings potential: what [byType] holds *)

Section SavingsPotential.
Context {N : Type} `{JSNumber N}.
Import AnalyticsEngine.
Local Open Scope js_scope.

(** The value under one key after the additions of [savings], from the value
    [start]: before each addition a value that is 0 or NaN is read as 0. *)
Definition restarted_sum (savings : list N) (start : N) : N :=
  fold_left (fun value s => (if truthy value then value else of_Z 0) + s) savings start.

Lemma get_set_own (key : string) (v : N) (obj : list (string * N)) (t : string) :
  get_own t (set_own key v obj) = if String.eqb key t then Some v else get_own t obj.
Proof.
  induction obj as [|[k w] obj IH]; cbn [set_own get_own].
  - destruct (String.eqb key t); reflexivity.
  - destruct (String.eqb_spec k key) as [->|Hne]; cbn [get_own].
    + destruct (String.eqb key t); reflexivity.
    + rewrite IH. destruct (String.eqb_spec k t) as [->|_]; [|reflexivity].
      destruct (String.eqb_spec key t); [congruence|reflexivity].
Qed.

Lemma set_own_keys (key : string) (v : N) (obj : list (string * N)) (t : string) :
  In t (map fst (set_own key v obj)) <-> t = key \/ In t (map fst obj).
Proof.
  induction obj as [|[k w] obj IH]; cbn [set_own map fst In].
  - intuition congruence.
  - destruct (String.eqb_spec k key) as [->|Hne]; cbn [map fst In].
    + intuition congruence.
    + rewrite IH. intuition congruence.
Qed.

Lemma set_own_NoDup (key : string) (v : N) (obj : list (string * N)) :
  NoDup (map fst obj) -> NoDup (map fst (set_own key v obj)).
Proof.
  induction obj as [|[k w] obj IH]; cbn [set_own map fst]; intros Hnd.
  - constructor; [easy|constructor].
  - inversion Hnd as [|? ? Hnotin Hrest]; subst.
    destruct (String.eqb_spec k key) as [->|Hne]; cbn [map fst].
    + now constructor.
    + constructor; [|auto]. rewrite set_own_keys. intros [E|Hin]; congruence.
Qed.

(** The savings of the opportunities of one type, in order. *)
Definition savings_of_type (t : string) (opps : list (Opportunity N)) : list N :=
  map (@potentialSavings N) (filter (fun o => String.eqb (op_type o) t) opps).

Lemma by_type_built (opps : list (Opportunity N)) (obj : list (string * N)) :
  NoDup (map fst obj) ->
  let built := fold_left add_by_type opps obj in
  NoDup (map fst built)
  /\ (forall t, In t (map fst built)
                <-> In t (map fst obj) \/ In t (map (@op_type N) opps))
  /\ forall t,
       get_own t built
       = match get_own t obj with
         | Some v => Some (restarted_sum (savings_of_type t opps) v)
         | None =>
             if existsb (fun o => String.eqb (op_type o) t) opps
             then Some (restarted_sum (savings_of_type t opps) (of_Z 0))
             else None
         end.
Proof.
  revert obj. induction opps as [|o opps IH]; intros obj Hnd; cbn [fold_left].
  - split; [exact Hnd|]. split; [intros t; cbn [map In]; tauto|].
    intros t. cbn. now destruct (get_own t obj).
  - destruct (IH (add_by_type obj o)) as [Hnd' [Hkeys Hget]];
      [now apply set_own_NoDup|].
    split; [exact Hnd'|]. split.
    + intros t. rewrite Hkeys. unfold add_by_type. rewrite set_own_keys.
      cbn [map In]. intuition congruence.
    + intros t. rewrite Hget. unfold add_by_type at 1. rewrite get_set_own.
      unfold savings_of_type. cbn [filter existsb].
      destruct (String.eqb_spec (op_type o) t) as [->|Hne]; cbn [map orb].
      * unfold restarted_sum. cbn [fold_left].
        destruct (get_own t obj) as [v|]; [reflexivity|].
        now destruct (truthy (of_Z 0)).
      * reflexivity.
Qed.

(** X15. What [calculateSavingsPotential] accounts for, when no type names a
    property every object inherits. [count] is the number of opportunities.
    [byType] has exactly one key per type present, and the value under a type
    depends on the opportunities of that type alone: it is the sum of their
    savings taken in order, where a running value that is 0 or NaN is read as
    0 before the next addition. *)
Theorem savings_potential_accounts (opportunities : list (Opportunity N)) :
  existsb (fun o => inherited (op_type o)) opportunities = false ->
  let potential := calculateSavingsPotential opportunities in
  sv_count potential = List.length opportunities
  /\ exists types,
       byType potential = Some types
       /\ NoDup (map fst types)
       /\ (forall t, In t (map fst types) <-> In t (map (@op_type N) opportunities))
       /\ forall t,
            get_own t types
            = if existsb (fun o => String.eqb (op_type o) t) opportunities
              then Some (restarted_sum (savings_of_type t opportunities) (of_Z 0))
              else None.
Proof.
  intros Hown. cbv zeta. unfold calculateSavingsPotential.
  cbn [sv_count byType]. rewrite Hown. split; [reflexivity|].
  destruct (@by_type_built opportunities [] (NoDup_nil _)) as [Hnd [Hkeys Hget]].
  eexists. split; [reflexivity|]. split; [exact Hnd|]. split.
  - intros t. rewrite Hkeys. cbn [map In]. tauto.
  - intros t. now rewrite Hget.
Qed.

(** The types of opportunity the analytics engine knows. *)
Definition engine_types : list string :=
  [ "high_spend_service"; "rapid_growth"; "underutilized_resource"; "idle_resource" ]%string.

(** The priorities and types the analytics engine gives. *)
Lemma engine_opportunities (serviceCosts : list (ServiceCost N))
  (resources : list (Resource N)) :
  Forall (fun o => (priority o = "high"%string \/ priority o = "medium"%string)
                   /\ In (op_type o) engine_types)
         (identifyOptimizationOpportunities serviceCosts resources).
Proof.
  apply Forall_forall. intros o Ho.
  unfold identifyOptimizationOpportunities in Ho. rewrite sort_desc_In in Ho.
  apply in_app_or in Ho. destruct Ho as [Ho|Ho]; apply in_flat_map in Ho;
    destruct Ho as [x [_ Ho]].
  - unfold service_opportunities in Ho. apply in_app_or in Ho. destruct Ho as [Ho|Ho].
    + destruct (ltb _ _); [|easy]. destruct Ho as [<-|[]].
      split; [now left|simpl; tauto].
    + destruct (Z.leb _ _); [|easy]. destruct (ltb _ _); [|easy].
      destruct Ho as [<-|[]]. split; [now right|simpl; tauto].
  - unfold resource_opportunities in Ho. destruct (utilization x) as [u|]; [|easy].
    apply in_app_or in Ho. destruct Ho as [Ho|Ho].
    + destruct (_ && _); [|easy]. destruct Ho as [<-|[]]. split; [|simpl; tauto].
      cbn [priority]. destruct (ltb _ _); auto.
    + destruct (_ && _); [|easy]. destruct Ho as [<-|[]].
      split; [now left|simpl; tauto].
Qed.


End SavingsPotential.

Lemma savings_potential_accounts_witness :
  let potential :=
    AnalyticsEngine.calculateSavingsPotential
      (AnalyticsEngine.identifyOptimizationOpportunities []
         [ Scenario.resource_with 1 2 348 ]) in
  AnalyticsEngine.sv_count potential = 2%nat
  /\ exists types,
       AnalyticsEngine.byType potential = Some types
       /\ AnalyticsEngine.get_own "idle_resource" types = Some 348%float.
Proof.
  set (found := AnalyticsEngine.identifyOptimizationOpportunities []
                  [ Scenario.resource_with 1 2 348 ]).
  assert (Hown : existsb (fun o => AnalyticsEngine.inherited (AnalyticsEngine.op_type o))
                         found = false) by reflexivity.
  destruct (@savings_potential_accounts float _ found Hown)
    as [Hcount [types [Htypes [_ [_ Hget]]]]].
  split; [exact Hcount|]. exists types. split; [exact Htypes|].
  rewrite Hget. reflexivity.
Defined.

(** ** Idle resources are underutilized too *)

Section IdleTwice.
Import AnalyticsEngine.

(** A double below 5 is below 20: the comparison of two doubles goes by their
    signs, then their exponents, then their mantissas, and 5 and 20 have the
    same mantissa. *)
Lemma below_5_below_20 (x : float) :
  PrimFloat.ltb x 5 = true -> PrimFloat.ltb x 20 = true.
Proof.
  rewrite !ltb_spec.
  change (Prim2SF 5) with (S754_finite false 5629499534213120 (-50)).
  change (Prim2SF 20) with (S754_finite false 5629499534213120 (-48)).
  unfold SFltb, SFcompare.
  destruct (Prim2SF x) as [s|s| |s m e].
  - intros _. reflexivity.
  - destruct s; [intros _; reflexivity|discriminate].
  - discriminate.
  - destruct s; [intros _; reflexivity|].
    destruct (Z.compare_spec e (-50)) as [->|Hlt|Hgt].
    + intros _. reflexivity.
    + intros _. destruct (Z.compare_spec e (-48)) as [E|_|Hgt]; [lia|reflexivity|lia].
    + discriminate.
Qed.

(** X18. An idle resource is counted twice, in the arithmetic of the program.
    A resource whose CPU and memory readings are both below 5 (a missing
    reading counts as 0) is below the thresholds of 20 as well, so
    [identifyOptimizationOpportunities] finds two opportunities for it: one
    to downsize it, saving its cost times 0.4, and one to terminate it, saving
    its whole cost. [calculateSavingsPotential] counts both, and its total
    adds the two savings. *)
Theorem idle_resource_counted_twice (r : Resource float) (u : Utilization float) :
  utilization r = Some u ->
  ltb (or_zero (cpu u)) (of_Z 5) = true ->
  ltb (or_zero (memory u)) (of_Z 5) = true ->
  let found := identifyOptimizationOpportunities [] [r] in
  let downsize := (cost r * lit (40 # 100))%js in
  Permutation (map (fun o => (op_type o, potentialSavings o)) found)
              [ ("underutilized_resource"%string, downsize);
                ("idle_resource"%string, cost r) ]
  /\ sv_count (calculateSavingsPotential found) = 2%nat
  /\ (sv_total (calculateSavingsPotential found) = (of_Z 0 + downsize + cost r)%js
      \/ sv_total (calculateSavingsPotential found) = (of_Z 0 + cost r + downsize)%js).
Proof.
  intros Hu Hc Hm found downsize.
  assert (Hrules : map (fun o => (op_type o, potentialSavings o)) (resource_opportunities r)
                   = [ ("underutilized_resource"%string, downsize);
                       ("idle_resource"%string, cost r) ]).
  { unfold resource_opportunities. rewrite Hu, Hc, Hm.
    change (ltb (or_zero (cpu u)) (of_Z 20)) with (PrimFloat.ltb (or_zero (cpu u)) 20).
    change (ltb (or_zero (memory u)) (of_Z 20)) with (PrimFloat.ltb (or_zero (memory u)) 20).
    rewrite (@below_5_below_20 _ Hc), (@below_5_below_20 _ Hm). reflexivity. }
  assert (Hperm : Permutation found (resource_opportunities r)).
  { unfold found, identifyOptimizationOpportunities. cbn [flat_map app].
    rewrite app_nil_r. apply sort_desc_permutation. }
  assert (Hsaved : Permutation (map (fun o => (op_type o, potentialSavings o)) found)
                               [ ("underutilized_resource"%string, downsize);
                                 ("idle_resource"%string, cost r) ]).
  { rewrite <- Hrules. now apply Permutation_map. }
  split; [exact Hsaved|]. split.
  - unfold calculateSavingsPotential. cbn [sv_count].
    rewrite <- (length_map (fun o => (op_type o, potentialSavings o))).
    now rewrite (Permutation_length Hsaved).
  - assert (Hsum : sv_total (calculateSavingsPotential found)
                   = fold_left (fun sum e => (sum + snd e)%js)
                       (map (fun o => (op_type o, potentialSavings o)) found) (of_Z 0)).
    { unfold calculateSavingsPotential, sum_by. cbn [sv_total].
      now rewrite fold_left_through_map. }
    rewrite Hsum.
    apply Permutation_sym, Permutation_length_2_inv in Hsaved.
    destruct Hsaved as [-> | ->]; [left|right]; reflexivity.
Qed.

End IdleTwice.

Lemma idle_resource_counted_twice_witness :
  let found :=
    AnalyticsEngine.identifyOptimizationOpportunities [] [ Scenario.resource_with 1 2 348 ] in
  Permutation
    (map (fun o => (AnalyticsEngine.op_type o, AnalyticsEngine.potentialSavings o)) found)
    [ ("underutilized_resource"%string, 139.20000000000002%float);
      ("idle_resource"%string, 348%float) ]
  /\ AnalyticsEngine.sv_count (AnalyticsEngine.calculateSavingsPotential found) = 2%nat
  /\ (AnalyticsEngine.sv_total (AnalyticsEngine.calculateSavingsPotential found)
      = (0 + 139.20000000000002 + 348)%float
      \/ AnalyticsEngine.sv_total (AnalyticsEngine.calculateSavingsPotential found)
         = (0 + 348 + 139.20000000000002)%float).
Proof.
  exact (@idle_resource_counted_twice (Scenario.resource_with 1 2 348)
           {| cpu := Some 1%float; memory := Some 2%float |} eq_refl eq_refl eq_refl).
Defined.

(** ** Resources fetched from AWS *)

Section FetchedResources.
Import DataFlowController.

(** X19. An import from AWS flags every instance. [fetchFromAWS] gives each
    EC2 and RDS instance the readings cpu 0 and memory 0 and the cost 0; in
    binary64 the insights engine then recommends, for every one of them, to
    terminate it as idle and to rightsize it, each with estimated savings
    of 0, the second with confidence 95. *)
Theorem fetched_instances_look_idle (ec2Instances : list EC2Instance)
  (rdsInstances : list RDSInstance) :
  let resources := @fetchFromAWS_resources float _ ec2Instances rdsInstances in
  let ids := map instanceId ec2Instances ++ map dbInstanceIdentifier rdsInstances in
  map (fun r => (AIInsightsEngine.rec_resourceId r, AIInsightsEngine.priority r,
                 AIInsightsEngine.suggestedAction (AIInsightsEngine.details r),
                 AIInsightsEngine.estimatedSavings r))
      (AIInsightsEngine.generateIdleResourceRecommendations resources)
  = map (fun id => (id, "high"%string, "Terminate"%string, 0%float)) ids
  /\ map (fun r => (AIInsightsEngine.rec_resourceId r, AIInsightsEngine.priority r,
                    AIInsightsEngine.estimatedSavings r, AIInsightsEngine.aiConfidence r))
         (AIInsightsEngine.generateRightsizingRecommendations resources)
     = map (fun id => (id, "high"%string, 0%float, 95%float)) ids.
Proof.
  cbv zeta. unfold fetchFromAWS_resources,
    AIInsightsEngine.generateIdleResourceRecommendations,
    AIInsightsEngine.generateRightsizingRecommendations.
  rewrite !flat_map_app, !map_app. split; f_equal.
  - induction ec2Instances as [|i l IH]; [reflexivity|]. cbn [map flat_map app].
    rewrite map_app, IH. reflexivity.
  - induction rdsInstances as [|i l IH]; [reflexivity|]. cbn [map flat_map app].
    rewrite map_app, IH. reflexivity.
  - induction ec2Instances as [|i l IH]; [reflexivity|]. cbn [map flat_map app].
    rewrite map_app, IH. reflexivity.
  - induction rdsInstances as [|i l IH]; [reflexivity|]. cbn [map flat_map app].
    rewrite map_app, IH. reflexivity.
Qed.

End FetchedResources.

(** ** Health of the full analysis *)

Section Health.
Import Exact.
Import AnomalyDetectionService.
Local Open Scope R_scope.

Lemma Rleb_false a b : Rleb a b = false <-> b < a.
Proof. unfold Rleb. destruct (Rle_dec a b); split; intros; try easy; lra. Qed.

(** X5. The health of a series in exact arithmetic. The health score is 100
    less 15 per anomaly and 5 per warning, floored at 0, whatever the period;
    [runFullAnalysis] calls the health good when three times the anomalies
    plus the warnings make 4 at most, fair when they make 10 at most, and
    poor beyond. *)
Theorem overall_health_bands (getDay : string -> option Z)
  (dailyCosts : list (DailyCost xreal)) (period : Z) :
  let report := detectAnomalies dailyCosts period in
  let a := totalAnomalies report in
  let w := totalWarnings report in
  healthScore report = Fin (Rmax 0 (100 - 15 * INR a - 5 * INR w))
  /\ option_map (fun analysis => (su_healthScore (summary analysis),
                                  overallHealth (summary analysis)))
                (runFullAnalysis getDay dailyCosts period)
     = Some (healthScore report,
             if (3 * a + w <=? 4)%nat then "good"%string
             else if (3 * a + w <=? 10)%nat then "fair"%string else "poor"%string).
Proof.
  cbv zeta.
  assert (Hscore : healthScore (detectAnomalies dailyCosts period)
                   = Fin (Rmax 0 (100 - 15 * INR (totalAnomalies (detectAnomalies dailyCosts period))
                                  - 5 * INR (totalWarnings (detectAnomalies dailyCosts period))))).
  { unfold detectAnomalies. cbn [healthScore totalAnomalies totalWarnings].
    apply calculateHealthScore_formula. }
  split; [exact Hscore|].
  unfold runFullAnalysis.
  destruct (@detectCostSpikes_returns xreal _ dailyCosts 7%Z) as [spikes ->]; [lia|].
  cbn [option_map summary su_healthScore overallHealth]. rewrite Hscore.
  set (a := totalAnomalies _). set (w := totalWarnings _).
  change (@leb xreal _) with xleb. change (@of_Z xreal _ 80) with (Fin 80).
  change (@of_Z xreal _ 50) with (Fin 50). cbn [xleb].
  assert (Ha : INR (3 * a + w) = 3 * INR a + INR w).
  { rewrite plus_INR, mult_INR. simpl. lra. }
  do 2 f_equal.
  destruct (Nat.leb_spec (3 * a + w) 4) as [H4|H4].
  - apply le_INR in H4. rewrite Ha in H4. simpl in H4.
    replace (Rleb 80 _) with true; [reflexivity|].
    symmetry. apply Rleb_true. unfold Rmax. destruct (Rle_dec _ _); lra.
  - apply lt_INR in H4. rewrite Ha in H4. simpl in H4.
    replace (Rleb 80 _) with false.
    2:{ symmetry. apply Rleb_false. unfold Rmax. destruct (Rle_dec _ _); lra. }
    destruct (Nat.leb_spec (3 * a + w) 10) as [H10|H10].
    + apply le_INR in H10. rewrite Ha in H10. simpl in H10.
      replace (Rleb 50 _) with true; [reflexivity|].
      symmetry. apply Rleb_true. unfold Rmax. destruct (Rle_dec _ _); lra.
    + apply lt_INR in H10. rewrite Ha in H10. simpl in H10.
      replace (Rleb 50 _) with false; [reflexivity|].
      symmetry. apply Rleb_false. unfold Rmax. destruct (Rle_dec _ _); lra.
Qed.

End Health.

